(** * nRF51 HAL timer: deadline queue on one hardware compare channel

    A shallow embedding of [hw/mcu/nordic/nrf51xxx/src/hal_timer.c] and the
    properties of its timer queue, compare arming, counter extension and
    prescaler selection. *)

From stdpp Require Import base tactics option numbers list sorting gmap.
From Stdlib Require Import ZArith Lia.

Local Open Scope Z_scope.

(** ** Machine integers *)

Module CInt.

Definition uint8_t (z : Z) : Z := z mod 2 ^ 8.
Definition uint16_t (z : Z) : Z := z mod 2 ^ 16.
Definition uint32_t (z : Z) : Z := z mod 2 ^ 32.

(** The cast [(int32_t)x] of a 32-bit unsigned value (two's complement). *)
Definition int32_t (z : Z) : Z :=
  let w := z mod 2 ^ 32 in if w <? 2 ^ 31 then w else w - 2 ^ 32.

(** A C [int] object: automatic variables start out indeterminate. *)
Inductive cint : Type :=
| Indeterminate
| Int (z : Z).

End CInt.
Export CInt.

(** ** Constants *)

Definition NRF_TIMER_CC_OVERFLOW : nat := 1.
Definition NRF_TIMER_CC_READ : nat := 2.
Definition NRF_TIMER_CC_INT : nat := 3.
Definition NRF51_HAL_TIMER_MAX : Z := 3.
Definition NRF51_MAX_TIMER_FREQ : Z := 16000000.

(** [errno.h] and the vendor headers [nrf51.h], [nrf51_bitfields.h] are not
    part of the sources; the values below are the ones these headers give.
    The proofs use no more than [EINVAL <> 0] and that the two bit modes
    differ. *)
Definition EINVAL : Z := 22.
Definition TIMER0_IRQn : Z := 8.
Definition TIMER1_IRQn : Z := 9.
Definition TIMER2_IRQn : Z := 10.
Definition TIMER_MODE_MODE_Timer : Z := 0.
Definition TIMER_BITMODE_BITMODE_16Bit : Z := 0.
Definition TIMER_BITMODE_BITMODE_32Bit : Z := 3.

(** [#define NRF_TIMER_INT_MASK(x) ((1 << (uint32_t)(x)) << 16)] *)
Definition NRF_TIMER_INT_MASK (x : nat) : Z :=
  Z.shiftl (Z.shiftl 1 (Z.of_nat x)) 16.

(** ** Data model *)

(** One TIMER peripheral.  [COUNTER] and [RUNNING] are the internal counter
    and its run state; the other fields are the memory-mapped registers the
    driver touches.  [INTEN] is the interrupt-enable mask that [INTENSET] and
    [INTENCLR] set and clear bits of. *)
Record NRF_TIMER_Type : Type := mkNRF_TIMER {
  COUNTER : Z;
  RUNNING : bool;
  CC : nat -> Z;
  EVENTS_COMPARE : nat -> Z;
  INTEN : Z;
  PRESCALER : Z;
  MODE : Z;
  BITMODE : Z
}.

(** [struct nrf51_hal_timer].  [tmr_reg] is [None] for a NULL register
    pointer and [Some n] for [NRF_TIMERn]; [hal_timer_q] is the TAILQ of
    software timers, head first, as the list of their addresses. *)
Record nrf51_hal_timer : Type := mkBspTimer {
  tmr_enabled : Z;
  tmr_irq_num : Z;
  tmr_16bit : Z;
  tmr_cntr : Z;
  timer_isrs : Z;
  tmr_freq : Z;
  tmr_reg : option nat;
  hal_timer_q : list Z
}.

(** [struct hal_timer].  [bsp_timer] is [None] for NULL and [Some n] for
    [&nrf51_hal_timer<n>]; [cb_func] is a function pointer with [0] for NULL;
    [link_tqe_prev] tells whether [link.tqe_prev] is non-NULL. *)
Record hal_timer : Type := mkHalTimer {
  bsp_timer : option nat;
  cb_func : Z;
  cb_arg : Z;
  expiry : Z;
  link_tqe_prev : bool
}.

(** Build configuration ([MYNEWT_VAL]). *)
Record syscfg : Type := mkSyscfg {
  TIMER_0 : bool;
  TIMER_1 : bool;
  TIMER_2 : bool;
  TIMER_0_INTERRUPT_PRIORITY : Z;
  TIMER_1_INTERRUPT_PRIORITY : Z;
  TIMER_2_INTERRUPT_PRIORITY : Z
}.

(** The machine: the three static device structures, the three peripherals,
    the client's timer objects by address, the interrupt controller, the
    clock, the interrupt mask, and [elapse]: the number of ticks that the
    counter being captured has run since it was last captured, one entry per
    capture still to come (none left: the counter stands still). *)
Record state : Type := mkState {
  bsptimers : nat -> nrf51_hal_timer;
  NRF_TIMER : nat -> NRF_TIMER_Type;
  timers : gmap Z hal_timer;
  PRIMASK : bool;
  nvic_pending : gset Z;
  nvic_enabled : gset Z;
  nvic_priority : gmap Z Z;
  nvic_vector : gmap Z Z;
  HFCLK_running : bool;
  elapse : list N
}.

(** [f] with the entry of index [n] replaced: the static objects are
    indexed by their number. *)
Definition upd {A : Type} (f : nat -> A) (n : nat) (a : A) : nat -> A :=
  fun m => if (m =? n)%nat then a else f m.
Arguments upd {A} f n a m : simpl never.

(** A C truth value. *)
Definition nonzero (z : Z) : bool := negb (z =? 0).

Definition set_bsptimers (f : nat -> nrf51_hal_timer) (s : state) : state :=
  mkState f (NRF_TIMER s) (timers s) (PRIMASK s) (nvic_pending s)
    (nvic_enabled s) (nvic_priority s) (nvic_vector s) (HFCLK_running s)
    (elapse s).
Definition set_NRF_TIMER (f : nat -> NRF_TIMER_Type) (s : state) : state :=
  mkState (bsptimers s) f (timers s) (PRIMASK s) (nvic_pending s)
    (nvic_enabled s) (nvic_priority s) (nvic_vector s) (HFCLK_running s)
    (elapse s).
Definition set_timers (m : gmap Z hal_timer) (s : state) : state :=
  mkState (bsptimers s) (NRF_TIMER s) m (PRIMASK s) (nvic_pending s)
    (nvic_enabled s) (nvic_priority s) (nvic_vector s) (HFCLK_running s)
    (elapse s).
Definition set_PRIMASK (b : bool) (s : state) : state :=
  mkState (bsptimers s) (NRF_TIMER s) (timers s) b (nvic_pending s)
    (nvic_enabled s) (nvic_priority s) (nvic_vector s) (HFCLK_running s)
    (elapse s).
Definition set_nvic_pending (p : gset Z) (s : state) : state :=
  mkState (bsptimers s) (NRF_TIMER s) (timers s) (PRIMASK s) p
    (nvic_enabled s) (nvic_priority s) (nvic_vector s) (HFCLK_running s)
    (elapse s).
Definition set_nvic_install (irq prio vec : Z) (s : state) : state :=
  mkState (bsptimers s) (NRF_TIMER s) (timers s) (PRIMASK s) (nvic_pending s)
    ({[irq]} ∪ nvic_enabled s) (<[irq:=prio]> (nvic_priority s))
    (<[irq:=vec]> (nvic_vector s)) (HFCLK_running s) (elapse s).
Definition set_HFCLK_running (b : bool) (s : state) : state :=
  mkState (bsptimers s) (NRF_TIMER s) (timers s) (PRIMASK s) (nvic_pending s)
    (nvic_enabled s) (nvic_priority s) (nvic_vector s) b (elapse s).
Definition set_elapse (l : list N) (s : state) : state :=
  mkState (bsptimers s) (NRF_TIMER s) (timers s) (PRIMASK s) (nvic_pending s)
    (nvic_enabled s) (nvic_priority s) (nvic_vector s) (HFCLK_running s) l.

Definition with_tmr_cntr (v : Z) (b : nrf51_hal_timer) : nrf51_hal_timer :=
  mkBspTimer (tmr_enabled b) (tmr_irq_num b) (tmr_16bit b) v (timer_isrs b)
    (tmr_freq b) (tmr_reg b) (hal_timer_q b).
Definition with_timer_isrs (v : Z) (b : nrf51_hal_timer) : nrf51_hal_timer :=
  mkBspTimer (tmr_enabled b) (tmr_irq_num b) (tmr_16bit b) (tmr_cntr b) v
    (tmr_freq b) (tmr_reg b) (hal_timer_q b).
Definition with_tmr_enabled (v : Z) (b : nrf51_hal_timer) : nrf51_hal_timer :=
  mkBspTimer v (tmr_irq_num b) (tmr_16bit b) (tmr_cntr b) (timer_isrs b)
    (tmr_freq b) (tmr_reg b) (hal_timer_q b).
Definition with_tmr_freq (v : Z) (b : nrf51_hal_timer) : nrf51_hal_timer :=
  mkBspTimer (tmr_enabled b) (tmr_irq_num b) (tmr_16bit b) (tmr_cntr b)
    (timer_isrs b) v (tmr_reg b) (hal_timer_q b).
Definition with_tmr_16bit (v : Z) (b : nrf51_hal_timer) : nrf51_hal_timer :=
  mkBspTimer (tmr_enabled b) (tmr_irq_num b) v (tmr_cntr b) (timer_isrs b)
    (tmr_freq b) (tmr_reg b) (hal_timer_q b).
Definition with_tmr_reg_irq (r : option nat) (irq : Z) (b : nrf51_hal_timer)
  : nrf51_hal_timer :=
  mkBspTimer (tmr_enabled b) irq (tmr_16bit b) (tmr_cntr b) (timer_isrs b)
    (tmr_freq b) r (hal_timer_q b).
Definition with_hal_timer_q (q : list Z) (b : nrf51_hal_timer)
  : nrf51_hal_timer :=
  mkBspTimer (tmr_enabled b) (tmr_irq_num b) (tmr_16bit b) (tmr_cntr b)
    (timer_isrs b) (tmr_freq b) (tmr_reg b) q.

Definition with_COUNTER (c : Z) (ev : nat -> Z) (r : NRF_TIMER_Type)
  : NRF_TIMER_Type :=
  mkNRF_TIMER c (RUNNING r) (CC r) ev (INTEN r) (PRESCALER r) (MODE r)
    (BITMODE r).
Definition with_RUNNING (b : bool) (r : NRF_TIMER_Type) : NRF_TIMER_Type :=
  mkNRF_TIMER (COUNTER r) b (CC r) (EVENTS_COMPARE r) (INTEN r) (PRESCALER r)
    (MODE r) (BITMODE r).
Definition with_CC (i : nat) (v : Z) (r : NRF_TIMER_Type) : NRF_TIMER_Type :=
  mkNRF_TIMER (COUNTER r) (RUNNING r) (upd (CC r) i v) (EVENTS_COMPARE r)
    (INTEN r) (PRESCALER r) (MODE r) (BITMODE r).
Definition with_EVENTS_COMPARE (i : nat) (v : Z) (r : NRF_TIMER_Type)
  : NRF_TIMER_Type :=
  mkNRF_TIMER (COUNTER r) (RUNNING r) (CC r) (upd (EVENTS_COMPARE r) i v)
    (INTEN r) (PRESCALER r) (MODE r) (BITMODE r).
Definition with_INTEN (v : Z) (r : NRF_TIMER_Type) : NRF_TIMER_Type :=
  mkNRF_TIMER (COUNTER r) (RUNNING r) (CC r) (EVENTS_COMPARE r) v
    (PRESCALER r) (MODE r) (BITMODE r).
Definition with_PRESCALER (v : Z) (r : NRF_TIMER_Type) : NRF_TIMER_Type :=
  mkNRF_TIMER (COUNTER r) (RUNNING r) (CC r) (EVENTS_COMPARE r) (INTEN r) v
    (MODE r) (BITMODE r).
Definition with_MODE (v : Z) (r : NRF_TIMER_Type) : NRF_TIMER_Type :=
  mkNRF_TIMER (COUNTER r) (RUNNING r) (CC r) (EVENTS_COMPARE r) (INTEN r)
    (PRESCALER r) v (BITMODE r).
Definition with_BITMODE (v : Z) (r : NRF_TIMER_Type) : NRF_TIMER_Type :=
  mkNRF_TIMER (COUNTER r) (RUNNING r) (CC r) (EVENTS_COMPARE r) (INTEN r)
    (PRESCALER r) (MODE r) v.

Definition with_callback (d : option nat) (f a : Z) (t : hal_timer)
  : hal_timer :=
  mkHalTimer d f a (expiry t) false.
Definition with_expiry (e : Z) (t : hal_timer) : hal_timer :=
  mkHalTimer (bsp_timer t) (cb_func t) (cb_arg t) e (link_tqe_prev t).
Definition with_link_tqe_prev (l : bool) (t : hal_timer) : hal_timer :=
  mkHalTimer (bsp_timer t) (cb_func t) (cb_arg t) (expiry t) l.

(** ** Outcomes and the driver monad *)

(** What running driver code on a machine state gives: a value and the next
    state, a failed [assert], behaviour that C leaves undefined (a NULL or
    dangling pointer dereferenced, an index out of bounds, a division by
    zero, a call through NULL), or a loop still running when the fuel of
    the model ran out. *)
Inductive outcome (A : Type) : Type :=
| Ret (a : A) (s : state)
| AssertFail
| Undefined
| OutOfFuel.
Arguments Ret {A} a s.
Arguments AssertFail {A}.
Arguments Undefined {A}.
Arguments OutOfFuel {A}.

Definition M (A : Type) : Type := state -> outcome A.

(** [run m s]: the outcome of the code [m] started in state [s]. *)
Abbreviation run m s := (m s) (only parsing).

#[global] Instance M_ret : MRet M := fun A a s => Ret a s.
#[global] Instance M_bind : MBind M := fun A B f m s =>
  match m s with
  | Ret a s' => f a s'
  | AssertFail => AssertFail
  | Undefined => Undefined
  | OutOfFuel => OutOfFuel
  end.
#[global] Instance M_fmap : FMap M := fun A B f m s =>
  match m s with
  | Ret a s' => Ret (f a) s'
  | AssertFail => AssertFail
  | Undefined => Undefined
  | OutOfFuel => OutOfFuel
  end.

Definition get : M state := fun s => Ret s s.
Definition modify (f : state -> state) : M unit := fun s => Ret tt (f s).
Definition undefined {A} : M A := fun _ => Undefined.
Definition assert_fail {A} : M A := fun _ => AssertFail.
Definition out_of_fuel {A} : M A := fun _ => OutOfFuel.

(** The final state of a run that returned. *)
Definition final {A} (o : outcome A) : option state :=
  match o with Ret _ s => Some s | _ => None end.
Definition result {A} (o : outcome A) : option A :=
  match o with Ret a _ => Some a | _ => None end.

(** ** The peripheral and the interrupt controller *)

Module Hw.

(** Counter width selected by [BITMODE]. *)
Definition width (r : NRF_TIMER_Type) : Z :=
  if BITMODE r =? 0 then 16
  else if BITMODE r =? 1 then 8
  else if BITMODE r =? 2 then 24
  else 32.

(** Does a counter at [c] take the value [cc] (in [w] bits) at one of its
    next [d] ticks? *)
Definition reaches (w c d cc : Z) : bool := (cc - c - 1) mod 2 ^ w <? d.

(** The counter runs for [d] ticks: it wraps at its width, and every
    compare channel whose value it takes on the way raises its event. *)
Definition advance (d : Z) (r : NRF_TIMER_Type) : NRF_TIMER_Type :=
  if RUNNING r then
    with_COUNTER ((COUNTER r + d) mod 2 ^ width r)
      (fun i => if reaches (width r) (COUNTER r) d (CC r i) then 1
                else EVENTS_COMPARE r i) r
  else r.

(** [TASKS_CAPTURE[i] = 1]: the counter is copied to [CC[i]]. *)
Definition capture (i : nat) (r : NRF_TIMER_Type) : NRF_TIMER_Type :=
  with_CC i (COUNTER r) r.

End Hw.

Definition next_elapse : M Z := fun s =>
  match elapse s with
  | [] => Ret 0 s
  | d :: l => Ret (Z.of_N d) (set_elapse l s)
  end.

(** Register access through a [NRF_TIMER_Type *]. *)
Definition reg_read (hwtimer : option nat) : M NRF_TIMER_Type :=
  match hwtimer with
  | None => undefined
  | Some n => fun s => Ret (NRF_TIMER s n) s
  end.

Definition reg_write (hwtimer : option nat)
    (f : NRF_TIMER_Type -> NRF_TIMER_Type) : M unit :=
  match hwtimer with
  | None => undefined
  | Some n =>
      modify (fun s => set_NRF_TIMER (upd (NRF_TIMER s) n (f (NRF_TIMER s n))) s)
  end.

Definition write_INTENCLR (hwtimer : option nat) (v : Z) : M unit :=
  reg_write hwtimer (fun r => with_INTEN (Z.ldiff (INTEN r) v) r).
Definition write_INTENSET (hwtimer : option nat) (v : Z) : M unit :=
  reg_write hwtimer (fun r => with_INTEN (Z.lor (INTEN r) v) r).
Definition write_CC (hwtimer : option nat) (i : nat) (v : Z) : M unit :=
  reg_write hwtimer (with_CC i v).
Definition write_EVENTS_COMPARE (hwtimer : option nat) (i : nat) (v : Z)
  : M unit :=
  reg_write hwtimer (with_EVENTS_COMPARE i v).
Definition write_TASKS_CAPTURE (hwtimer : option nat) (i : nat) : M unit :=
  d ← next_elapse;
  reg_write hwtimer (fun r => Hw.capture i (Hw.advance d r)).
Definition write_TASKS_STOP (hwtimer : option nat) : M unit :=
  reg_write hwtimer (with_RUNNING false).
Definition write_TASKS_START (hwtimer : option nat) : M unit :=
  reg_write hwtimer (with_RUNNING true).

Definition NVIC_SetPendingIRQ (irq : Z) : M unit :=
  modify (fun s => set_nvic_pending ({[irq]} ∪ nvic_pending s) s).

(** [__HAL_DISABLE_INTERRUPTS(x)] saves PRIMASK in [x] and masks interrupts;
    [__HAL_ENABLE_INTERRUPTS(x)] unmasks them if [x] says they were not
    masked before (macros of [mcu/nrf51_hal.h]). *)
Definition __HAL_DISABLE_INTERRUPTS : M bool :=
  fun s => Ret (PRIMASK s) (set_PRIMASK true s).
Definition __HAL_ENABLE_INTERRUPTS (ctx : bool) : M unit :=
  if ctx then mret tt else modify (set_PRIMASK false).

(** Access to a device structure and to a client timer object. *)
Definition get_bsptimer (bsptimer : nat) : M nrf51_hal_timer :=
  fun s => Ret (bsptimers s bsptimer) s.
Definition upd_bsptimer (bsptimer : nat)
    (f : nrf51_hal_timer -> nrf51_hal_timer) : M unit :=
  modify (fun s =>
    set_bsptimers (upd (bsptimers s) bsptimer (f (bsptimers s bsptimer))) s).

Definition deref (timer : Z) : M hal_timer := fun s =>
  match timers s !! timer with
  | Some t => if timer =? 0 then Undefined else Ret t s
  | None => Undefined
  end.
Definition upd_timer (timer : Z) (f : hal_timer -> hal_timer) : M unit :=
  t ← deref timer;
  modify (fun s => set_timers (<[timer:=f t]> (timers s)) s).

(** A [struct nrf51_hal_timer *] held in a [void *]. *)
Definition deref_bsp (p : option nat) : M nat :=
  match p with
  | None => undefined
  | Some n => mret n
  end.

(** ** TAILQ operations on the queue of a device *)

Fixpoint TAILQ_REMOVE (q : list Z) (timer : Z) : list Z :=
  match q with
  | [] => []
  | e :: q' => if e =? timer then q' else e :: TAILQ_REMOVE q' timer
  end.

(** The [TAILQ_FOREACH] of [hal_timer_start_at] over the entries [q]: the
    timer goes before the first entry that its expiry is before, and to the
    tail when the loop ends with no such entry.  [exp_of] reads
    [entry->expiry]. *)
Fixpoint tailq_insert (exp_of : Z -> option Z) (timer tick : Z) (q : list Z)
  : option (list Z) :=
  match q with
  | [] => Some [timer]
  | entry :: q' =>
      e ← exp_of entry;
      if int32_t (tick - e) <? 0 then Some (timer :: entry :: q')
      else (cons entry) <$> tailq_insert exp_of timer tick q'
  end.

Definition expiry_of (s : state) (timer : Z) : option Z :=
  if timer =? 0 then None else expiry <$> timers s !! timer.

(** [timer == TAILQ_FIRST(q)] for a non-NULL [timer]. *)
Definition is_first (q : list Z) (timer : Z) : bool :=
  match q with
  | first :: _ => first =? timer
  | [] => false
  end.

(** ** The driver *)

(** A dispatch of [hal_timer_chk_queue]: the timer, the tick value read,
    the timer's expiry, and the machine state handed to the callback. *)
Record dispatch : Type := mkDispatch {
  d_timer : Z;
  d_now : Z;
  d_expiry : Z;
  d_state : state
}.

Section Driver.

(** The build configuration, and what the client's callbacks do: running
    function pointer [f] on argument [a]. *)
Variable cfg : syscfg.
Variable cb_exec : Z -> Z -> M unit.

(** [nrf51_hal_timers[n]]: NULL where the timer is not configured. *)
Definition nrf51_hal_timers (n : nat) : option nat :=
  match n with
  | 0%nat => if TIMER_0 cfg then Some 0%nat else None
  | 1%nat => if TIMER_1 cfg then Some 1%nat else None
  | 2%nat => if TIMER_2 cfg then Some 2%nat else None
  | _ => None
  end.

(** [NRF51_HAL_TIMER_RESOLVE(n, v)]: [None] stands for [rc = EINVAL; goto
    err].  The bound is checked from above only, and [n] is a signed
    [int]: a negative [n] indexes the array out of bounds. *)
Definition NRF51_HAL_TIMER_RESOLVE (n : Z) : M (option nat) :=
  if n >=? NRF51_HAL_TIMER_MAX then mret None
  else if n <? 0 then undefined
  else mret (nrf51_hal_timers (Z.to_nat n)).

Definition nrf_read_timer_cntr (hwtimer : option nat) : M Z :=
  write_TASKS_CAPTURE hwtimer NRF_TIMER_CC_READ;;
  r ← reg_read hwtimer;
  mret (CC r NRF_TIMER_CC_READ).

Definition nrf_timer_set_ocmp (bsptimer : nat) (expiry : Z) : M unit :=
  b ← get_bsptimer bsptimer;
  let hwtimer := tmr_reg b in
  let set_ocmp_late := NVIC_SetPendingIRQ (tmr_irq_num b) in
  write_INTENCLR hwtimer (NRF_TIMER_INT_MASK NRF_TIMER_CC_INT);;
  if nonzero (tmr_16bit b) then
    let temp := Z.land expiry 0xffff0000 in
    let delta_t := int32_t (temp - tmr_cntr b) in
    if delta_t <? 0 then set_ocmp_late
    else if delta_t =? 0 then
      let expiry16 := uint16_t expiry in
      write_CC hwtimer NRF_TIMER_CC_INT expiry16;;
      write_EVENTS_COMPARE hwtimer NRF_TIMER_CC_INT 0;;
      write_INTENSET hwtimer (NRF_TIMER_INT_MASK NRF_TIMER_CC_INT);;
      c ← nrf_read_timer_cntr hwtimer;
      if c >? expiry16 then set_ocmp_late else mret tt
    else mret tt
  else
    write_CC hwtimer NRF_TIMER_CC_INT expiry;;
    write_EVENTS_COMPARE hwtimer NRF_TIMER_CC_INT 0;;
    write_INTENSET hwtimer (NRF_TIMER_INT_MASK NRF_TIMER_CC_INT);;
    c ← nrf_read_timer_cntr hwtimer;
    if int32_t (c - expiry) >=? 0 then set_ocmp_late else mret tt.

Definition nrf_timer_disable_ocmp (hwtimer : option nat) : M unit :=
  write_INTENCLR hwtimer (NRF_TIMER_INT_MASK NRF_TIMER_CC_INT).

Definition hal_timer_read_bsptimer (bsptimer : nat) : M Z :=
  b ← get_bsptimer bsptimer;
  if nonzero (tmr_16bit b) then
    let hwtimer := tmr_reg b in
    ctx ← __HAL_DISABLE_INTERRUPTS;
    let tcntr := tmr_cntr b in
    low ← uint16_t <$> nrf_read_timer_cntr hwtimer;
    r ← reg_read hwtimer;
    '(tcntr, low) ←
      (if nonzero (EVENTS_COMPARE r NRF_TIMER_CC_OVERFLOW) then
         let tcntr := uint32_t (tcntr + 65536) in
         upd_bsptimer bsptimer (with_tmr_cntr tcntr);;
         low ← uint16_t <$> nrf_read_timer_cntr hwtimer;
         write_EVENTS_COMPARE hwtimer NRF_TIMER_CC_OVERFLOW 0;;
         NVIC_SetPendingIRQ (tmr_irq_num b);;
         mret (tcntr, low)
       else mret (tcntr, low));
    let tcntr := Z.lor tcntr low in
    __HAL_ENABLE_INTERRUPTS ctx;;
    mret tcntr
  else
    nrf_read_timer_cntr (tmr_reg b).

(** The loop of [hal_timer_chk_queue]; the list returned records the
    dispatches made, first to last. *)
Fixpoint hal_timer_chk_queue_loop (fuel : nat) (bsptimer : nat)
  : M (list dispatch) :=
  match fuel with
  | O => out_of_fuel
  | S fuel' =>
      b ← get_bsptimer bsptimer;
      match hal_timer_q b with
      | [] => mret []
      | timer :: _ =>
          tcntr ← (if nonzero (tmr_16bit b)
                   then hal_timer_read_bsptimer bsptimer
                   else nrf_read_timer_cntr (tmr_reg b));
          t ← deref timer;
          if int32_t (tcntr - expiry t) >=? 0 then
            upd_bsptimer bsptimer
              (fun b => with_hal_timer_q (TAILQ_REMOVE (hal_timer_q b) timer) b);;
            upd_timer timer (with_link_tqe_prev false);;
            s ← get;
            (if cb_func t =? 0 then undefined
             else cb_exec (cb_func t) (cb_arg t));;
            ds ← hal_timer_chk_queue_loop fuel' bsptimer;
            mret (mkDispatch timer tcntr (expiry t) s :: ds)
          else mret []
      end
  end.

Definition hal_timer_chk_queue (fuel : nat) (bsptimer : nat)
  : M (list dispatch) :=
  ctx ← __HAL_DISABLE_INTERRUPTS;
  ds ← hal_timer_chk_queue_loop fuel bsptimer;
  b ← get_bsptimer bsptimer;
  match hal_timer_q b with
  | timer :: _ =>
      t ← deref timer;
      nrf_timer_set_ocmp bsptimer (expiry t)
  | [] => nrf_timer_disable_ocmp (tmr_reg b)
  end;;
  __HAL_ENABLE_INTERRUPTS ctx;;
  mret ds.

Definition hal_timer_irq_handler (fuel : nat) (bsptimer : nat)
  : M (list dispatch) :=
  b ← get_bsptimer bsptimer;
  let hwtimer := tmr_reg b in
  r ← reg_read hwtimer;
  let compare := EVENTS_COMPARE r NRF_TIMER_CC_INT in
  (if nonzero compare
   then write_EVENTS_COMPARE hwtimer NRF_TIMER_CC_INT 0 else mret tt);;
  (if nonzero (tmr_16bit b) then
     r ← reg_read hwtimer;
     let overflow := EVENTS_COMPARE r NRF_TIMER_CC_OVERFLOW in
     if nonzero overflow then
       write_EVENTS_COMPARE hwtimer NRF_TIMER_CC_OVERFLOW 0;;
       upd_bsptimer bsptimer
         (fun b => with_tmr_cntr (uint32_t (tmr_cntr b + 65536)) b)
     else mret tt
   else mret tt);;
  upd_bsptimer bsptimer
    (fun b => with_timer_isrs (uint32_t (timer_isrs b + 1)) b);;
  ds ← hal_timer_chk_queue fuel bsptimer;
  _ ← reg_read hwtimer;
  mret ds.

(** The [for] loop of [hal_timer_init] that finds the closest prescaler,
    entered with [prescaler] and [n] iterations left before
    [prescaler < 10] fails. *)
Fixpoint hal_timer_init_find (n : nat) (prescaler div : Z) : Z :=
  match n with
  | O => prescaler
  | S n' =>
      if div <=? Z.shiftl 1 prescaler then
        let min_delta := uint32_t (div - Z.shiftl 1 (prescaler - 1)) in
        let max_delta := uint32_t (Z.shiftl 1 prescaler - div) in
        if min_delta <? max_delta then uint8_t (prescaler - 1)
        else prescaler
      else hal_timer_init_find n' (uint8_t (prescaler + 1)) div
  end.

Definition hal_timer_init_prescaler (div : Z) : Z :=
  if div =? 1 then 0 else hal_timer_init_find 9 1 div.

(** The [switch (timer_num)] of [hal_timer_init]: interrupt number,
    peripheral, handler, whether the device is set to 16-bit mode, and
    priority. *)
Definition hal_timer_init_switch (timer_num : Z)
  : Z * option nat * Z * bool * Z :=
  if (timer_num =? 0) && TIMER_0 cfg
  then (TIMER0_IRQn, Some 0%nat, 0, false, TIMER_0_INTERRUPT_PRIORITY cfg)
  else if (timer_num =? 1) && TIMER_1 cfg
  then (TIMER1_IRQn, Some 1%nat, 1, true, TIMER_1_INTERRUPT_PRIORITY cfg)
  else if (timer_num =? 2) && TIMER_2 cfg
  then (TIMER2_IRQn, Some 2%nat, 2, true, TIMER_2_INTERRUPT_PRIORITY cfg)
  else (0, None, 0, false, 0).

Definition hal_timer_init (timer_num : Z) (freq_hz : Z) : M Z :=
  v ← NRF51_HAL_TIMER_RESOLVE timer_num;
  match v with
  | None => mret EINVAL
  | Some bsptimer =>
      if freq_hz =? 0 then undefined
      else
        let div := NRF51_MAX_TIMER_FREQ / freq_hz in
        b ← get_bsptimer bsptimer;
        if nonzero (tmr_enabled b) || (div =? 0) || (div >? 512)
        then mret EINVAL
        else
          let prescaler := hal_timer_init_prescaler div in
          upd_bsptimer bsptimer
            (with_tmr_freq (NRF51_MAX_TIMER_FREQ / Z.shiftl 1 prescaler));;
          let '(irq_num, hwtimer, irq_isr, set16, prio) :=
            hal_timer_init_switch timer_num in
          (if set16 then upd_bsptimer bsptimer (with_tmr_16bit 1)
           else mret tt);;
          match hwtimer with
          | None => mret EINVAL
          | Some _ =>
            upd_bsptimer bsptimer (with_tmr_reg_irq hwtimer irq_num);;
            upd_bsptimer bsptimer (with_tmr_enabled 1);;
            ctx ← __HAL_DISABLE_INTERRUPTS;
            (* the wait for the HFXO ends when the clock reports started *)
            modify (set_HFCLK_running true);;
            write_TASKS_STOP hwtimer;;
            reg_write hwtimer (with_PRESCALER prescaler);;
            reg_write hwtimer (with_MODE TIMER_MODE_MODE_Timer);;
            b ← get_bsptimer bsptimer;
            (if nonzero (tmr_16bit b) then
               reg_write hwtimer (with_BITMODE TIMER_BITMODE_BITMODE_16Bit);;
               write_CC hwtimer NRF_TIMER_CC_OVERFLOW 0;;
               write_EVENTS_COMPARE hwtimer NRF_TIMER_CC_OVERFLOW 0;;
               write_INTENSET hwtimer
                 (NRF_TIMER_INT_MASK NRF_TIMER_CC_OVERFLOW)
             else
               reg_write hwtimer (with_BITMODE TIMER_BITMODE_BITMODE_32Bit));;
            write_TASKS_START hwtimer;;
            modify (set_nvic_install irq_num prio irq_isr);;
            __HAL_ENABLE_INTERRUPTS ctx;;
            reg_write hwtimer (with_PRESCALER prescaler);;
            mret 0
          end
  end.

(** [rc] is assigned by the resolve macro on its error paths only. *)
Definition hal_timer_deinit (timer_num : Z) : M cint :=
  let rc := Indeterminate in
  v ← NRF51_HAL_TIMER_RESOLVE timer_num;
  match v with
  | None => mret (Int EINVAL)
  | Some bsptimer =>
      ctx ← __HAL_DISABLE_INTERRUPTS;
      b ← get_bsptimer bsptimer;
      let hwtimer := tmr_reg b in
      write_INTENCLR hwtimer (NRF_TIMER_INT_MASK NRF_TIMER_CC_INT);;
      write_TASKS_STOP hwtimer;;
      __HAL_ENABLE_INTERRUPTS ctx;;
      upd_bsptimer bsptimer (with_tmr_enabled 0);;
      mret rc
  end.

Definition hal_timer_get_resolution (timer_num : Z) : M Z :=
  v ← NRF51_HAL_TIMER_RESOLVE timer_num;
  match v with
  | None => mret 0
  | Some bsptimer =>
      b ← get_bsptimer bsptimer;
      if tmr_freq b =? 0 then undefined
      else mret (1000000000 / tmr_freq b)
  end.

Definition hal_timer_read (timer_num : Z) : M Z :=
  v ← NRF51_HAL_TIMER_RESOLVE timer_num;
  match v with
  | None => assert_fail
  | Some bsptimer => hal_timer_read_bsptimer bsptimer
  end.

(** The [while] loop of [hal_timer_delay]; the list returned holds the
    tick values that its condition read, first to last. *)
Fixpoint hal_timer_delay_loop (fuel : nat) (timer_num until : Z)
  : M (list Z) :=
  match fuel with
  | O => out_of_fuel
  | S fuel' =>
      now ← hal_timer_read timer_num;
      if int32_t (now - until) <=? 0 then
        cons now <$> hal_timer_delay_loop fuel' timer_num until
      else mret [now]
  end.

Definition hal_timer_delay (fuel : nat) (timer_num ticks : Z) : M Z :=
  now ← hal_timer_read timer_num;
  let until := uint32_t (now + ticks) in
  hal_timer_delay_loop fuel timer_num until;;
  mret 0.

Definition hal_timer_set_cb (timer_num timer cb_func arg : Z) : M Z :=
  v ← NRF51_HAL_TIMER_RESOLVE timer_num;
  match v with
  | None => mret EINVAL
  | Some bsptimer =>
      upd_timer timer (with_callback (Some bsptimer) cb_func arg);;
      mret 0
  end.

Definition hal_timer_start_at (timer tick : Z) : M Z :=
  if timer =? 0 then mret EINVAL
  else
    t ← deref timer;
    if link_tqe_prev t || (cb_func t =? 0) then mret EINVAL
    else
      bsptimer ← deref_bsp (bsp_timer t);
      upd_timer timer (with_expiry tick);;
      ctx ← __HAL_DISABLE_INTERRUPTS;
      b ← get_bsptimer bsptimer;
      s ← get;
      match
        (match hal_timer_q b with
         | [] => Some [timer]
         | _ => tailq_insert (expiry_of s) timer tick (hal_timer_q b)
         end)
      with
      | None => undefined
      | Some q =>
          upd_bsptimer bsptimer (with_hal_timer_q q);;
          upd_timer timer (with_link_tqe_prev true)
      end;;
      b ← get_bsptimer bsptimer;
      (if is_first (hal_timer_q b) timer then
         t ← deref timer;
         nrf_timer_set_ocmp bsptimer (expiry t)
       else mret tt);;
      __HAL_ENABLE_INTERRUPTS ctx;;
      mret 0.

Definition hal_timer_start (timer ticks : Z) : M Z :=
  if nonzero ticks then
    t ← deref timer;
    bsptimer ← deref_bsp (bsp_timer t);
    now ← hal_timer_read_bsptimer bsptimer;
    let tick := uint32_t (now + ticks) in
    hal_timer_start_at timer tick
  else mret EINVAL.

Definition hal_timer_stop (timer : Z) : M Z :=
  if timer =? 0 then mret EINVAL
  else
    t ← deref timer;
    ctx ← __HAL_DISABLE_INTERRUPTS;
    (if link_tqe_prev t then
       bsptimer ← deref_bsp (bsp_timer t);
       b ← get_bsptimer bsptimer;
       let reset_ocmp := is_first (hal_timer_q b) timer in
       let entry := head (tail (hal_timer_q b)) in
       upd_bsptimer bsptimer
         (fun b => with_hal_timer_q (TAILQ_REMOVE (hal_timer_q b) timer) b);;
       upd_timer timer (with_link_tqe_prev false);;
       if reset_ocmp then
         match entry with
         | Some e =>
             te ← deref e;
             eb ← deref_bsp (bsp_timer te);
             nrf_timer_set_ocmp eb (expiry te)
         | None =>
             b ← get_bsptimer bsptimer;
             nrf_timer_disable_ocmp (tmr_reg b)
         end
       else mret tt
     else mret tt);;
    __HAL_ENABLE_INTERRUPTS ctx;;
    mret 0.

End Driver.

(** ** The counter running between the accesses

    The driver above lets the counter run at the captures only: nothing
    elapses between two accesses of the code to the peripheral unless one
    of them is a capture.  The counter of the hardware runs on its own.
    [Running] has the read path of the driver again, the same code, with
    the counter running before every access to the peripheral as well: each
    access takes the next entry of [elapse]. *)

Module Running.

(** The counter runs for the ticks that pass before the next access. *)
Definition run_on (hwtimer : option nat) : M unit :=
  d ← next_elapse;
  reg_write hwtimer (Hw.advance d).

Definition reg_read (hwtimer : option nat) : M NRF_TIMER_Type :=
  run_on hwtimer;;
  reg_read hwtimer.

Definition write_EVENTS_COMPARE (hwtimer : option nat) (i : nat) (v : Z)
  : M unit :=
  run_on hwtimer;;
  write_EVENTS_COMPARE hwtimer i v.

Definition nrf_read_timer_cntr (hwtimer : option nat) : M Z :=
  write_TASKS_CAPTURE hwtimer NRF_TIMER_CC_READ;;
  r ← reg_read hwtimer;
  mret (CC r NRF_TIMER_CC_READ).

Definition hal_timer_read_bsptimer (bsptimer : nat) : M Z :=
  b ← get_bsptimer bsptimer;
  if nonzero (tmr_16bit b) then
    let hwtimer := tmr_reg b in
    ctx ← __HAL_DISABLE_INTERRUPTS;
    let tcntr := tmr_cntr b in
    low ← uint16_t <$> nrf_read_timer_cntr hwtimer;
    r ← reg_read hwtimer;
    '(tcntr, low) ←
      (if nonzero (EVENTS_COMPARE r NRF_TIMER_CC_OVERFLOW) then
         let tcntr := uint32_t (tcntr + 65536) in
         upd_bsptimer bsptimer (with_tmr_cntr tcntr);;
         low ← uint16_t <$> nrf_read_timer_cntr hwtimer;
         write_EVENTS_COMPARE hwtimer NRF_TIMER_CC_OVERFLOW 0;;
         NVIC_SetPendingIRQ (tmr_irq_num b);;
         mret (tcntr, low)
       else mret (tcntr, low));
    let tcntr := Z.lor tcntr low in
    __HAL_ENABLE_INTERRUPTS ctx;;
    mret tcntr
  else
    nrf_read_timer_cntr (tmr_reg b).

End Running.

(** ** Successive calls *)

(** [k] calls of [m] in a row, with the values they return. *)
Fixpoint calls {A : Type} (k : nat) (m : M A) : M (list A) :=
  match k with
  | O => mret []
  | S k' => a ← m; cons a <$> calls k' m
  end.

(** ** Notions used by the statements *)

(** The compare interrupt of channel [NRF_TIMER_CC_INT] is enabled. *)
Definition compare_enabled (r : NRF_TIMER_Type) : Prop :=
  Z.testbit (INTEN r) (16 + Z.of_nat NRF_TIMER_CC_INT) = true.

(** What [nrf_timer_set_ocmp] leaves in the peripheral [r] of device [b]
    for the expiry [e]: a 32-bit device has the compare register at [e] and
    the interrupt enabled; a 16-bit device has the register at the low half
    of [e] and the interrupt enabled when the high half of [e] is the
    device's overflow tally, and the interrupt disabled otherwise. *)
Definition armed_for (b : nrf51_hal_timer) (r : NRF_TIMER_Type) (e : Z)
  : Prop :=
  if nonzero (tmr_16bit b) then
    if int32_t (Z.land e 0xffff0000 - tmr_cntr b) =? 0
    then CC r NRF_TIMER_CC_INT = uint16_t e /\ compare_enabled r
    else ~ compare_enabled r
  else CC r NRF_TIMER_CC_INT = e /\ compare_enabled r.

(** The compare channel of device [n] follows the head of its queue. *)
Definition rearm_inv (s : state) (n : nat) : Prop :=
  exists hw, tmr_reg (bsptimers s n) = Some hw /\
    match hal_timer_q (bsptimers s n) with
    | [] => ~ compare_enabled (NRF_TIMER s hw)
    | first :: _ =>
        exists t, timers s !! first = Some t /\
          armed_for (bsptimers s n) (NRF_TIMER s hw) (expiry t)
    end.

(** The claim that the compare interrupt is off exactly when the queue is
    empty, and is otherwise set to the expiry of the head. *)
Definition compare_tracks_head (s : state) (n hw : nat) : Prop :=
  ((hal_timer_q (bsptimers s n) = []) <-> (~ compare_enabled (NRF_TIMER s hw))) /\
  forall first t, head (hal_timer_q (bsptimers s n)) = Some first ->
    timers s !! first = Some t ->
    CC (NRF_TIMER s hw) NRF_TIMER_CC_INT = expiry t.

(** The queue of device [n] is a well-formed TAILQ: the device has its
    peripheral, no timer is linked twice, and every entry is a timer object
    of this device that is marked as linked and has a callback. *)
Definition queue_ok (s : state) (n : nat) : Prop :=
  is_Some (tmr_reg (bsptimers s n)) /\
  NoDup (hal_timer_q (bsptimers s n)) /\
  forall x, x ∈ hal_timer_q (bsptimers s n) ->
    x ≠ 0 /\ exists t, timers s !! x = Some t /\ bsp_timer t = Some n /\
      link_tqe_prev t = true /\ cb_func t ≠ 0.

(** [s'] has the timer objects, queues and configuration of [s]. *)
Definition frame (s s' : state) : Prop :=
  timers s' = timers s /\
  forall m, hal_timer_q (bsptimers s' m) = hal_timer_q (bsptimers s m) /\
    tmr_reg (bsptimers s' m) = tmr_reg (bsptimers s m) /\
    tmr_16bit (bsptimers s' m) = tmr_16bit (bsptimers s m).

(** A timer that is idle and ready to be started on device [n]. *)
Definition startable (s : state) (n : nat) (timer : Z) : Prop :=
  timer ≠ 0 /\ exists t, timers s !! timer = Some t /\
    bsp_timer t = Some n /\ link_tqe_prev t = false /\ cb_func t ≠ 0.

(** The facts of one dispatch [d] of the queue of device [n]. *)
Definition dispatch_ok (n : nat) (d : dispatch) : Prop :=
  int32_t (d_now d - d_expiry d) >= 0 /\
  queue_ok (d_state d) n /\
  (d_timer d ∉ hal_timer_q (bsptimers (d_state d) n)) /\
  startable (d_state d) n (d_timer d) /\
  expiry_of (d_state d) (d_timer d) = Some (d_expiry d).

(** The tick value last read from device [n] on peripheral [hw]: what the
    last capture left in the read channel, under the overflow tally on a
    16-bit device. *)
Definition tick_read (s : state) (n hw : nat) : Z :=
  if nonzero (tmr_16bit (bsptimers s n))
  then Z.lor (tmr_cntr (bsptimers s n))
             (uint16_t (CC (NRF_TIMER s hw) NRF_TIMER_CC_READ))
  else CC (NRF_TIMER s hw) NRF_TIMER_CC_READ.

(** [s1] has the queue of device [n] and the timer objects of [s0] but for
    [timer]: it was linked at the head of the queue in [s0], and in [s1] it
    is out of the queue with its link cleared. *)
Definition unlinked_from (n : nat) (timer : Z) (s0 s1 : state) : Prop :=
  exists t0, timers s0 !! timer = Some t0 /\ link_tqe_prev t0 = true /\
    hal_timer_q (bsptimers s0 n) = timer :: hal_timer_q (bsptimers s1 n) /\
    timers s1 = <[timer:=with_link_tqe_prev false t0]> (timers s0).

(** Prescaler selection: [2 ^ e] is as close to [div] as a power of two
    with exponent [0..9] gets, and [div] lies halfway between [2 ^ (e - 1)]
    and [2 ^ e]. *)
Definition nearest_exponent (div e : Z) : Prop :=
  0 <= e <= 9 /\
  forall e', 0 <= e' <= 9 -> Z.abs (2 ^ e - div) <= Z.abs (2 ^ e' - div).

Definition halfway (div e : Z) : Prop :=
  1 <= e <= 9 /\ div - 2 ^ (e - 1) = 2 ^ e - div.

(** Wraparound-aware order within a window: the distance of a tick from
    [base], and the expiries of the entries of a queue. *)
Definition offset (base x : Z) : Z := (x - base) mod 2 ^ 32.

Definition in_window (base x : Z) : Prop := offset base x < 2 ^ 31.

Definition expiries (s : state) (q : list Z) : list Z :=
  (fun x => default 0 (expiry_of s x)) <$> q.

Definition queue_sorted (base : Z) (s : state) (q : list Z) : Prop :=
  StronglySorted Z.le (offset base <$> expiries s q).

(** ** Auxiliary notions of the proofs *)

(** The peripheral [hw] after the next capture into the read channel. *)
Definition captured (hw : nat) (s : state) : NRF_TIMER_Type :=
  Hw.capture NRF_TIMER_CC_READ
    (Hw.advance (match elapse s with [] => 0 | d :: _ => Z.of_N d end)
       (NRF_TIMER s hw)).

(** The state in which the callback of the head [timer] with object [t]
    runs: unlinked from the queue of device [n], link cleared. *)
Definition unlinked (n : nat) (timer : Z) (t : hal_timer) (s : state) : state :=
  set_timers (<[timer:=with_link_tqe_prev false t]> (timers s))
    (set_bsptimers
       (upd (bsptimers s) n
          (with_hal_timer_q (TAILQ_REMOVE (hal_timer_q (bsptimers s n)) timer)
             (bsptimers s n)))
       s).

(** [queue_ok], as a test that computes. *)
Definition queue_okb (s : state) (n : nat) : bool :=
  match tmr_reg (bsptimers s n) with Some _ => true | None => false end &&
  bool_decide (NoDup (hal_timer_q (bsptimers s n))) &&
  forallb (fun x =>
    negb (x =? 0) &&
    match timers s !! x with
    | Some t =>
        match bsp_timer t with Some m => (m =? n)%nat | None => false end &&
        link_tqe_prev t && negb (cb_func t =? 0)
    | None => false
    end) (hal_timer_q (bsptimers s n)).

(** The exponent chosen for divisor [div] is in range, nearest, and the
    larger one on a tie; as a test that computes. *)
Definition prescaler_check (div : Z) : bool :=
  let e := hal_timer_init_prescaler div in
  (0 <=? e) && (e <=? 9) &&
  forallb (fun e' =>
    (Z.abs (2 ^ e - div) <=? Z.abs (2 ^ e' - div)) &&
    (negb ((1 <=? e') && (div - 2 ^ (e' - 1) =? 2 ^ e' - div)) || (e =? e')))
    (seqZ 0 10).

(** Device [n] is a 16-bit device on peripheral [hw], set up as
    [hal_timer_init] leaves it: counter 16 bits wide, overflow channel
    compared with 0, and an overflow tally that is a multiple of 65536. *)
Definition narrow_ok (s : state) (n hw : nat) : Prop :=
  nonzero (tmr_16bit (bsptimers s n)) = true /\
  tmr_reg (bsptimers s n) = Some hw /\
  BITMODE (NRF_TIMER s hw) = TIMER_BITMODE_BITMODE_16Bit /\
  CC (NRF_TIMER s hw) NRF_TIMER_CC_OVERFLOW mod 2 ^ 16 = 0 /\
  0 <= tmr_cntr (bsptimers s n) /\
  tmr_cntr (bsptimers s n) mod 2 ^ 16 = 0.

(** The extended tick value the device stands at. *)
Definition extended (s : state) (n hw : nat) : Z :=
  tmr_cntr (bsptimers s n) + uint16_t (COUNTER (NRF_TIMER s hw)).

(** The overflow compare interrupt of a 16-bit device is enabled. *)
Definition overflow_enabled (r : NRF_TIMER_Type) : Prop :=
  Z.testbit (INTEN r) (16 + Z.of_nat NRF_TIMER_CC_OVERFLOW) = true.

(** Code that returns with the interrupt mask it was entered with, and code
    that, entered with interrupts masked, returns with the mask [b]. *)
Definition keeps_mask {A : Type} (m : M A) : Prop :=
  forall s a s', run m s = Ret a s' -> PRIMASK s' = PRIMASK s.

Definition restores_mask {A : Type} (b : bool) (m : M A) : Prop :=
  forall s a s', PRIMASK s = true -> run m s = Ret a s' -> PRIMASK s' = b.

(** The expiry [e] that the compare channel of device [n] is set to is not
    missed: the interrupt of the device is pending, or the compare event is
    flagged, or the counter is still before [e]. *)
Definition wake_pending (s : state) (n hw : nat) (e : Z) : Prop :=
  tmr_irq_num (bsptimers s n) ∈ nvic_pending s \/
  EVENTS_COMPARE (NRF_TIMER s hw) NRF_TIMER_CC_INT ≠ 0 \/
  int32_t (COUNTER (NRF_TIMER s hw) - e) < 0.

(** A 32-bit device whose compare channel is set to the expiry of the head
    of its queue, with the interrupt enabled and the expiry not missed. *)
Definition wake_inv (s : state) (n : nat) : Prop :=
  exists hw, tmr_reg (bsptimers s n) = Some hw /\
    tmr_16bit (bsptimers s n) = 0 /\
    match hal_timer_q (bsptimers s n) with
    | [] => True
    | first :: _ =>
        exists t, timers s !! first = Some t /\
          CC (NRF_TIMER s hw) NRF_TIMER_CC_INT = expiry t /\
          compare_enabled (NRF_TIMER s hw) /\
          wake_pending s n hw (expiry t)
    end.

(** The interrupt handlers of the three timers, which [hal_timer_init]
    puts in the vector table; [hal_timer_init_switch] names them 0, 1 and
    2, and [vector_entry] is the handler such a name stands for. *)
Definition nrf51_timer0_irq_handler (cb_exec : Z -> Z -> M unit) (fuel : nat)
  : M (list dispatch) :=
  hal_timer_irq_handler cb_exec fuel 0.
Definition nrf51_timer1_irq_handler (cb_exec : Z -> Z -> M unit) (fuel : nat)
  : M (list dispatch) :=
  hal_timer_irq_handler cb_exec fuel 1.
Definition nrf51_timer2_irq_handler (cb_exec : Z -> Z -> M unit) (fuel : nat)
  : M (list dispatch) :=
  hal_timer_irq_handler cb_exec fuel 2.

Definition vector_entry (isr : Z) (cb_exec : Z -> Z -> M unit) (fuel : nat)
  : M (list dispatch) :=
  if isr =? 0 then nrf51_timer0_irq_handler cb_exec fuel
  else if isr =? 1 then nrf51_timer1_irq_handler cb_exec fuel
  else if isr =? 2 then nrf51_timer2_irq_handler cb_exec fuel
  else undefined.

(** [MYNEWT_VAL(TIMER_<n>_INTERRUPT_PRIORITY)] *)
Definition interrupt_priority (cfg : syscfg) (timer_num : Z) : Z :=
  if timer_num =? 0 then TIMER_0_INTERRUPT_PRIORITY cfg
  else if timer_num =? 1 then TIMER_1_INTERRUPT_PRIORITY cfg
  else TIMER_2_INTERRUPT_PRIORITY cfg.

(** The set-up of a device and of a peripheral, as [hal_timer_init] makes
    it: what the device structure says about the timer, and the run state,
    prescaler, mode, width, overflow compare value and overflow interrupt
    enable of the peripheral. *)
Definition dev_setup (b : nrf51_hal_timer) : Z * Z * Z * Z * option nat :=
  (tmr_enabled b, tmr_irq_num b, tmr_16bit b, tmr_freq b, tmr_reg b).

Definition reg_setup (r : NRF_TIMER_Type) : bool * Z * Z * Z * Z * bool :=
  (RUNNING r, PRESCALER r, MODE r, BITMODE r, CC r NRF_TIMER_CC_OVERFLOW,
   Z.testbit (INTEN r) (16 + Z.of_nat NRF_TIMER_CC_OVERFLOW)).

(** [s'] has the set-up of [s]: the same interrupts enabled in the
    interrupt controller with the same priorities and handlers, and every
    device and peripheral set up as it was. *)
Definition same_setup (s s' : state) : Prop :=
  (nvic_enabled s' = nvic_enabled s /\ nvic_priority s' = nvic_priority s /\
   nvic_vector s' = nvic_vector s) /\
  (forall m, dev_setup (bsptimers s' m) = dev_setup (bsptimers s m)) /\
  (forall hw, reg_setup (NRF_TIMER s' hw) = reg_setup (NRF_TIMER s hw)).

Definition keeps_setup {A : Type} (m : M A) : Prop :=
  forall s a s', run m s = Ret a s' -> same_setup s s'.

(** ** Sample machines *)

Module Sample.

(** All three timers configured. *)
Definition cfg : syscfg := mkSyscfg true true true 0 0 0.

(** The machine at start-up: zeroed device structures, peripherals in their
    reset state, no timer objects; [el] is the run of the counters. *)
Definition power_on (el : list N) : state :=
  mkState (fun _ => mkBspTimer 0 0 0 0 0 0 None [])
    (fun _ => mkNRF_TIMER 0 false (fun _ => 0) (fun _ => 0) 0 4 0 0)
    ∅ false ∅ ∅ ∅ ∅ false el.

(** Callbacks that do nothing. *)
Definition cb_none : Z -> Z -> M unit := fun _ _ => mret tt.

(** The state a run ends in ([s] if it does not return). *)
Definition after {A : Type} (m : M A) (s : state) : state :=
  match run m s with
  | Ret _ s' => s'
  | _ => s
  end.

(** Three client timer objects at addresses 100, 200 and 300. *)
Definition objects : M unit :=
  modify (set_timers
    (<[100:=mkHalTimer None 0 0 0 false]>
      (<[200:=mkHalTimer None 0 0 0 false]>
        (<[300:=mkHalTimer None 0 0 0 false]> ∅)))).

(** Device [d] initialised at 1 MHz with the three timers attached, each
    with callback 7 and its own address as the argument. *)
Definition ready (d : Z) (el : list N) : state :=
  after (hal_timer_init cfg d 1000000;;
         objects;;
         hal_timer_set_cb cfg d 100 7 100;;
         hal_timer_set_cb cfg d 200 7 200;;
         hal_timer_set_cb cfg d 300 7 300) (power_on el).

(** Device 0 with timer 100 started for tick 50 and then timer 200 for
    tick 20; the counter stands at 0 and reaches 60 at the next capture. *)
Definition pending : state :=
  after (hal_timer_start_at 100 50;; hal_timer_start_at 200 20)
    (ready 0 [0; 0; 60; 0]%N).

(** A callback that starts the timer given as its argument again, 4096
    ticks after the expiry it had. *)
Definition cb_restart : Z -> Z -> M unit := fun _ a =>
  t ← deref a;
  hal_timer_start_at a (uint32_t (expiry t + 4096));;
  mret tt.

(** The state in which the first callback of a drain pass of device 0 runs,
    when the pass is entered in state [s] ([s] itself if the pass dispatches
    nothing). *)
Definition in_callback (s : state) : state :=
  match run (hal_timer_chk_queue cb_none 3 0) s with
  | Ret (d :: _) _ => d_state d
  | _ => s
  end.

(** The timers of a list of dispatches. *)
Definition dispatched (o : outcome (list dispatch)) : option (list Z) :=
  match o with
  | Ret ds _ => Some (d_timer <$> ds)
  | _ => None
  end.

End Sample.

(** * Proofs *)

(** ** Running monadic code *)

Ltac munfold :=
  unfold mbind, M_bind, mret, M_ret, fmap, M_fmap, modify, get,
    undefined, assert_fail, out_of_fuel, get_bsptimer, upd_bsptimer,
    write_INTENCLR, write_INTENSET, write_CC, write_EVENTS_COMPARE,
    write_TASKS_CAPTURE, write_TASKS_STOP, write_TASKS_START, reg_read,
    reg_write, next_elapse, NVIC_SetPendingIRQ, __HAL_DISABLE_INTERRUPTS,
    __HAL_ENABLE_INTERRUPTS, deref_bsp.

Ltac mrun := repeat (progress (munfold; cbn)).

Lemma upd_same {A} (f : nat -> A) n a : upd f n a n = a.
Proof. unfold upd. by rewrite Nat.eqb_refl. Qed.

Lemma upd_other {A} (f : nat -> A) n a m : m ≠ n -> upd f n a m = f m.
Proof. unfold upd. intros H. by destruct (Nat.eqb_spec m n). Qed.

Lemma bind_Ret_inv {A B} (m : M A) (f : A -> M B) s b s' :
  (m ≫= f) s = Ret b s' ->
  exists a s1, m s = Ret a s1 /\ f a s1 = Ret b s'.
Proof.
  unfold mbind, M_bind. destruct (m s) as [a s1| | |]; try discriminate.
  intros H. by exists a, s1.
Qed.

Lemma bind_Ret {A B} (m : M A) (f : A -> M B) s a s1 :
  m s = Ret a s1 -> (m ≫= f) s = f a s1.
Proof. unfold mbind, M_bind. by intros ->. Qed.

Lemma bind_run_eq {A B} (m m' : M A) (f : A -> M B) s s' :
  m s = m' s' -> (m ≫= f) s = (m' ≫= f) s'.
Proof. unfold mbind, M_bind. by intros ->. Qed.

Lemma fmap_Ret_inv {A B} (g : A -> B) (m : M A) s b s' :
  (g <$> m) s = Ret b s' -> exists a, m s = Ret a s' /\ b = g a.
Proof.
  unfold fmap, M_fmap. destruct (m s) as [a s1| | |]; try discriminate.
  intros [= <- <-]. by exists a.
Qed.

Lemma nonzero_true z : nonzero z = true <-> z ≠ 0.
Proof. unfold nonzero. destruct (Z.eqb_spec z 0); naive_solver. Qed.

Lemma nonzero_false z : nonzero z = false <-> z = 0.
Proof. unfold nonzero. destruct (Z.eqb_spec z 0); naive_solver. Qed.

(** ** The peripheral *)

Lemma nrf_read_timer_cntr_eq hw s :
  nrf_read_timer_cntr (Some hw) s =
  Ret (COUNTER (captured hw s))
      (set_NRF_TIMER (upd (NRF_TIMER s) hw (captured hw s))
         (set_elapse (tail (elapse s)) s)).
Proof.
  unfold nrf_read_timer_cntr, captured. destruct s as [? ? ? ? ? ? ? ? ? el].
  destruct el; mrun; by rewrite upd_same.
Qed.

Lemma nrf_read_timer_cntr_None s : nrf_read_timer_cntr None s = Undefined.
Proof. unfold nrf_read_timer_cntr. destruct (elapse s) eqn:E; mrun; by rewrite E. Qed.

Lemma CC_captured hw s i :
  i ≠ NRF_TIMER_CC_READ -> CC (captured hw s) i = CC (NRF_TIMER s hw) i.
Proof.
  intros Hi. unfold captured, Hw.capture, Hw.advance.
  destruct (RUNNING _); cbn; by rewrite upd_other.
Qed.

Lemma INTEN_captured hw s : INTEN (captured hw s) = INTEN (NRF_TIMER s hw).
Proof. unfold captured, Hw.capture, Hw.advance. by destruct (RUNNING _). Qed.

Lemma intenclr_disabled x :
  Z.testbit (Z.ldiff x (NRF_TIMER_INT_MASK NRF_TIMER_CC_INT))
    (16 + Z.of_nat NRF_TIMER_CC_INT) = false.
Proof.
  rewrite Z.ldiff_spec.
  change (NRF_TIMER_INT_MASK NRF_TIMER_CC_INT) with (2 ^ 19).
  change (16 + Z.of_nat NRF_TIMER_CC_INT) with 19.
  rewrite Z.pow2_bits_true by lia. apply andb_false_r.
Qed.

Lemma intenset_enabled x :
  Z.testbit (Z.lor x (NRF_TIMER_INT_MASK NRF_TIMER_CC_INT))
    (16 + Z.of_nat NRF_TIMER_CC_INT) = true.
Proof.
  rewrite Z.lor_spec.
  change (NRF_TIMER_INT_MASK NRF_TIMER_CC_INT) with (2 ^ 19).
  change (16 + Z.of_nat NRF_TIMER_CC_INT) with 19.
  rewrite Z.pow2_bits_true by lia. apply orb_true_r.
Qed.

(** ** Arming the compare channel *)

Lemma set_ocmp_armed n e s hw :
  tmr_reg (bsptimers s n) = Some hw ->
  exists s', nrf_timer_set_ocmp n e s = Ret tt s' /\
    bsptimers s' = bsptimers s /\ timers s' = timers s /\
    PRIMASK s' = PRIMASK s /\
    (forall m, m ≠ hw -> NRF_TIMER s' m = NRF_TIMER s m) /\
    armed_for (bsptimers s n) (NRF_TIMER s' hw) e.
Proof.
  intros Hreg. unfold nrf_timer_set_ocmp, armed_for, compare_enabled.
  unfold mbind at 1, M_bind at 1, get_bsptimer at 1. rewrite Hreg.
  set (dt := int32_t _).
  assert (Hoff : forall s0 : state,
    (write_INTENCLR (Some hw) (NRF_TIMER_INT_MASK NRF_TIMER_CC_INT) ≫=
       fun _ => NVIC_SetPendingIRQ (tmr_irq_num (bsptimers s n))) s = Ret tt s0 ->
    bsptimers s0 = bsptimers s /\ timers s0 = timers s /\
    PRIMASK s0 = PRIMASK s /\
    (forall m, m ≠ hw -> NRF_TIMER s0 m = NRF_TIMER s m) /\
    Z.testbit (INTEN (NRF_TIMER s0 hw)) (16 + Z.of_nat NRF_TIMER_CC_INT) ≠ true).
  { mrun. intros s0 [= <-]. cbn. rewrite upd_same. cbn.
    rewrite intenclr_disabled. repeat split; try done.
    intros m Hm. by rewrite upd_other. }
  assert (Hon : forall v (late : Z -> bool) s0,
    (write_INTENCLR (Some hw) (NRF_TIMER_INT_MASK NRF_TIMER_CC_INT) ≫= fun _ =>
     write_CC (Some hw) NRF_TIMER_CC_INT v ≫= fun _ =>
     write_EVENTS_COMPARE (Some hw) NRF_TIMER_CC_INT 0 ≫= fun _ =>
     write_INTENSET (Some hw) (NRF_TIMER_INT_MASK NRF_TIMER_CC_INT) ≫= fun _ =>
     nrf_read_timer_cntr (Some hw) ≫= fun c =>
     if late c then NVIC_SetPendingIRQ (tmr_irq_num (bsptimers s n))
     else mret tt) s = s0 ->
    exists s', s0 = Ret tt s' /\
    bsptimers s' = bsptimers s /\ timers s' = timers s /\
    PRIMASK s' = PRIMASK s /\
    (forall m, m ≠ hw -> NRF_TIMER s' m = NRF_TIMER s m) /\
    CC (NRF_TIMER s' hw) NRF_TIMER_CC_INT = v /\
    Z.testbit (INTEN (NRF_TIMER s' hw)) (16 + Z.of_nat NRF_TIMER_CC_INT) = true).
  { intros v late s0 <-. mrun. rewrite nrf_read_timer_cntr_eq.
    destruct (late _);
      (eexists; split; [reflexivity|]); cbn;
      rewrite !upd_same, INTEN_captured, CC_captured by done; cbn;
      rewrite !upd_same; cbn; rewrite !upd_same; cbn;
      rewrite intenset_enabled;
      (repeat split; try done; intros m Hm; by rewrite !upd_other). }
  destruct (nonzero (tmr_16bit (bsptimers s n))).
  - destruct (Z.ltb_spec dt 0).
    + destruct (Z.eqb_spec dt 0); [lia|].
      eexists. split; [mrun; reflexivity|]. apply Hoff. by mrun.
    + destruct (Z.eqb_spec dt 0).
      * apply (Hon _ (fun c => c >? uint16_t e)). reflexivity.
      * eexists. split; [mrun; reflexivity|].
        cbn. rewrite upd_same. cbn. rewrite intenclr_disabled.
        repeat split; try done. intros m Hm. by rewrite upd_other.
  - apply (Hon _ (fun c => int32_t (c - e) >=? 0)). reflexivity.
Qed.

(** ** Reading the counter *)

Lemma nrf_read_timer_cntr_frame hwtimer s c s' :
  nrf_read_timer_cntr hwtimer s = Ret c s' ->
  bsptimers s' = bsptimers s /\ timers s' = timers s /\
  PRIMASK s' = PRIMASK s.
Proof.
  destruct hwtimer as [hw|].
  - rewrite nrf_read_timer_cntr_eq. by intros [= <- <-].
  - by rewrite nrf_read_timer_cntr_None.
Qed.

Lemma frame_refl s : frame s s.
Proof. by repeat split. Qed.

Lemma frame_trans s1 s2 s3 : frame s1 s2 -> frame s2 s3 -> frame s1 s3.
Proof.
  intros (Ht & Hq) (Ht' & Hq'). split; [congruence|]. intros m. destruct (Hq m) as (? & ? & ?).
  destruct (Hq' m) as (? & ? & ?). repeat split; congruence.
Qed.

Lemma frame_of_eq s s' :
  bsptimers s' = bsptimers s -> timers s' = timers s -> frame s s'.
Proof. intros Hb Ht. repeat split; try done; by rewrite Hb. Qed.

(** The 16-bit branch of [hal_timer_read_bsptimer], case by case. *)
Lemma read16_eq n hw s :
  nonzero (tmr_16bit (bsptimers s n)) = true ->
  tmr_reg (bsptimers s n) = Some hw ->
  let s0 := set_PRIMASK true s in
  let r1 := captured hw s0 in
  let s1 := set_NRF_TIMER (upd (NRF_TIMER s0) hw r1)
              (set_elapse (tail (elapse s0)) s0) in
  if nonzero (EVENTS_COMPARE r1 NRF_TIMER_CC_OVERFLOW) then
    let tcntr := uint32_t (tmr_cntr (bsptimers s n) + 65536) in
    let s2 := set_bsptimers
                (upd (bsptimers s1) n (with_tmr_cntr tcntr (bsptimers s1 n)))
                s1 in
    let r2 := captured hw s2 in
    exists s',
      hal_timer_read_bsptimer n s
      = Ret (Z.lor tcntr (uint16_t (COUNTER r2))) s' /\
      bsptimers s' = bsptimers s2 /\ timers s' = timers s /\
      PRIMASK s' = PRIMASK s /\
      NRF_TIMER s' hw = with_EVENTS_COMPARE NRF_TIMER_CC_OVERFLOW 0 r2 /\
      elapse s' = tail (tail (elapse s))
  else
    exists s',
      hal_timer_read_bsptimer n s
      = Ret (Z.lor (tmr_cntr (bsptimers s n)) (uint16_t (COUNTER r1))) s' /\
      bsptimers s' = bsptimers s /\ timers s' = timers s /\
      PRIMASK s' = PRIMASK s /\
      NRF_TIMER s' hw = r1 /\
      elapse s' = tail (elapse s).
Proof.
  intros H16 Hreg. cbn zeta.
  assert (Hrun : hal_timer_read_bsptimer n s =
    (low ← uint16_t <$> nrf_read_timer_cntr (Some hw);
     r ← reg_read (Some hw);
     '(tcntr, low) ←
       (if nonzero (EVENTS_COMPARE r NRF_TIMER_CC_OVERFLOW) then
          let tcntr := uint32_t (tmr_cntr (bsptimers s n) + 65536) in
          upd_bsptimer n (with_tmr_cntr tcntr);;
          low ← uint16_t <$> nrf_read_timer_cntr (Some hw);
          write_EVENTS_COMPARE (Some hw) NRF_TIMER_CC_OVERFLOW 0;;
          NVIC_SetPendingIRQ (tmr_irq_num (bsptimers s n));;
          mret (tcntr, low)
        else mret (tmr_cntr (bsptimers s n), low));
     __HAL_ENABLE_INTERRUPTS (PRIMASK s);;
     mret (Z.lor tcntr low)) (set_PRIMASK true s)).
  { unfold hal_timer_read_bsptimer.
    unfold mbind at 1, M_bind at 1, get_bsptimer at 1. by rewrite H16, Hreg. }
  destruct (nonzero (EVENTS_COMPARE _ NRF_TIMER_CC_OVERFLOW)) eqn:Hev;
    rewrite Hrun; mrun; rewrite nrf_read_timer_cntr_eq; cbn;
    rewrite upd_same, Hev; mrun; rewrite ?nrf_read_timer_cntr_eq;
    destruct (PRIMASK s) eqn:EP; mrun; rewrite ?upd_same;
    (eexists; split; [reflexivity|]); cbn; rewrite ?upd_same;
    by repeat split.
Qed.

Lemma hal_timer_read_bsptimer_frame n s v s' :
  hal_timer_read_bsptimer n s = Ret v s' -> frame s s'.
Proof.
  destruct (nonzero (tmr_16bit (bsptimers s n))) eqn:H16.
  - destruct (tmr_reg (bsptimers s n)) as [hw|] eqn:Hreg.
    + pose proof (read16_eq n hw s H16 Hreg) as H. cbn zeta in H.
      destruct (nonzero (EVENTS_COMPARE _ _));
        destruct H as (s0 & -> & Hb & Ht & Hp & _); intros [= _ <-].
      * split; [done|]. intros m. rewrite Hb. cbn.
        destruct (decide (m = n)) as [->|Hm];
          [by rewrite upd_same | by rewrite upd_other].
      * by apply frame_of_eq.
    + unfold hal_timer_read_bsptimer.
      unfold mbind at 1, M_bind at 1, get_bsptimer at 1. rewrite H16, Hreg.
      unfold mbind at 1, M_bind at 1, __HAL_DISABLE_INTERRUPTS at 1.
      unfold mbind at 1, M_bind at 1, fmap at 1, M_fmap at 1.
      by rewrite nrf_read_timer_cntr_None.
  - unfold hal_timer_read_bsptimer.
    unfold mbind at 1, M_bind at 1, get_bsptimer at 1. rewrite H16.
    intros H. apply nrf_read_timer_cntr_frame in H as (? & ? & ?).
    by apply frame_of_eq.
Qed.

Lemma hal_timer_read_bsptimer_total n s :
  is_Some (tmr_reg (bsptimers s n)) ->
  exists v s', hal_timer_read_bsptimer n s = Ret v s'.
Proof.
  intros [hw Hreg].
  destruct (nonzero (tmr_16bit (bsptimers s n))) eqn:H16.
  - pose proof (read16_eq n hw s H16 Hreg) as H. cbn zeta in H.
    destruct (nonzero (EVENTS_COMPARE _ _)); destruct H as (s0 & -> & _);
      eauto.
  - unfold hal_timer_read_bsptimer.
    unfold mbind at 1, M_bind at 1, get_bsptimer at 1.
    rewrite H16, Hreg, nrf_read_timer_cntr_eq. eauto.
Qed.

Lemma CC_READ_captured hw s :
  CC (captured hw s) NRF_TIMER_CC_READ = COUNTER (captured hw s).
Proof.
  unfold captured, Hw.capture. cbn. by rewrite upd_same.
Qed.

(** The read that the loop of [hal_timer_chk_queue] makes returns what it
    leaves in the read channel. *)
Lemma chk_queue_read n hw s v s1 :
  tmr_reg (bsptimers s n) = Some hw ->
  (if nonzero (tmr_16bit (bsptimers s n))
   then hal_timer_read_bsptimer n
   else nrf_read_timer_cntr (tmr_reg (bsptimers s n))) s = Ret v s1 ->
  v = tick_read s1 n hw.
Proof.
  intros Hreg. unfold tick_read.
  destruct (nonzero (tmr_16bit (bsptimers s n))) eqn:H16.
  - pose proof (read16_eq n hw s H16 Hreg) as H. cbn zeta in H.
    destruct (nonzero (EVENTS_COMPARE _ _)).
    + destruct H as (s' & -> & Hb & _ & _ & Hr & _). intros [= <- <-].
      assert (H16' : nonzero (tmr_16bit (bsptimers s' n)) = true).
      { rewrite Hb. cbn. rewrite upd_same. exact H16. }
      assert (Hc : tmr_cntr (bsptimers s' n)
                   = uint32_t (tmr_cntr (bsptimers s n) + 65536)).
      { rewrite Hb. cbn. by rewrite upd_same. }
      rewrite H16', Hc, Hr. cbn [CC with_EVENTS_COMPARE].
      by rewrite CC_READ_captured.
    + destruct H as (s' & -> & Hb & _ & _ & Hr & _). intros [= <- <-].
      rewrite Hb, Hr, H16. by rewrite CC_READ_captured.
  - rewrite Hreg, nrf_read_timer_cntr_eq. intros [= <- <-].
    cbn [bsptimers NRF_TIMER set_NRF_TIMER set_elapse].
    rewrite upd_same, H16. by rewrite CC_READ_captured.
Qed.

(** ** Timer objects and the queue *)

Lemma deref_eq timer t s :
  timers s !! timer = Some t -> timer ≠ 0 -> deref timer s = Ret t s.
Proof.
  intros Ht H0. unfold deref. rewrite Ht. by destruct (Z.eqb_spec timer 0).
Qed.

Lemma deref_inv timer t s s' :
  deref timer s = Ret t s' -> s' = s /\ timers s !! timer = Some t /\ timer ≠ 0.
Proof.
  unfold deref. destruct (timers s !! timer); [|done].
  destruct (Z.eqb_spec timer 0); [done|]. by intros [= <- <-].
Qed.

Lemma upd_timer_eq timer f t s :
  timers s !! timer = Some t -> timer ≠ 0 ->
  upd_timer timer f s = Ret tt (set_timers (<[timer:=f t]> (timers s)) s).
Proof. intros Ht H0. unfold upd_timer. by rewrite (bind_Ret _ _ _ _ _ (deref_eq _ _ _ Ht H0)). Qed.

Lemma expiry_of_Some s x t :
  timers s !! x = Some t -> x ≠ 0 -> expiry_of s x = Some (expiry t).
Proof.
  intros Ht H0. unfold expiry_of. rewrite Ht.
  by destruct (Z.eqb_spec x 0).
Qed.

Lemma expiry_of_inv s x e :
  expiry_of s x = Some e ->
  x ≠ 0 /\ exists t, timers s !! x = Some t /\ expiry t = e.
Proof.
  unfold expiry_of. destruct (Z.eqb_spec x 0); [done|].
  destruct (timers s !! x) as [t|]; [|done]. intros [= <-]. eauto.
Qed.

Lemma tailq_insert_ext f g timer tick q :
  (forall x, x ∈ q -> f x = g x) ->
  tailq_insert f timer tick q = tailq_insert g timer tick q.
Proof.
  induction q as [|y q IH]; intros H; [done|]. cbn.
  rewrite (H y) by left. destruct (g y) as [e|]; [|done]. cbn.
  destruct (_ <? 0); [done|]. rewrite IH; [done|].
  intros x Hx. apply H. by right.
Qed.

Lemma tailq_insert_split exp_of timer tick q :
  (forall x, x ∈ q -> is_Some (exp_of x)) ->
  exists q1 q2, q = q1 ++ q2 /\
    tailq_insert exp_of timer tick q = Some (q1 ++ timer :: q2) /\
    Forall (fun x => exists e, exp_of x = Some e /\ int32_t (tick - e) >= 0) q1 /\
    match q2 with
    | [] => True
    | y :: _ => exists e, exp_of y = Some e /\ int32_t (tick - e) < 0
    end.
Proof.
  induction q as [|y q IH]; intros H.
  - by exists [], [].
  - destruct (H y) as [e He]; [left|]. cbn. rewrite He. cbn.
    destruct (Z.ltb_spec (int32_t (tick - e)) 0) as [Hlt|Hge].
    + exists [], (y :: q). repeat split; eauto.
    + destruct IH as (q1 & q2 & -> & -> & Hq1 & Hq2).
      { intros x Hx. apply H. by right. }
      exists (y :: q1), q2. repeat split; [|done].
      constructor; [|done]. exists e. split; [done|lia].
Qed.

Lemma TAILQ_REMOVE_head q timer : TAILQ_REMOVE (timer :: q) timer = q.
Proof. cbn. by rewrite Z.eqb_refl. Qed.

Lemma TAILQ_REMOVE_not_first q y timer :
  y ≠ timer -> TAILQ_REMOVE (y :: q) timer = y :: TAILQ_REMOVE q timer.
Proof. intros H. cbn. by destruct (Z.eqb_spec y timer). Qed.

Lemma TAILQ_REMOVE_subseteq q timer x :
  x ∈ TAILQ_REMOVE q timer -> x ∈ q.
Proof.
  induction q as [|y q IH]; cbn; [done|].
  destruct (Z.eqb_spec y timer); [by right|].
  intros [->|Hx]%elem_of_cons; [left|right; auto].
Qed.

Lemma TAILQ_REMOVE_NoDup q timer :
  NoDup q -> NoDup (TAILQ_REMOVE q timer) /\ timer ∉ TAILQ_REMOVE q timer.
Proof.
  induction q as [|y q IH]; cbn; intros Hnd.
  - split; [constructor|]. by intros ?%elem_of_nil.
  - apply NoDup_cons in Hnd as [Hy Hnd].
    destruct (Z.eqb_spec y timer) as [->|Hne]; [done|].
    destruct (IH Hnd) as [IH1 IH2]. split.
    + apply NoDup_cons. split; [|done].
      intros Hin. by apply Hy, (TAILQ_REMOVE_subseteq _ timer).
    + intros [->|Hx]%elem_of_cons; done.
Qed.

(** ** Starting a timer *)

Ltac mstep := erewrite bind_Ret by reflexivity.

Lemma queue_ok_entry s n x :
  queue_ok s n -> x ∈ hal_timer_q (bsptimers s n) ->
  x ≠ 0 /\ exists t, timers s !! x = Some t /\ bsp_timer t = Some n /\
    link_tqe_prev t = true /\ cb_func t ≠ 0.
Proof. intros (_ & _ & H). apply H. Qed.

Lemma startable_not_queued s n timer :
  queue_ok s n -> startable s n timer ->
  timer ∉ hal_timer_q (bsptimers s n).
Proof.
  intros Hq (_ & t & Ht & _ & Hl & _) Hin.
  destruct (queue_ok_entry _ _ _ Hq Hin) as (_ & t' & Ht' & _ & Hl' & _).
  congruence.
Qed.

Lemma hal_timer_start_at_summary s n timer tick :
  queue_ok s n -> startable s n timer ->
  exists s' q1 q2 hw t,
    hal_timer_start_at timer tick s = Ret 0 s' /\
    timers s !! timer = Some t /\
    tmr_reg (bsptimers s n) = Some hw /\
    hal_timer_q (bsptimers s n) = q1 ++ q2 /\
    hal_timer_q (bsptimers s' n) = q1 ++ timer :: q2 /\
    Forall (fun x => exists e, expiry_of s x = Some e /\
                       int32_t (tick - e) >= 0) q1 /\
    match q2 with
    | [] => True
    | y :: _ => exists e, expiry_of s y = Some e /\ int32_t (tick - e) < 0
    end /\
    timers s'
    = <[timer:=with_link_tqe_prev true (with_expiry tick t)]> (timers s) /\
    PRIMASK s' = PRIMASK s /\
    (forall m, tmr_reg (bsptimers s' m) = tmr_reg (bsptimers s m) /\
       tmr_16bit (bsptimers s' m) = tmr_16bit (bsptimers s m) /\
       tmr_cntr (bsptimers s' m) = tmr_cntr (bsptimers s m) /\
       (m ≠ n ->
        hal_timer_q (bsptimers s' m) = hal_timer_q (bsptimers s m))) /\
    match q1 with
    | [] => armed_for (bsptimers s n) (NRF_TIMER s' hw) tick
    | _ => NRF_TIMER s' = NRF_TIMER s
    end.
Proof.
  intros Hq Hst.
  pose proof (startable_not_queued _ _ _ Hq Hst) as Hnin.
  destruct Hst as (H0 & t & Ht & Hbsp & Hl & Hcb).
  destruct (proj1 Hq) as [hw Hreg].
  set (s1 := set_timers (<[timer:=with_expiry tick t]> (timers s)) s).
  set (s2 := set_PRIMASK true s1).
  destruct (tailq_insert_split (expiry_of s) timer tick
              (hal_timer_q (bsptimers s n)))
    as (q1 & q2 & Hsplit & Hins & Hq1 & Hq2).
  { intros x Hx. destruct (queue_ok_entry _ _ _ Hq Hx) as (? & tx & Htx & _).
    rewrite (expiry_of_Some _ _ _ Htx); eauto. }
  assert (Hins2 :
    match hal_timer_q (bsptimers s2 n) with
    | [] => Some [timer]
    | _ => tailq_insert (expiry_of s2) timer tick (hal_timer_q (bsptimers s2 n))
    end = Some (q1 ++ timer :: q2)).
  { rewrite <- Hins. cbn [s2 s1 bsptimers set_PRIMASK set_timers].
    transitivity (tailq_insert (expiry_of s2) timer tick
                    (hal_timer_q (bsptimers s n))).
    { by destruct (hal_timer_q (bsptimers s n)). }
    apply tailq_insert_ext. intros x Hx. unfold expiry_of. cbn.
    rewrite lookup_insert_ne; [done|]. intros ->. done. }
  set (s3 := set_bsptimers
    (upd (bsptimers s2) n (with_hal_timer_q (q1 ++ timer :: q2) (bsptimers s2 n)))
    s2).
  set (t' := with_link_tqe_prev true (with_expiry tick t)).
  set (s4 := set_timers (<[timer:=t']> (timers s3)) s3).
  assert (Hrun : hal_timer_start_at timer tick s =
    ((if is_first (q1 ++ timer :: q2) timer then
        t ← deref timer; nrf_timer_set_ocmp n (expiry t)
      else mret tt);;
     __HAL_ENABLE_INTERRUPTS (PRIMASK s);; mret 0) s4).
  { unfold hal_timer_start_at. destruct (Z.eqb_spec timer 0); [done|].
    rewrite (bind_Ret _ _ _ _ _ (deref_eq _ _ _ Ht H0)).
    rewrite Hl. destruct (Z.eqb_spec (cb_func t) 0); [done|]. cbn [orb].
    rewrite Hbsp. mstep.
    rewrite (bind_Ret _ _ _ _ _ (upd_timer_eq _ (with_expiry tick) _ _ Ht H0)).
    fold s1. mstep. fold s2. mstep. mstep. rewrite Hins2.
    erewrite bind_Ret; [| erewrite bind_Ret by reflexivity;
      apply upd_timer_eq; [apply lookup_insert_eq | done] ].
    cbn [timers set_bsptimers]. fold s3.
    change (set_timers _ s3) with
      (set_timers (<[timer:=t']> (<[timer:=with_expiry tick t]> (timers s))) s3).
    mstep. unfold s4, s3, s2, s1.
    cbn [bsptimers timers PRIMASK set_bsptimers set_timers set_PRIMASK].
    rewrite upd_same. cbn [hal_timer_q with_hal_timer_q]. reflexivity. }
  assert (Hfirst : is_first (q1 ++ timer :: q2) timer
                   = match q1 with [] => true | _ => false end).
  { destruct q1 as [|y q1]; cbn; [apply Z.eqb_refl|].
    destruct (Z.eqb_spec y timer) as [->|]; [|done].
    exfalso. apply Hnin. rewrite Hsplit. left. }
  assert (Ht4 : timers s4 = <[timer:=t']> (timers s)).
  { unfold s4, s3, s2, s1. cbn. apply insert_insert_eq. }
  assert (Hb4 : forall m,
    tmr_reg (bsptimers s4 m) = tmr_reg (bsptimers s m) /\
    tmr_16bit (bsptimers s4 m) = tmr_16bit (bsptimers s m) /\
    tmr_cntr (bsptimers s4 m) = tmr_cntr (bsptimers s m) /\
    (m ≠ n -> hal_timer_q (bsptimers s4 m) = hal_timer_q (bsptimers s m))).
  { intros m. unfold s4, s3, s2, s1. cbn.
    destruct (decide (m = n)) as [->|Hm];
      [rewrite upd_same | rewrite upd_other by done]; done. }
  assert (Hq4 : hal_timer_q (bsptimers s4 n) = q1 ++ timer :: q2).
  { unfold s4, s3. cbn. by rewrite upd_same. }
  rewrite Hrun, Hfirst. clear Hrun.
  destruct q1 as [|y q1].
  - assert (Hd : deref timer s4 = Ret t' s4).
    { apply deref_eq; [|done]. rewrite Ht4. apply lookup_insert_eq. }
    destruct (set_ocmp_armed n tick s4 hw) as (s5 & Hs5 & Hb5 & Ht5 & Hp5 & Hr5 & Harm).
    { by rewrite (proj1 (Hb4 n)). }
    erewrite bind_Ret; [| erewrite bind_Ret by exact Hd; exact Hs5 ].
    exists (if PRIMASK s then s5 else set_PRIMASK false s5), [], q2, hw, t.
    split; [by destruct (PRIMASK s)|].
    assert (Harm' : armed_for (bsptimers s n) (NRF_TIMER s5 hw) tick).
    { unfold armed_for in *. destruct (Hb4 n) as (_ & -> & -> & _) in Harm. done. }
    destruct (PRIMASK s) eqn:EP; cbn; rewrite ?Hb5, ?Ht5, ?Hp5;
      (repeat split; try done; try apply Hb4).
  - exists (if PRIMASK s then s4 else set_PRIMASK false s4), (y :: q1), q2, hw, t.
    split; [by destruct (PRIMASK s)|].
    destruct (PRIMASK s) eqn:EP; cbn;
      (repeat split; try done; try apply Hb4).
Qed.

(** ** Stopping a timer *)

Lemma armed_for_ext b b' r e :
  tmr_16bit b' = tmr_16bit b -> tmr_cntr b' = tmr_cntr b ->
  armed_for b r e -> armed_for b' r e.
Proof. unfold armed_for. by intros -> ->. Qed.

Lemma disable_ocmp_eq hw s :
  nrf_timer_disable_ocmp (Some hw) s =
  Ret tt (set_NRF_TIMER
            (upd (NRF_TIMER s) hw
               (with_INTEN (Z.ldiff (INTEN (NRF_TIMER s hw))
                              (NRF_TIMER_INT_MASK NRF_TIMER_CC_INT))
                  (NRF_TIMER s hw))) s).
Proof. reflexivity. Qed.

Lemma hal_timer_stop_summary s n timer t :
  queue_ok s n -> timer ≠ 0 -> timers s !! timer = Some t ->
  (link_tqe_prev t = true -> bsp_timer t = Some n) ->
  exists s' hw,
    hal_timer_stop timer s = Ret 0 s' /\
    tmr_reg (bsptimers s n) = Some hw /\
    PRIMASK s' = PRIMASK s /\
    (forall m, tmr_reg (bsptimers s' m) = tmr_reg (bsptimers s m) /\
       tmr_16bit (bsptimers s' m) = tmr_16bit (bsptimers s m) /\
       tmr_cntr (bsptimers s' m) = tmr_cntr (bsptimers s m) /\
       (m ≠ n ->
        hal_timer_q (bsptimers s' m) = hal_timer_q (bsptimers s m))) /\
    if link_tqe_prev t then
      hal_timer_q (bsptimers s' n)
      = TAILQ_REMOVE (hal_timer_q (bsptimers s n)) timer /\
      timers s' = <[timer:=with_link_tqe_prev false t]> (timers s) /\
      match hal_timer_q (bsptimers s n) with
      | first :: rest =>
          if first =? timer then
            match rest with
            | e :: _ =>
                exists te, timers s !! e = Some te /\ e ≠ timer /\
                  armed_for (bsptimers s n) (NRF_TIMER s' hw) (expiry te)
            | [] => ~ compare_enabled (NRF_TIMER s' hw)
            end
          else NRF_TIMER s' = NRF_TIMER s
      | [] => NRF_TIMER s' = NRF_TIMER s
      end
    else
      hal_timer_q (bsptimers s' n) = hal_timer_q (bsptimers s n) /\
      timers s' = timers s /\ NRF_TIMER s' = NRF_TIMER s.
Proof.
  intros Hq H0 Ht Hbsp. destruct (proj1 Hq) as [hw Hreg].
  set (s1 := set_PRIMASK true s).
  assert (Hrun : hal_timer_stop timer s =
    ((if link_tqe_prev t then
         bsptimer ← deref_bsp (bsp_timer t);
         b ← get_bsptimer bsptimer;
         let reset_ocmp := is_first (hal_timer_q b) timer in
         let entry := head (tail (hal_timer_q b)) in
         upd_bsptimer bsptimer
           (fun b => with_hal_timer_q (TAILQ_REMOVE (hal_timer_q b) timer) b);;
         upd_timer timer (with_link_tqe_prev false);;
         if reset_ocmp then
           match entry with
           | Some e =>
               te ← deref e;
               eb ← deref_bsp (bsp_timer te);
               nrf_timer_set_ocmp eb (expiry te)
           | None =>
               b ← get_bsptimer bsptimer;
               nrf_timer_disable_ocmp (tmr_reg b)
           end
         else mret tt
       else mret tt);;
      __HAL_ENABLE_INTERRUPTS (PRIMASK s);;
      mret 0) s1).
  { unfold hal_timer_stop. destruct (Z.eqb_spec timer 0); [done|].
    rewrite (bind_Ret _ _ _ _ _ (deref_eq _ _ _ Ht H0)). by mstep. }
  rewrite Hrun. clear Hrun.
  destruct (link_tqe_prev t) eqn:Hl.
  - rewrite (Hbsp eq_refl).
    set (q := hal_timer_q (bsptimers s n)).
    set (s2 := set_bsptimers
      (upd (bsptimers s1) n (with_hal_timer_q (TAILQ_REMOVE q timer) (bsptimers s1 n)))
      s1).
    set (s3 := set_timers (<[timer:=with_link_tqe_prev false t]> (timers s2)) s2).
    assert (Hb3 : forall m,
      tmr_reg (bsptimers s3 m) = tmr_reg (bsptimers s m) /\
      tmr_16bit (bsptimers s3 m) = tmr_16bit (bsptimers s m) /\
      tmr_cntr (bsptimers s3 m) = tmr_cntr (bsptimers s m) /\
      (m ≠ n -> hal_timer_q (bsptimers s3 m) = hal_timer_q (bsptimers s m))).
    { intros m. unfold s3, s2, s1. cbn.
      destruct (decide (m = n)) as [->|Hm];
        [rewrite upd_same | rewrite upd_other by done]; done. }
    assert (Hq3 : hal_timer_q (bsptimers s3 n) = TAILQ_REMOVE q timer).
    { unfold s3, s2. cbn. by rewrite upd_same. }
    assert (Hstep :
      (bsptimer ← deref_bsp (Some n);
       b ← get_bsptimer bsptimer;
       let reset_ocmp := is_first (hal_timer_q b) timer in
       let entry := head (tail (hal_timer_q b)) in
       upd_bsptimer bsptimer
         (fun b => with_hal_timer_q (TAILQ_REMOVE (hal_timer_q b) timer) b);;
       upd_timer timer (with_link_tqe_prev false);;
       if reset_ocmp then
         match entry with
         | Some e =>
             te ← deref e;
             eb ← deref_bsp (bsp_timer te);
             nrf_timer_set_ocmp eb (expiry te)
         | None =>
             b ← get_bsptimer bsptimer;
             nrf_timer_disable_ocmp (tmr_reg b)
         end
       else mret tt) s1 =
      (if is_first q timer then
         match head (tail q) with
         | Some e =>
             te ← deref e;
             eb ← deref_bsp (bsp_timer te);
             nrf_timer_set_ocmp eb (expiry te)
         | None =>
             b ← get_bsptimer n;
             nrf_timer_disable_ocmp (tmr_reg b)
         end
       else mret tt) s3).
    { mstep. mstep. cbn zeta. mstep.
      erewrite bind_Ret; [|by apply upd_timer_eq]. reflexivity. }
    rewrite (bind_run_eq _ _ _ _ _ Hstep). clear Hstep.
    assert (Ht3 : timers s3 = <[timer:=with_link_tqe_prev false t]> (timers s)).
    { reflexivity. }
    assert (Hfin : forall s4,
      PRIMASK s4 = true -> bsptimers s4 = bsptimers s3 ->
      exists s', (__HAL_ENABLE_INTERRUPTS (PRIMASK s);; mret 0) s4 = Ret 0 s' /\
        PRIMASK s' = PRIMASK s /\ bsptimers s' = bsptimers s3 /\
        timers s' = timers s4 /\ NRF_TIMER s' = NRF_TIMER s4).
    { intros s4 Hp4 Hb4. destruct (PRIMASK s) eqn:EP.
      - exists s4. by repeat split.
      - exists (set_PRIMASK false s4). by repeat split. }
    assert (Hp3 : PRIMASK s3 = true) by reflexivity.
    assert (Hr3 : NRF_TIMER s3 = NRF_TIMER s) by reflexivity.
    assert (Hnop : forall k : M unit, k = mret tt ->
      exists s', (k;; __HAL_ENABLE_INTERRUPTS (PRIMASK s);; mret 0) s3
                 = Ret 0 s' /\
        PRIMASK s' = PRIMASK s /\ bsptimers s' = bsptimers s3 /\
        timers s' = timers s3 /\ NRF_TIMER s' = NRF_TIMER s).
    { intros k ->. mstep. destruct (Hfin s3 Hp3 eq_refl) as (s' & ? & ? & ? & ? & ?).
      exists s'. repeat split; congruence. }
    destruct q as [|first rest] eqn:Eq.
    + destruct (Hnop (mret tt) eq_refl) as (s' & Hs' & Hp' & Hb' & Ht' & Hr').
      exists s', hw. rewrite Hb'. cbn [is_first]. by repeat split; try apply Hb3.
    + cbn [is_first]. destruct (Z.eqb_spec first timer) as [->|Hne].
      * destruct rest as [|e rest]; cbn [tail head].
        -- set (s4 := set_NRF_TIMER
             (upd (NRF_TIMER s3) hw
                (with_INTEN (Z.ldiff (INTEN (NRF_TIMER s3 hw))
                               (NRF_TIMER_INT_MASK NRF_TIMER_CC_INT))
                   (NRF_TIMER s3 hw))) s3).
           assert (Hd : (b ← get_bsptimer n;
                         nrf_timer_disable_ocmp (tmr_reg b)) s3 = Ret tt s4).
           { mstep. rewrite (proj1 (Hb3 n)), Hreg. apply disable_ocmp_eq. }
           rewrite (bind_Ret _ _ _ _ _ Hd).
           destruct (Hfin s4 Hp3 eq_refl) as (s' & Hs' & Hp' & Hb' & Ht' & Hr').
           exists s', hw. rewrite Hb', Ht', Hr'. repeat split; try done; try apply Hb3.
           unfold compare_enabled, s4. cbn. rewrite upd_same. cbn.
           by rewrite intenclr_disabled.
        -- destruct (queue_ok_entry s n e Hq) as (He0 & te & Hte & Hbe & _).
           { fold q. rewrite Eq. right. left. }
           assert (Hne : e ≠ timer).
           { intros ->. destruct Hq as (_ & Hnd & _). fold q in Hnd.
             rewrite Eq in Hnd. apply NoDup_cons in Hnd as [Hnd _].
             apply Hnd. left. }
           assert (Hd : deref e s3 = Ret te s3).
           { apply deref_eq; [|done]. rewrite Ht3. by rewrite lookup_insert_ne. }
           destruct (set_ocmp_armed n (expiry te) s3 hw)
             as (s4 & Hs4 & Hb4 & Ht4 & Hp4 & Hr4 & Harm).
           { by rewrite (proj1 (Hb3 n)). }
           erewrite bind_Ret;
             [| erewrite bind_Ret by exact Hd; rewrite Hbe; mstep; exact Hs4].
           destruct (Hfin s4) as (s' & Hs' & Hp' & Hb' & Ht' & Hr');
             [congruence|done|].
           exists s', hw. rewrite Hb', Ht', Hr', Ht4.
           repeat split; try done; try apply Hb3.
           exists te. repeat split; try done.
           destruct (Hb3 n) as (_ & H16 & Hc & _).
           by apply (armed_for_ext (bsptimers s3 n)).
      * destruct (Hnop (mret tt) eq_refl) as (s' & Hs' & Hp' & Hb' & Ht' & Hr').
        exists s', hw. rewrite Hb'. by repeat split; try apply Hb3.
  - mstep. assert (Hp1 : PRIMASK s1 = true) by reflexivity.
    destruct (PRIMASK s) eqn:EP.
    + exists s1, hw. by repeat split.
    + exists (set_PRIMASK false s1), hw. by repeat split.
Qed.

(** ** Draining the queue *)

Lemma queue_ok_frame s s' n : frame s s' -> queue_ok s n -> queue_ok s' n.
Proof.
  intros (Ht & Hb) (Hreg & Hnd & Hall). destruct (Hb n) as (Hq & Hr & _).
  unfold queue_ok. rewrite Hq, Hr, Ht. done.
Qed.

Lemma set_ocmp_None n e s :
  tmr_reg (bsptimers s n) = None -> nrf_timer_set_ocmp n e s = Undefined.
Proof.
  intros H. unfold nrf_timer_set_ocmp.
  unfold mbind at 1, M_bind at 1, get_bsptimer at 1. by rewrite H.
Qed.

Section Drain.

Variable cb_exec : Z -> Z -> M unit.
Variable n : nat.

(** One iteration of the loop, taken apart. *)
Lemma chk_queue_loop_step fuel s ds s' :
  hal_timer_chk_queue_loop cb_exec (S fuel) n s = Ret ds s' ->
  (hal_timer_q (bsptimers s n) = [] /\ ds = [] /\ s' = s) \/
  exists timer q' tcntr s1 t,
    hal_timer_q (bsptimers s n) = timer :: q' /\
    frame s s1 /\ timers s1 !! timer = Some t /\ timer ≠ 0 /\
    ((int32_t (tcntr - expiry t) < 0 /\ ds = [] /\ s' = s1) \/
     (int32_t (tcntr - expiry t) >= 0 /\ cb_func t ≠ 0 /\
      exists s3 ds',
        cb_exec (cb_func t) (cb_arg t) (unlinked n timer t s1) = Ret tt s3 /\
        hal_timer_chk_queue_loop cb_exec fuel n s3 = Ret ds' s' /\
        ds = mkDispatch timer tcntr (expiry t) (unlinked n timer t s1) :: ds')).
Proof.
  cbn [hal_timer_chk_queue_loop]. intros H.
  apply bind_Ret_inv in H as (b & s0 & [= <- <-] & H).
  destruct (hal_timer_q (bsptimers s n)) as [|timer q'] eqn:Eq.
  { left. by injection H as <- <-. }
  right. apply bind_Ret_inv in H as (tcntr & s1 & Hread & H).
  assert (Hfr : frame s s1).
  { destruct (nonzero _).
    - by eapply hal_timer_read_bsptimer_frame.
    - apply nrf_read_timer_cntr_frame in Hread as (? & ? & ?).
      by apply frame_of_eq. }
  apply bind_Ret_inv in H as (t & s1' & Hd & H).
  apply deref_inv in Hd as (-> & Ht & H0).
  exists timer, q', tcntr, s1, t. do 4 (split; [done|]).
  destruct (Z.geb_spec (int32_t (tcntr - expiry t)) 0) as [Hge|Hlt].
  - right. apply bind_Ret_inv in H as ([] & s2 & [= <-] & H).
    erewrite bind_Ret in H; [|apply upd_timer_eq; [exact Ht|exact H0]].
    apply bind_Ret_inv in H as (s2 & s2' & [= <- <-] & H).
    apply bind_Ret_inv in H as ([] & s3 & Hcb & H).
    apply bind_Ret_inv in H as (ds' & s4 & Hrec & [= <- <-]).
    destruct (Z.eqb_spec (cb_func t) 0); [done|].
    split; [lia|]. split; [done|]. by exists s3, ds'.
  - left. injection H as <- <-. split; [lia|done].
Qed.

Lemma queue_ok_unlinked s timer q' t :
  queue_ok s n -> hal_timer_q (bsptimers s n) = timer :: q' ->
  timers s !! timer = Some t ->
  queue_ok (unlinked n timer t s) n /\
  hal_timer_q (bsptimers (unlinked n timer t s) n) = q' /\
  (timer ∉ q') /\
  startable (unlinked n timer t s) n timer /\
  expiry_of (unlinked n timer t s) timer = Some (expiry t).
Proof.
  intros Hq Eq Ht.
  destruct (queue_ok_entry s n timer Hq) as (H0 & t' & Ht' & Hbsp & _ & Hcb).
  { rewrite Eq. left. }
  assert (t' = t) as -> by congruence.
  destruct Hq as (Hreg & Hnd & Hall). rewrite Eq in Hnd, Hall.
  apply NoDup_cons in Hnd as [Hnin Hnd].
  assert (Hq' : hal_timer_q (bsptimers (unlinked n timer t s) n) = q').
  { unfold unlinked. cbn. rewrite upd_same. cbn. rewrite Eq.
    apply TAILQ_REMOVE_head. }
  split; [|split; [done|split; [done|split]]].
  - split; [|split].
    + unfold unlinked. cbn. by rewrite upd_same.
    + by rewrite Hq'.
    + rewrite Hq'. intros x Hx. destruct (Hall x) as (Hx0 & tx & Htx & ?).
      { by right. }
      split; [done|]. exists tx. split; [|done].
      unfold unlinked. cbn. rewrite lookup_insert_ne; [done|].
      intros ->. done.
  - split; [done|]. exists (with_link_tqe_prev false t).
    split; [apply lookup_insert_eq|]. by repeat split.
  - rewrite (expiry_of_Some _ _ (with_link_tqe_prev false t));
      [done|apply lookup_insert_eq|done].
Qed.

(** Callbacks that keep the queue of the device well formed. *)
Hypothesis cb_queue_ok : forall f a s s',
  cb_exec f a s = Ret tt s' -> queue_ok s n -> queue_ok s' n.

Lemma chk_queue_loop_dispatch_ok fuel : forall s ds s',
  queue_ok s n ->
  hal_timer_chk_queue_loop cb_exec fuel n s = Ret ds s' ->
  queue_ok s' n /\ Forall (dispatch_ok n) ds.
Proof.
  induction fuel as [|fuel IH]; intros s ds s' Hq H; [done|].
  apply chk_queue_loop_step in H
    as [(_ & -> & ->)|(timer & q' & tcntr & s1 & t & Eq & Hfr & Ht & H0 & H)].
  { split; [done|constructor]. }
  pose proof (queue_ok_frame _ _ _ Hfr Hq) as Hq1.
  destruct H as [(_ & -> & ->)|(Hge & Hcb & s3 & ds' & Hrun & Hrec & ->)].
  { split; [done|constructor]. }
  destruct (queue_ok_unlinked s1 timer q' t Hq1) as (Hq2 & Hq' & Hnin & Hst & He);
    [by rewrite (proj1 (proj2 Hfr n))|done|].
  destruct (IH s3 ds' s') as [Hqs Hds]; [by eapply cb_queue_ok|done|].
  split; [done|]. constructor; [|done].
  unfold dispatch_ok. cbn [d_now d_expiry d_state d_timer]. rewrite Hq'. done.
Qed.

End Drain.

Lemma chk_queue_inv cb_exec fuel n s ds s' :
  hal_timer_chk_queue cb_exec fuel n s = Ret ds s' ->
  exists s1,
    hal_timer_chk_queue_loop cb_exec fuel n (set_PRIMASK true s) = Ret ds s1 /\
    frame s1 s' /\ rearm_inv s' n.
Proof.
  unfold hal_timer_chk_queue. intros H.
  apply bind_Ret_inv in H as (ctx & s0 & [= <- <-] & H).
  apply bind_Ret_inv in H as (ds0 & s1 & Hloop & H).
  apply bind_Ret_inv in H as (b & s1' & [= <- <-] & H).
  apply bind_Ret_inv in H as ([] & s2 & Harm & H).
  apply bind_Ret_inv in H as ([] & s3 & Hen & [= -> ->]).
  exists s1. split; [done|].
  assert (Hfr3 : bsptimers s' = bsptimers s2 /\ timers s' = timers s2 /\
                 NRF_TIMER s' = NRF_TIMER s2).
  { unfold __HAL_ENABLE_INTERRUPTS in Hen. destruct (PRIMASK s).
    - by injection Hen as <-.
    - by injection Hen as <-. }
  destruct Hfr3 as (Hb3 & Ht3 & Hr3).
  destruct (tmr_reg (bsptimers s1 n)) as [hw|] eqn:Hreg.
  - destruct (hal_timer_q (bsptimers s1 n)) as [|timer q'] eqn:Eq.
    + rewrite disable_ocmp_eq in Harm. injection Harm as <-.
      split; [by apply frame_of_eq|].
      exists hw. rewrite Hb3, Hr3. cbn. rewrite Hreg, Eq, upd_same.
      split; [done|]. unfold compare_enabled. cbn.
      by rewrite intenclr_disabled.
    + apply bind_Ret_inv in Harm as (t & s1' & Hd & Harm).
      apply deref_inv in Hd as (-> & Ht & H0).
      destruct (set_ocmp_armed n (expiry t) s1 hw Hreg)
        as (s2' & Hs2 & Hb2 & Ht2 & _ & _ & Ha).
      rewrite Hs2 in Harm. injection Harm as <-.
      split; [apply frame_of_eq; congruence|].
      exists hw. rewrite Hb3, Hr3, Hb2, Ht3, Ht2, Hreg, Eq. split; [done|].
      by exists t.
  - destruct (hal_timer_q (bsptimers s1 n)) as [|timer q'] eqn:Eq; [done|].
    apply bind_Ret_inv in Harm as (t & s1' & Hd & Harm).
    apply deref_inv in Hd as (-> & Ht & H0).
    by rewrite set_ocmp_None in Harm.
Qed.

Section DrainQuiet.

Variable cb_exec : Z -> Z -> M unit.
Variable n : nat.

(** Callbacks that leave the queue of the device and the expiries alone. *)
Hypothesis cb_queue : forall f a s s',
  cb_exec f a s = Ret tt s' ->
  hal_timer_q (bsptimers s' n) = hal_timer_q (bsptimers s n).
Hypothesis cb_expiry : forall f a s s' x,
  cb_exec f a s = Ret tt s' -> expiry_of s' x = expiry_of s x.

Lemma expiry_of_frame s s' x : frame s s' -> expiry_of s' x = expiry_of s x.
Proof. intros (Ht & _). unfold expiry_of. by rewrite Ht. Qed.

Lemma expiry_of_unlinked s timer t x :
  timers s !! timer = Some t ->
  expiry_of (unlinked n timer t s) x = expiry_of s x.
Proof.
  intros Ht. unfold expiry_of, unlinked. cbn.
  destruct (x =? 0); [done|].
  destruct (decide (x = timer)) as [->|Hne].
  - by rewrite lookup_insert_eq, Ht.
  - by rewrite lookup_insert_ne.
Qed.

Lemma chk_queue_loop_prefix fuel : forall s ds s',
  hal_timer_chk_queue_loop cb_exec fuel n s = Ret ds s' ->
  hal_timer_q (bsptimers s n)
  = (d_timer <$> ds) ++ hal_timer_q (bsptimers s' n).
Proof.
  induction fuel as [|fuel IH]; intros s ds s' H; [done|].
  apply chk_queue_loop_step in H
    as [(_ & -> & ->)|(timer & q' & tcntr & s1 & t & Eq & Hfr & Ht & H0 & H)];
    [done|].
  destruct H as [(_ & -> & ->)|(Hge & Hcb & s3 & ds' & Hrun & Hrec & ->)].
  { cbn. by rewrite (proj1 (proj2 Hfr n)). }
  assert (Hq1 : hal_timer_q (bsptimers s1 n) = timer :: q').
  { by rewrite (proj1 (proj2 Hfr n)). }
  rewrite Eq. cbn. f_equal.
  rewrite <- (IH _ _ _ Hrec), (cb_queue _ _ _ _ Hrun).
  unfold unlinked. cbn. rewrite upd_same. cbn. rewrite Hq1.
  symmetry. apply TAILQ_REMOVE_head.
Qed.

Lemma chk_queue_loop_expiries fuel : forall s ds s',
  hal_timer_chk_queue_loop cb_exec fuel n s = Ret ds s' ->
  Forall (fun d => expiry_of s (d_timer d) = Some (d_expiry d)) ds.
Proof.
  induction fuel as [|fuel IH]; intros s ds s' H; [done|].
  apply chk_queue_loop_step in H
    as [(_ & -> & ->)|(timer & q' & tcntr & s1 & t & Eq & Hfr & Ht & H0 & H)];
    [constructor|].
  destruct H as [(_ & -> & ->)|(Hge & Hcb & s3 & ds' & Hrun & Hrec & ->)];
    [constructor|].
  constructor.
  - cbn. rewrite <- (expiry_of_frame _ _ _ Hfr). by apply expiry_of_Some.
  - eapply Forall_impl; [exact (IH _ _ _ Hrec)|]. intros d <-.
    rewrite (cb_expiry _ _ _ _ _ Hrun), (expiry_of_unlinked _ _ _ _ Ht).
    symmetry. by apply expiry_of_frame.
Qed.

(** Callbacks that return, and keep the queue well formed. *)
Hypothesis cb_total : forall f a s, exists s', cb_exec f a s = Ret tt s'.
Hypothesis cb_queue_ok : forall f a s s',
  cb_exec f a s = Ret tt s' -> queue_ok s n -> queue_ok s' n.

Lemma chk_queue_loop_returns fuel : forall s,
  queue_ok s n ->
  (length (hal_timer_q (bsptimers s n)) < fuel)%nat ->
  exists ds s', hal_timer_chk_queue_loop cb_exec fuel n s = Ret ds s'.
Proof.
  induction fuel as [|fuel IH]; intros s Hq Hlen; [lia|].
  cbn [hal_timer_chk_queue_loop]. mstep.
  destruct (hal_timer_q (bsptimers s n)) as [|timer q'] eqn:Eq.
  { by exists [], s. }
  assert (Hread : exists tcntr s1,
    (if nonzero (tmr_16bit (bsptimers s n))
     then hal_timer_read_bsptimer n
     else nrf_read_timer_cntr (tmr_reg (bsptimers s n))) s = Ret tcntr s1 /\
    frame s s1).
  { destruct (nonzero _).
    - destruct (hal_timer_read_bsptimer_total n s (proj1 Hq)) as (v & s1 & H).
      exists v, s1. split; [done|]. by eapply hal_timer_read_bsptimer_frame.
    - destruct (proj1 Hq) as [hw ->]. rewrite nrf_read_timer_cntr_eq.
      eexists _, _. split; [done|]. by apply frame_of_eq. }
  destruct Hread as (tcntr & s1 & Hread & Hfr).
  rewrite (bind_Ret _ _ _ _ _ Hread).
  pose proof (queue_ok_frame _ _ _ Hfr Hq) as Hq1.
  assert (Hq1e : hal_timer_q (bsptimers s1 n) = timer :: q').
  { by rewrite (proj1 (proj2 Hfr n)). }
  destruct (queue_ok_entry s1 n timer Hq1) as (H0 & t & Ht & _ & _ & Hcb).
  { rewrite Hq1e. left. }
  rewrite (bind_Ret _ _ _ _ _ (deref_eq _ _ _ Ht H0)).
  destruct (int32_t (tcntr - expiry t) >=? 0); [|by eexists _, _].
  mstep.
  erewrite bind_Ret; [|apply upd_timer_eq; [exact Ht|exact H0]].
  mstep. fold (unlinked n timer t s1).
  destruct (Z.eqb_spec (cb_func t) 0); [done|].
  destruct (cb_total (cb_func t) (cb_arg t) (unlinked n timer t s1))
    as [s3 Hs3].
  rewrite (bind_Ret _ _ _ _ _ Hs3).
  destruct (queue_ok_unlinked n s1 timer q' t Hq1 Hq1e Ht)
    as (Hq2 & Hq2e & _).
  destruct (IH s3) as (ds' & s' & Hrec).
  { by eapply cb_queue_ok. }
  { rewrite (cb_queue _ _ _ _ Hs3), Hq2e. cbn in Hlen. lia. }
  rewrite (bind_Ret _ _ _ _ _ Hrec). by eexists _, _.
Qed.

Lemma hal_timer_chk_queue_returns fuel s :
  queue_ok s n ->
  (length (hal_timer_q (bsptimers s n)) < fuel)%nat ->
  exists ds s', hal_timer_chk_queue cb_exec fuel n s = Ret ds s'.
Proof.
  intros Hq Hlen. unfold hal_timer_chk_queue. mstep.
  destruct (chk_queue_loop_returns fuel (set_PRIMASK true s))
    as (ds & s1 & Hloop); [done|done|].
  rewrite (bind_Ret _ _ _ _ _ Hloop). mstep.
  destruct (chk_queue_loop_dispatch_ok cb_exec n cb_queue_ok fuel _ _ _
              (Hq : queue_ok (set_PRIMASK true s) n) Hloop) as [Hq1 _].
  destruct (proj1 Hq1) as [hw Hreg].
  assert (Harm : exists s2,
    match hal_timer_q (bsptimers s1 n) with
    | [] => nrf_timer_disable_ocmp (tmr_reg (bsptimers s1 n))
    | timer :: _ => t ← deref timer; nrf_timer_set_ocmp n (expiry t)
    end s1 = Ret tt s2).
  { destruct (hal_timer_q (bsptimers s1 n)) as [|timer q'] eqn:Eq.
    - rewrite Hreg, disable_ocmp_eq. eauto.
    - destruct (queue_ok_entry s1 n timer Hq1) as (H0 & t & Ht & _).
      { rewrite Eq. left. }
      rewrite (bind_Ret _ _ _ _ _ (deref_eq _ _ _ Ht H0)).
      destruct (set_ocmp_armed n (expiry t) s1 hw Hreg) as (s2 & -> & _).
      eauto. }
  destruct Harm as (s2 & Harm). rewrite (bind_Ret _ _ _ _ _ Harm).
  destruct (PRIMASK s); mstep; by eexists _, _.
Qed.

End DrainQuiet.

(** ** The dispatches of a drain pass *)

Section Dispatches.

Variable cb_exec : Z -> Z -> M unit.
Variable n : nat.

(** An iteration of the loop that dispatches, taken apart. *)
Lemma chk_queue_loop_fire fuel s d ds s' :
  hal_timer_chk_queue_loop cb_exec (S fuel) n s = Ret (d :: ds) s' ->
  exists q' s1 t s3,
    hal_timer_q (bsptimers s n) = d_timer d :: q' /\
    (if nonzero (tmr_16bit (bsptimers s n))
     then hal_timer_read_bsptimer n
     else nrf_read_timer_cntr (tmr_reg (bsptimers s n))) s
    = Ret (d_now d) s1 /\
    frame s s1 /\
    timers s1 !! d_timer d = Some t /\ d_timer d ≠ 0 /\
    d_expiry d = expiry t /\ int32_t (d_now d - expiry t) >= 0 /\
    cb_func t ≠ 0 /\
    d_state d = unlinked n (d_timer d) t s1 /\
    cb_exec (cb_func t) (cb_arg t) (d_state d) = Ret tt s3 /\
    hal_timer_chk_queue_loop cb_exec fuel n s3 = Ret ds s'.
Proof.
  cbn [hal_timer_chk_queue_loop]. intros H.
  apply bind_Ret_inv in H as (b & s0 & [= <- <-] & H).
  destruct (hal_timer_q (bsptimers s n)) as [|timer q'] eqn:Eq; [done|].
  apply bind_Ret_inv in H as (tcntr & s1 & Hread & H).
  assert (Hfr : frame s s1).
  { destruct (nonzero _).
    - by eapply hal_timer_read_bsptimer_frame.
    - apply nrf_read_timer_cntr_frame in Hread as (? & ? & ?).
      by apply frame_of_eq. }
  apply bind_Ret_inv in H as (t & s1' & Hd & H).
  apply deref_inv in Hd as (-> & Ht & H0).
  destruct (Z.geb_spec (int32_t (tcntr - expiry t)) 0) as [Hge|Hlt]; [|done].
  apply bind_Ret_inv in H as ([] & s2 & [= <-] & H).
  erewrite bind_Ret in H; [|apply upd_timer_eq; [exact Ht|exact H0]].
  apply bind_Ret_inv in H as (s2 & s2' & [= <- <-] & H).
  apply bind_Ret_inv in H as ([] & s3 & Hcb & H).
  apply bind_Ret_inv in H as (ds' & s4 & Hrec & [= <- <- <-]).
  destruct (Z.eqb_spec (cb_func t) 0); [done|].
  exists q', s1, t, s3. cbn [d_timer d_now d_expiry d_state].
  repeat (split; [done || lia|]). done.
Qed.

Lemma unlinked_is_unlinked_from s s1 timer q' t :
  queue_ok s n -> frame s s1 ->
  hal_timer_q (bsptimers s n) = timer :: q' ->
  timers s1 !! timer = Some t ->
  unlinked_from n timer s (unlinked n timer t s1).
Proof.
  intros Hq (Ht1 & Hb1) Eq Ht. rewrite Ht1 in Ht.
  destruct (queue_ok_entry s n timer Hq) as (_ & t' & Ht' & _ & Hl & _).
  { rewrite Eq. left. }
  assert (t' = t) as -> by congruence.
  exists t. split; [done|]. split; [done|].
  unfold unlinked. cbn. rewrite upd_same. cbn.
  rewrite (proj1 (Hb1 n)), Eq, TAILQ_REMOVE_head, Ht1. done.
Qed.

(** The loop ends with the queues and timer objects that the callback of
    its last dispatch left, or those it was entered with when it dispatches
    nothing. *)
Lemma chk_queue_loop_last fuel : forall s ds s',
  hal_timer_chk_queue_loop cb_exec fuel n s = Ret ds s' ->
  match last ds with
  | Some d => exists t s2, timers (d_state d) !! d_timer d = Some t /\
      cb_exec (cb_func t) (cb_arg t) (d_state d) = Ret tt s2 /\
      frame s2 s'
  | None => frame s s'
  end.
Proof.
  induction fuel as [|fuel IH]; intros s ds s' H; [done|].
  destruct ds as [|d ds].
  { apply chk_queue_loop_step in H
      as [(_ & _ & ->)|(timer & q' & tcntr & s1 & t & Eq & Hfr & Ht & H0 & H)];
      [apply frame_refl|].
    by destruct H as [(_ & _ & ->)|(_ & _ & s3 & ds' & _ & _ & ?)]. }
  apply chk_queue_loop_fire in H
    as (q' & s1 & t & s3 & Eq & Hread & Hfr & Ht & H0 & He & Hge & Hcb & Hd
        & Hrun & Hrec).
  rewrite last_cons. specialize (IH _ _ _ Hrec).
  destruct (last ds); [done|].
  exists (with_link_tqe_prev false t), s3.
  split; [rewrite Hd; apply lookup_insert_eq|]. done.
Qed.

(** Callbacks that keep the queue of the device well formed. *)
Hypothesis cb_queue_ok : forall f a s s',
  cb_exec f a s = Ret tt s' -> queue_ok s n -> queue_ok s' n.

(** Every dispatch: the callback was run on the state recorded, in which the
    timer is out of the queue with its link cleared, and the tick value
    recorded is the one read into that state and is not before the
    expiry. *)
Lemma chk_queue_loop_dispatches fuel : forall s ds s',
  queue_ok s n ->
  hal_timer_chk_queue_loop cb_exec fuel n s = Ret ds s' ->
  Forall (fun d => exists t hw s2,
    queue_ok (d_state d) n /\
    timers (d_state d) !! d_timer d = Some t /\
    cb_exec (cb_func t) (cb_arg t) (d_state d) = Ret tt s2 /\
    tmr_reg (bsptimers (d_state d) n) = Some hw /\
    d_now d = tick_read (d_state d) n hw /\
    d_expiry d = expiry t /\
    int32_t (tick_read (d_state d) n hw - expiry t) >= 0 /\
    startable (d_state d) n (d_timer d) /\
    (d_timer d ∉ hal_timer_q (bsptimers (d_state d) n))) ds.
Proof.
  induction fuel as [|fuel IH]; intros s ds s' Hq H; [done|].
  destruct ds as [|d ds]; [constructor|].
  apply chk_queue_loop_fire in H
    as (q' & s1 & t & s3 & Eq & Hread & Hfr & Ht & H0 & He & Hge & Hcb & Hd
        & Hrun & Hrec).
  pose proof (queue_ok_frame _ _ _ Hfr Hq) as Hq1.
  destruct (queue_ok_unlinked n s1 (d_timer d) q' t Hq1)
    as (Hq2 & Hq' & Hnin & Hst & Hexp);
    [by rewrite (proj1 (proj2 Hfr n))|done|].
  rewrite <- Hd in Hq2, Hq', Hst.
  constructor; [|apply (IH s3 ds s'); [by eapply cb_queue_ok|done]].
  destruct (proj1 Hq) as [hw Hreg].
  exists (with_link_tqe_prev false t), hw, s3.
  assert (Hv : d_now d = tick_read (d_state d) n hw).
  { rewrite (chk_queue_read n hw s _ s1 Hreg Hread), Hd.
    unfold tick_read, unlinked. cbn. by rewrite upd_same. }
  split; [done|]. split; [rewrite Hd; apply lookup_insert_eq|].
  split; [done|]. split.
  { rewrite Hd. unfold unlinked. cbn. rewrite upd_same. cbn.
    by rewrite (proj1 (proj2 (proj2 Hfr n))). }
  split; [done|]. split; [done|]. split; [by rewrite <- Hv|].
  split; [done|]. by rewrite Hq'.
Qed.

(** The state of the first dispatch comes from the state the loop is
    entered in, and the state of every later dispatch from the state in
    which the callback before it returned. *)
Lemma chk_queue_loop_chain fuel : forall s ds s',
  queue_ok s n ->
  hal_timer_chk_queue_loop cb_exec fuel n s = Ret ds s' ->
  match ds with
  | d :: _ => unlinked_from n (d_timer d) s (d_state d)
  | [] => True
  end /\
  forall ds1 d1 d2 ds2, ds = ds1 ++ d1 :: d2 :: ds2 ->
    exists t1 s2, timers (d_state d1) !! d_timer d1 = Some t1 /\
      cb_exec (cb_func t1) (cb_arg t1) (d_state d1) = Ret tt s2 /\
      unlinked_from n (d_timer d2) s2 (d_state d2).
Proof.
  induction fuel as [|fuel IH]; intros s ds s' Hq H; [done|].
  destruct ds as [|d ds].
  { split; [done|]. intros ds1 d1 d2 ds2 Hds. by destruct ds1. }
  apply chk_queue_loop_fire in H
    as (q' & s1 & t & s3 & Eq & Hread & Hfr & Ht & H0 & He & Hge & Hcb & Hd
        & Hrun & Hrec).
  pose proof (queue_ok_frame _ _ _ Hfr Hq) as Hq1.
  destruct (queue_ok_unlinked n s1 (d_timer d) q' t Hq1)
    as (Hq2 & _); [by rewrite (proj1 (proj2 Hfr n))|done|].
  rewrite <- Hd in Hq2.
  destruct (IH s3 ds s') as [Hfirst Hchain]; [by eapply cb_queue_ok|done|].
  split.
  { rewrite Hd. by apply (unlinked_is_unlinked_from s s1 _ q'). }
  intros ds1 d1 d2 ds2 Hds. destruct ds1 as [|d0 ds1].
  - injection Hds as Hd1 Hds. subst d1 ds.
    exists (with_link_tqe_prev false t), s3.
    split; [rewrite Hd; apply lookup_insert_eq|]. split; [done|]. done.
  - injection Hds as _ Hds. subst ds. exact (Hchain ds1 d1 d2 ds2 eq_refl).
Qed.

(** Callbacks that leave the queue of the device alone. *)
Hypothesis cb_queue : forall f a s s',
  cb_exec f a s = Ret tt s' ->
  hal_timer_q (bsptimers s' n) = hal_timer_q (bsptimers s n).

(** At each dispatch the queue holds the timers dispatched after it and the
    queue the loop leaves. *)
Lemma chk_queue_loop_suffix fuel : forall s ds s',
  hal_timer_chk_queue_loop cb_exec fuel n s = Ret ds s' ->
  forall ds1 d ds2, ds = ds1 ++ d :: ds2 ->
    hal_timer_q (bsptimers (d_state d) n)
    = (d_timer <$> ds2) ++ hal_timer_q (bsptimers s' n).
Proof.
  induction fuel as [|fuel IH]; intros s ds s' H; [done|].
  destruct ds as [|d ds]; [intros ds1 d ds2 Hds; by destruct ds1|].
  apply chk_queue_loop_fire in H
    as (q' & s1 & t & s3 & Eq & Hread & Hfr & Ht & H0 & He & Hge & Hcb & Hd
        & Hrun & Hrec).
  intros ds1 d1 ds2 Hds. destruct ds1 as [|d0 ds1].
  - injection Hds as Hd1 Hds. subst d1 ds.
    rewrite <- (cb_queue _ _ _ _ Hrun).
    by apply (chk_queue_loop_prefix cb_exec n cb_queue fuel).
  - injection Hds as _ Hds. subst ds. by eapply IH.
Qed.

(** Callbacks that leave the timer objects alone. *)
Hypothesis cb_timers : forall f a s s',
  cb_exec f a s = Ret tt s' -> timers s' = timers s.

Lemma chk_queue_loop_keeps_unlinked x fuel : forall s ds s',
  hal_timer_chk_queue_loop cb_exec fuel n s = Ret ds s' ->
  (exists t, timers s !! x = Some t /\ link_tqe_prev t = false) ->
  exists t, timers s' !! x = Some t /\ link_tqe_prev t = false.
Proof.
  induction fuel as [|fuel IH]; intros s ds s' H Hx; [done|].
  apply chk_queue_loop_step in H
    as [(_ & -> & ->)|(timer & q' & tcntr & s1 & t & Eq & Hfr & Ht & H0 & H)];
    [done|].
  destruct H as [(_ & -> & ->)|(Hge & Hcb & s3 & ds' & Hrun & Hrec & ->)].
  { by rewrite (proj1 Hfr). }
  apply (IH _ _ _ Hrec). rewrite (cb_timers _ _ _ _ Hrun).
  unfold unlinked. cbn. destruct (decide (x = timer)) as [->|Hne].
  - rewrite lookup_insert_eq. by eexists.
  - rewrite lookup_insert_ne by done. by rewrite (proj1 Hfr).
Qed.

Lemma chk_queue_loop_links fuel : forall s ds s',
  hal_timer_chk_queue_loop cb_exec fuel n s = Ret ds s' ->
  Forall (fun x => exists t, timers s' !! x = Some t /\
                     link_tqe_prev t = false) (d_timer <$> ds).
Proof.
  induction fuel as [|fuel IH]; intros s ds s' H; [done|].
  destruct ds as [|d ds]; [constructor|].
  apply chk_queue_loop_fire in H
    as (q' & s1 & t & s3 & Eq & Hread & Hfr & Ht & H0 & He & Hge & Hcb & Hd
        & Hrun & Hrec).
  cbn. constructor; [|by eapply IH].
  apply (chk_queue_loop_keeps_unlinked _ _ _ _ _ Hrec).
  rewrite (cb_timers _ _ _ _ Hrun), Hd. unfold unlinked. cbn.
  rewrite lookup_insert_eq. by eexists.
Qed.

End Dispatches.

(** ** What a returning [hal_timer_start_at] did *)

Lemma set_ocmp_frame n e s s' :
  nrf_timer_set_ocmp n e s = Ret tt s' ->
  bsptimers s' = bsptimers s /\ timers s' = timers s.
Proof.
  destruct (tmr_reg (bsptimers s n)) as [hw|] eqn:Hreg.
  - destruct (set_ocmp_armed n e s hw Hreg) as (s0 & -> & Hb & Ht & _).
    by intros [= <-].
  - by rewrite set_ocmp_None.
Qed.

Lemma hal_timer_start_at_inv timer tick s rc s' :
  hal_timer_start_at timer tick s = Ret rc s' ->
  (rc = EINVAL /\ s' = s) \/
  exists t m, timer ≠ 0 /\ timers s !! timer = Some t /\
    link_tqe_prev t = false /\ cb_func t ≠ 0 /\ bsp_timer t = Some m /\
    timers s'
    = <[timer:=with_link_tqe_prev true (with_expiry tick t)]> (timers s) /\
    forall k, k ≠ m -> bsptimers s' k = bsptimers s k.
Proof.
  unfold hal_timer_start_at. destruct (Z.eqb_spec timer 0) as [|H0].
  { intros [= <- <-]. by left. }
  intros H. apply bind_Ret_inv in H as (t & s0 & Hd & H).
  apply deref_inv in Hd as (-> & Ht & _).
  destruct (link_tqe_prev t) eqn:Hl; [injection H as <- <-; by left|].
  destruct (Z.eqb_spec (cb_func t) 0) as [|Hcb];
    [injection H as <- <-; by left|].
  cbn [orb] in H. right.
  destruct (bsp_timer t) as [m|] eqn:Hm; [|done].
  exists t, m. do 5 (split; [done|]).
  apply bind_Ret_inv in H as (m' & s1 & [= <- <-] & H).
  erewrite bind_Ret in H; [|apply upd_timer_eq; [exact Ht|exact H0]].
  apply bind_Ret_inv in H as (ctx & s2 & [= <- <-] & H).
  apply bind_Ret_inv in H as (b & s3 & [= <- <-] & H).
  apply bind_Ret_inv in H as (sg & s3 & [= <- <-] & H).
  apply bind_Ret_inv in H as ([] & s4 & Hins & H).
  match type of Hins with
  | context [match ?o with Some _ => _ | None => _ end] =>
      destruct o as [q|]; [|done]
  end.
  apply bind_Ret_inv in Hins as ([] & s3 & [= <-] & Hins).
  erewrite upd_timer_eq in Hins; [|apply lookup_insert_eq|exact H0].
  injection Hins as <-.
  apply bind_Ret_inv in H as (b' & s5 & [= <- <-] & H).
  apply bind_Ret_inv in H as ([] & s5 & Hif & H).
  apply bind_Ret_inv in H as ([] & s6 & Hen & [= <- <-]).
  assert (H5 : bsptimers s5 = bsptimers
    (set_timers (<[timer:=with_link_tqe_prev true (with_expiry tick t)]>
                   (<[timer:=with_expiry tick t]> (timers s)))
       (set_bsptimers
          (upd (bsptimers s) m (with_hal_timer_q q (bsptimers s m)))
          (set_PRIMASK true
             (set_timers (<[timer:=with_expiry tick t]> (timers s)) s)))) /\
    timers s5 = <[timer:=with_link_tqe_prev true (with_expiry tick t)]>
                  (<[timer:=with_expiry tick t]> (timers s))).
  { destruct (is_first _ _).
    - apply bind_Ret_inv in Hif as (t5 & s4 & Hd & Hif).
      apply deref_inv in Hd as (-> & _).
      by apply set_ocmp_frame in Hif.
    - by injection Hif as <-. }
  destruct H5 as [Hb5 Ht5].
  assert (H6 : bsptimers s6 = bsptimers s5 /\ timers s6 = timers s5).
  { unfold __HAL_ENABLE_INTERRUPTS in Hen.
    destruct (PRIMASK s); by injection Hen as <-. }
  destruct H6 as [-> ->]. rewrite Hb5, Ht5. split.
  - apply insert_insert_eq.
  - intros k Hk. cbn. by rewrite upd_other.
Qed.

Lemma hal_timer_start_at_queue_ok s n timer tick s' :
  queue_ok s n -> startable s n timer ->
  hal_timer_start_at timer tick s = Ret 0 s' ->
  queue_ok s' n /\ timer ∈ hal_timer_q (bsptimers s' n) /\
  expiry_of s' timer = Some tick.
Proof.
  intros Hq Hst Hrun'.
  pose proof (startable_not_queued _ _ _ Hq Hst) as Hnin.
  destruct (hal_timer_start_at_summary s n timer tick Hq Hst)
    as (s1 & q1 & q2 & hw & t & Hrun & Ht & Hreg & Hsplit & Hq1 & _ & _ & Ht1
        & _ & Hb1 & _).
  rewrite Hrun in Hrun'. injection Hrun' as <-.
  destruct Hst as (H0 & t0 & Ht0 & Hbsp & Hl & Hcb).
  rewrite Ht in Ht0. injection Ht0 as <-.
  split; [|split].
  - split; [|split].
    + rewrite (proj1 (Hb1 n)), Hreg. by eexists.
    + rewrite Hq1. destruct Hq as (_ & Hnd & _). rewrite Hsplit in Hnd, Hnin.
      apply NoDup_app in Hnd as (Hn1 & Hn12 & Hn2). apply NoDup_app.
      split; [done|]. split.
      * intros x Hx1 Hx2. apply elem_of_cons in Hx2. destruct Hx2 as [->|Hx2];
          [|by eapply Hn12].
        apply Hnin, elem_of_app. by left.
      * apply NoDup_cons. split; [|done]. intros Hx. apply Hnin, elem_of_app.
        by right.
    + intros x Hx. rewrite Hq1 in Hx. rewrite Ht1.
      destruct (decide (x = timer)) as [->|Hne].
      * split; [done|]. rewrite lookup_insert_eq. eexists. split; [done|].
        by repeat split.
      * rewrite lookup_insert_ne by done.
        apply (queue_ok_entry _ _ _ Hq). rewrite Hsplit.
        apply elem_of_app in Hx. destruct Hx as [Hx|Hx];
          [apply elem_of_app; by left|].
        apply elem_of_cons in Hx. destruct Hx as [->|Hx]; [done|].
        apply elem_of_app; by right.
  - rewrite Hq1. apply elem_of_app. right. left.
  - unfold expiry_of. destruct (Z.eqb_spec timer 0); [done|].
    by rewrite Ht1, lookup_insert_eq.
Qed.

Lemma hal_timer_start_at_keeps_queue_ok timer tick s rc s' n :
  hal_timer_start_at timer tick s = Ret rc s' -> queue_ok s n -> queue_ok s' n.
Proof.
  intros H Hq.
  destruct (hal_timer_start_at_inv _ _ _ _ _ H)
    as [[_ ->]|(t & m & H0 & Ht & Hl & Hcb & Hm & Ht' & Hb)]; [done|].
  destruct (decide (m = n)) as [->|Hne].
  - assert (Hst : startable s n timer).
    { split; [done|]. by exists t. }
    destruct (hal_timer_start_at_summary s n timer tick Hq Hst)
      as (s1 & q1 & q2 & hw & t1 & Hrun & _).
    rewrite Hrun in H. injection H as <- <-.
    by destruct (hal_timer_start_at_queue_ok _ _ _ _ _ Hq Hst Hrun).
  - destruct Hq as (Hreg & Hnd & Hall). unfold queue_ok.
    rewrite (Hb n) by done. split; [done|]. split; [done|].
    intros x Hx. destruct (Hall x Hx) as (Hx0 & tx & Htx & Hrest).
    split; [done|]. exists tx. split; [|done].
    rewrite Ht', lookup_insert_ne; [done|]. intros <-.
    destruct Hrest as (_ & Hlx & _). congruence.
Qed.

(** ** The compare channel follows the head of the queue *)

Lemma hal_timer_start_at_rearm s n timer tick :
  queue_ok s n -> rearm_inv s n -> startable s n timer ->
  exists s', hal_timer_start_at timer tick s = Ret 0 s' /\ rearm_inv s' n.
Proof.
  intros Hq (hw0 & Hreg0 & Hinv) Hst.
  pose proof (startable_not_queued _ _ _ Hq Hst) as Hnin.
  destruct (hal_timer_start_at_summary s n timer tick Hq Hst)
    as (s' & q1 & q2 & hw & t & Hrun & Ht & Hreg & Hsplit & Hq' & _ & _
        & Ht' & _ & Hb & Harm).
  assert (hw0 = hw) as -> by congruence.
  exists s'. split; [done|]. exists hw.
  destruct (Hb n) as (Hr & H16 & Hc & _). split; [congruence|].
  rewrite Hq'. destruct q1 as [|y q1]; cbn.
  - exists (with_link_tqe_prev true (with_expiry tick t)).
    split; [rewrite Ht'; apply lookup_insert_eq|].
    by apply (armed_for_ext (bsptimers s n)).
  - rewrite Hsplit in Hinv, Hnin. cbn in Hinv.
    destruct Hinv as (ty & Hty & Ha). exists ty. split.
    + rewrite Ht', lookup_insert_ne; [done|]. intros <-. apply Hnin. left.
    + rewrite Harm. by apply (armed_for_ext (bsptimers s n)).
Qed.

Lemma hal_timer_stop_rearm s n timer t :
  queue_ok s n -> rearm_inv s n ->
  timer ≠ 0 -> timers s !! timer = Some t -> bsp_timer t = Some n ->
  exists s', hal_timer_stop timer s = Ret 0 s' /\ rearm_inv s' n.
Proof.
  intros Hq (hw0 & Hreg0 & Hinv) H0 Ht Hbsp.
  destruct (hal_timer_stop_summary s n timer t Hq H0 Ht (fun _ => Hbsp))
    as (s' & hw & Hrun & Hreg & _ & Hb & Hcase).
  assert (hw0 = hw) as -> by congruence.
  exists s'. split; [done|]. exists hw.
  destruct (Hb n) as (Hr & H16 & Hc & _). split; [congruence|].
  destruct (link_tqe_prev t).
  - destruct Hcase as (Hq' & Ht' & Hcase). rewrite Hq'.
    destruct (hal_timer_q (bsptimers s n)) as [|first rest] eqn:Eq.
    + cbn. by rewrite Hcase.
    + destruct (Z.eqb_spec first timer) as [->|Hne].
      * rewrite TAILQ_REMOVE_head. destruct rest as [|e rest]; [done|].
        destruct Hcase as (te & Hte & Hne & Ha). exists te. split.
        -- by rewrite Ht', lookup_insert_ne.
        -- by apply (armed_for_ext (bsptimers s n)).
      * rewrite TAILQ_REMOVE_not_first by done.
        destruct Hinv as (tf & Htf & Ha). exists tf. split.
        -- by rewrite Ht', lookup_insert_ne.
        -- rewrite Hcase. by apply (armed_for_ext (bsptimers s n)).
  - destruct Hcase as (-> & -> & ->).
    destruct (hal_timer_q (bsptimers s n)); [done|].
    destruct Hinv as (tf & Htf & Ha). exists tf. split; [done|].
    by apply (armed_for_ext (bsptimers s n)).
Qed.

Lemma rearm_inv_wide s n hw :
  rearm_inv s n -> tmr_reg (bsptimers s n) = Some hw ->
  tmr_16bit (bsptimers s n) = 0 -> compare_tracks_head s n hw.
Proof.
  intros (hw0 & Hreg0 & Hinv) Hreg H16.
  assert (hw0 = hw) as -> by congruence.
  unfold armed_for in Hinv. rewrite H16 in Hinv. cbn in Hinv.
  unfold compare_tracks_head.
  destruct (hal_timer_q (bsptimers s n)) as [|first rest]; split.
  - done.
  - by intros first t [=].
  - split; [done|]. intros Hoff. destruct Hinv as (t & _ & _ & Hen). done.
  - intros f t [= <-] Ht. destruct Hinv as (t' & Ht' & Hcc & _). congruence.
Qed.

(** C1 as stated fails in two ways.  On a 16-bit device, timer 100 started
    for tick 0x20005 while the overflow tally is 0 becomes the head of the
    queue, and the compare interrupt is left disabled although the queue is
    not empty.  On a 32-bit device, in the state in which the callback of
    timer 200 (due at 20) runs during a drain pass, with timer 100 (due at
    50) and timer 300 (due at 70) still queued, [hal_timer_stop] of timer
    300 removes it from behind the head and leaves the compare register at
    20, which is not the expiry of the head. *)
Lemma compare_tracks_head_fails :
  (let s := Sample.ready 1 [] in
   let s' := Sample.after (hal_timer_start_at 100 0x20005) s in
   result (run (hal_timer_start_at 100 0x20005) s) = Some 0 /\
   tmr_reg (bsptimers s' 1) = Some 1%nat /\
   hal_timer_q (bsptimers s' 1) = [100] /\
   ~ compare_tracks_head s' 1 1) /\
  (let s := Sample.in_callback
              (Sample.after (hal_timer_start_at 300 70) Sample.pending) in
   let s' := Sample.after (hal_timer_stop 300) s in
   hal_timer_q (bsptimers s 0) = [100; 300] /\
   result (run (hal_timer_stop 300) s) = Some 0 /\
   tmr_reg (bsptimers s' 0) = Some 0%nat /\
   hal_timer_q (bsptimers s' 0) = [100] /\
   expiry_of s' 100 = Some 50 /\
   CC (NRF_TIMER s' 0) NRF_TIMER_CC_INT = 20 /\
   ~ compare_tracks_head s' 0 0).
Proof.
  cbv zeta. split.
  - do 3 (split; [vm_compute; reflexivity|]).
    intros [[_ H] _].
    assert (Hoff : ~ compare_enabled
      (NRF_TIMER (Sample.after (hal_timer_start_at 100 131077)
                                (Sample.ready 1 [])) 1)).
    { unfold compare_enabled. vm_compute. discriminate. }
    apply H in Hoff.
    enough (Hq : @nil Z = [100]) by discriminate Hq.
    etransitivity; [symmetry; exact Hoff|]. vm_compute. reflexivity.
  - do 6 (split; [vm_compute; reflexivity|]).
    intros [_ H]. enough (Hcc : 20 = 50) by discriminate Hcc.
    transitivity (CC (NRF_TIMER (Sample.after (hal_timer_stop 300)
               (Sample.in_callback (Sample.after (hal_timer_start_at 300 70)
                  Sample.pending))) 0) NRF_TIMER_CC_INT);
      [vm_compute; reflexivity|].
    apply (H 100 (mkHalTimer (Some 0%nat) 7 100 50 true));
      vm_compute; reflexivity.
Qed.

Lemma rearm_inv_ext s s' n :
  tmr_reg (bsptimers s' n) = tmr_reg (bsptimers s n) ->
  tmr_16bit (bsptimers s' n) = tmr_16bit (bsptimers s n) ->
  tmr_cntr (bsptimers s' n) = tmr_cntr (bsptimers s n) ->
  NRF_TIMER s' = NRF_TIMER s ->
  match hal_timer_q (bsptimers s n), hal_timer_q (bsptimers s' n) with
  | [], [] => True
  | x :: _, y :: _ => x = y /\ timers s' !! x = timers s !! x
  | _, _ => False
  end ->
  rearm_inv s n <-> rearm_inv s' n.
Proof.
  intros Hreg H16 Hc Hr Hh. unfold rearm_inv, armed_for.
  rewrite Hreg, H16, Hc, Hr.
  destruct (hal_timer_q (bsptimers s n)) as [|x q],
    (hal_timer_q (bsptimers s' n)) as [|y q']; try done.
  destruct Hh as [<- ->]. done.
Qed.

Lemma hal_timer_start_at_head s n timer tick :
  queue_ok s n -> startable s n timer ->
  exists s', hal_timer_start_at timer tick s = Ret 0 s' /\
    timer ∈ hal_timer_q (bsptimers s' n) /\
    (head (hal_timer_q (bsptimers s' n)) = Some timer -> rearm_inv s' n) /\
    (head (hal_timer_q (bsptimers s' n)) ≠ Some timer ->
     head (hal_timer_q (bsptimers s' n)) = head (hal_timer_q (bsptimers s n)) /\
     NRF_TIMER s' = NRF_TIMER s /\
     (rearm_inv s' n <-> rearm_inv s n)).
Proof.
  intros Hq Hst.
  pose proof (startable_not_queued _ _ _ Hq Hst) as Hnin.
  destruct (hal_timer_start_at_summary s n timer tick Hq Hst)
    as (s' & q1 & q2 & hw & t & Hrun & Ht & Hreg & Hsplit & Hq' & _ & _
        & Ht' & _ & Hb & Harm).
  exists s'. split; [done|].
  destruct (Hb n) as (Hr & H16 & Hc & _).
  rewrite Hq', Hsplit. rewrite Hsplit in Hnin.
  split; [apply elem_of_app; right; left|].
  destruct q1 as [|y q1]; cbn [app head].
  - split; [|done]. intros _. exists hw. split; [congruence|].
    rewrite Hq'. cbn [app].
    exists (with_link_tqe_prev true (with_expiry tick t)).
    split; [rewrite Ht'; apply lookup_insert_eq|].
    by apply (armed_for_ext (bsptimers s n)).
  - assert (Hne : y ≠ timer) by (intros ->; apply Hnin; left).
    split; [intros [= ?]; done|]. intros _.
    split; [done|]. split; [done|]. symmetry.
    apply rearm_inv_ext; try done.
    rewrite Hq', Hsplit. cbn [app]. split; [done|].
    by rewrite Ht', lookup_insert_ne.
Qed.

Lemma hal_timer_stop_head s n timer :
  queue_ok s n -> timer ∈ hal_timer_q (bsptimers s n) ->
  exists s', hal_timer_stop timer s = Ret 0 s' /\
    hal_timer_q (bsptimers s' n)
    = TAILQ_REMOVE (hal_timer_q (bsptimers s n)) timer /\
    (head (hal_timer_q (bsptimers s n)) = Some timer -> rearm_inv s' n) /\
    (head (hal_timer_q (bsptimers s n)) ≠ Some timer ->
     head (hal_timer_q (bsptimers s' n)) = head (hal_timer_q (bsptimers s n)) /\
     NRF_TIMER s' = NRF_TIMER s /\
     (rearm_inv s' n <-> rearm_inv s n)).
Proof.
  intros Hq Hin.
  destruct (queue_ok_entry _ _ _ Hq Hin) as (H0 & t & Ht & Hbsp & Hl & _).
  destruct (hal_timer_stop_summary s n timer t Hq H0 Ht (fun _ => Hbsp))
    as (s' & hw & Hrun & Hreg & _ & Hb & Hcase).
  rewrite Hl in Hcase. destruct Hcase as (Hq' & Ht' & Hcase).
  exists s'. split; [done|]. split; [done|].
  destruct (Hb n) as (Hr & H16 & Hc & _).
  destruct (hal_timer_q (bsptimers s n)) as [|first rest] eqn:Eq.
  { by apply elem_of_nil in Hin. }
  cbn [head]. destruct (Z.eqb_spec first timer) as [->|Hne].
  - split; [|done]. intros _. exists hw. split; [congruence|].
    rewrite Hq', TAILQ_REMOVE_head. destruct rest as [|e rest]; [done|].
    destruct Hcase as (te & Hte & Hne & Ha). exists te. split.
    + by rewrite Ht', lookup_insert_ne.
    + by apply (armed_for_ext (bsptimers s n)).
  - split; [intros [= ?]; done|]. intros _.
    rewrite Hq', TAILQ_REMOVE_not_first by done.
    split; [done|]. split; [done|]. symmetry.
    apply rearm_inv_ext; try done.
    rewrite Hq', Eq, TAILQ_REMOVE_not_first by done. split; [done|].
    by rewrite Ht', lookup_insert_ne.
Qed.

(** C1, amended: on a well-formed queue, whatever the compare channel was
    set to before, an insertion by [hal_timer_start_at] that becomes the new
    head, a removal of the head by [hal_timer_stop] and a drain pass of
    [hal_timer_chk_queue] each leave the compare channel following the head
    of the queue ([rearm_inv]): disabled for an empty queue; for a 32-bit
    device armed at the expiry of the head with the interrupt enabled; for a
    16-bit device armed at the low half of the expiry of the head only when
    its high half is the current overflow tally, and disabled otherwise.
    An insertion behind the head and a removal behind the head leave the
    head and the peripheral untouched, so that the compare channel follows
    the head after them exactly when it did before.  The insertion and the
    removal return 0, and so does the drain pass with enough fuel and
    callbacks that return and leave the queue alone.  For a 32-bit device
    [rearm_inv] is the claim as stated ([compare_tracks_head]). *)
Theorem compare_follows_queue_head
    (cb_exec : Z -> Z -> M unit) (s : state) (n : nat) (timer tick : Z)
    (fuel : nat) :
  queue_ok s n ->
  (startable s n timer ->
   exists s', run (hal_timer_start_at timer tick) s = Ret 0 s' /\
     timer ∈ hal_timer_q (bsptimers s' n) /\
     (head (hal_timer_q (bsptimers s' n)) = Some timer -> rearm_inv s' n) /\
     (head (hal_timer_q (bsptimers s' n)) ≠ Some timer ->
      head (hal_timer_q (bsptimers s' n))
      = head (hal_timer_q (bsptimers s n)) /\
      NRF_TIMER s' = NRF_TIMER s /\
      (rearm_inv s' n <-> rearm_inv s n))) /\
  (timer ∈ hal_timer_q (bsptimers s n) ->
   exists s', run (hal_timer_stop timer) s = Ret 0 s' /\
     hal_timer_q (bsptimers s' n)
     = TAILQ_REMOVE (hal_timer_q (bsptimers s n)) timer /\
     (head (hal_timer_q (bsptimers s n)) = Some timer -> rearm_inv s' n) /\
     (head (hal_timer_q (bsptimers s n)) ≠ Some timer ->
      head (hal_timer_q (bsptimers s' n))
      = head (hal_timer_q (bsptimers s n)) /\
      NRF_TIMER s' = NRF_TIMER s /\
      (rearm_inv s' n <-> rearm_inv s n))) /\
  (forall ds s', run (hal_timer_chk_queue cb_exec fuel n) s = Ret ds s' ->
                 rearm_inv s' n) /\
  ((forall f a s1 s2, cb_exec f a s1 = Ret tt s2 ->
      hal_timer_q (bsptimers s2 n) = hal_timer_q (bsptimers s1 n)) ->
   (forall f a s1, exists s2, cb_exec f a s1 = Ret tt s2) ->
   (forall f a s1 s2, cb_exec f a s1 = Ret tt s2 ->
      queue_ok s1 n -> queue_ok s2 n) ->
   (length (hal_timer_q (bsptimers s n)) < fuel)%nat ->
   exists ds s', run (hal_timer_chk_queue cb_exec fuel n) s = Ret ds s' /\
                 rearm_inv s' n) /\
  (forall s' hw, rearm_inv s' n -> tmr_reg (bsptimers s' n) = Some hw ->
                 tmr_16bit (bsptimers s' n) = 0 ->
                 compare_tracks_head s' n hw).
Proof.
  intros Hq. split; [|split; [|split; [|split]]].
  - by apply hal_timer_start_at_head.
  - by apply hal_timer_stop_head.
  - intros ds s' H. by apply chk_queue_inv in H as (s1 & _ & _ & H).
  - intros Hquiet Htotal Hok Hlen.
    destruct (hal_timer_chk_queue_returns cb_exec n Hquiet Htotal Hok fuel s
                Hq Hlen) as (ds & s' & Hrun).
    exists ds, s'. split; [done|].
    by apply chk_queue_inv in Hrun as (s1 & _ & _ & H).
  - intros s' hw. apply rearm_inv_wide.
Qed.

Lemma queue_okb_ok s n : queue_okb s n = true -> queue_ok s n.
Proof.
  unfold queue_okb, queue_ok. rewrite !andb_true_iff, forallb_forall.
  intros [[Hreg Hnd] Hall]. split; [|split].
  - by destruct (tmr_reg (bsptimers s n)).
  - by apply bool_decide_eq_true in Hnd.
  - intros x Hx%list_elem_of_In. specialize (Hall x Hx).
    apply andb_true_iff in Hall as [H0 Ht].
    destruct (Z.eqb_spec x 0); [done|]. split; [done|].
    destruct (timers s !! x) as [t|]; [|done]. exists t.
    rewrite !andb_true_iff in Ht. destruct Ht as [[Hb Hl] Hc].
    destruct (bsp_timer t) as [m|]; [|done].
    apply Nat.eqb_eq in Hb as ->.
    destruct (Z.eqb_spec (cb_func t) 0); done.
Qed.

Lemma rearm_inv_wide_head s n hw first q t :
  rearm_inv s n -> tmr_reg (bsptimers s n) = Some hw ->
  nonzero (tmr_16bit (bsptimers s n)) = false ->
  hal_timer_q (bsptimers s n) = first :: q ->
  timers s !! first = Some t ->
  CC (NRF_TIMER s hw) NRF_TIMER_CC_INT = expiry t.
Proof.
  intros (hw0 & Hreg0 & Hinv) Hreg H32 Hq Ht.
  assert (hw0 = hw) as -> by congruence.
  rewrite Hq in Hinv. destruct Hinv as (t' & Ht' & Ha).
  assert (t' = t) as -> by congruence.
  unfold armed_for in Ha. rewrite H32 in Ha. apply Ha.
Qed.

(** C1, amended, in the state in which the callback of timer 200 runs
    during a drain pass: the compare register still holds the expiry 20 of
    the timer being dispatched, not that of the head, timer 100 due at 50.
    Timer 200 started again for tick 30 becomes the head, and the compare
    channel is armed for it. *)
Lemma compare_follows_queue_head_witness :
  let s := Sample.in_callback Sample.pending in
  queue_ok s 0 /\ startable s 0 200 /\ ~ rearm_inv s 0 /\
  exists s', run (hal_timer_start_at 200 30) s = Ret 0 s' /\
    head (hal_timer_q (bsptimers s' 0)) = Some 200 /\
    rearm_inv s' 0 /\ compare_tracks_head s' 0 0.
Proof.
  cbv zeta.
  assert (Hq : queue_ok (Sample.in_callback Sample.pending) 0).
  { apply queue_okb_ok. vm_compute. reflexivity. }
  assert (Hst : startable (Sample.in_callback Sample.pending) 0 200).
  { split; [discriminate|]. eexists. split; [vm_compute; reflexivity|].
    split; [reflexivity|]. split; [reflexivity|discriminate]. }
  assert (Hstale : ~ rearm_inv (Sample.in_callback Sample.pending) 0).
  { intros H. enough (Hcc : 20 = 50) by discriminate Hcc.
    transitivity (CC (NRF_TIMER (Sample.in_callback Sample.pending) 0)
                    NRF_TIMER_CC_INT); [vm_compute; reflexivity|].
    transitivity (expiry (mkHalTimer (Some 0%nat) 7 100 50 true));
      [|reflexivity].
    apply (rearm_inv_wide_head _ 0 0 100 []); [exact H|..];
      vm_compute; reflexivity. }
  split; [exact Hq|]. split; [exact Hst|]. split; [exact Hstale|].
  destruct (compare_follows_queue_head Sample.cb_none
              (Sample.in_callback Sample.pending) 0 200 30 1 Hq)
    as (Hstart & _ & _ & _ & Hwide).
  destruct (Hstart Hst) as (s' & Hrun & _ & Hhead & _).
  assert (Hs' : s' = Sample.after (hal_timer_start_at 200 30)
                       (Sample.in_callback Sample.pending)).
  { unfold Sample.after. rewrite Hrun. reflexivity. }
  assert (Hh : head (hal_timer_q (bsptimers s' 0)) = Some 200).
  { rewrite Hs'. vm_compute. reflexivity. }
  exists s'. split; [exact Hrun|]. split; [exact Hh|].
  split; [exact (Hhead Hh)|].
  apply Hwide; [exact (Hhead Hh)| |]; rewrite Hs'; vm_compute; reflexivity.
Defined.

(** ** Dispatch *)

(** C2: in a pass of [hal_timer_chk_queue] over a well-formed queue, with
    any callbacks that keep the queue well formed, every dispatch runs the
    callback of its timer on the state recorded for it, and in that state
    the timer has its link cleared and is out of the queue, and the tick
    value read for the dispatch, which is what the capture left in the read
    channel (under the overflow tally on a 16-bit device), is not before
    the expiry of the timer: [(int32_t)(now - expiry) >= 0].  The state of
    the first dispatch is the one the pass was entered in with the head of
    the queue taken out and its link cleared, the state of every later
    dispatch is obtained in the same way from the state in which the
    callback before it returned, and the pass ends with the queues and
    timer objects that the last callback left: every dispatch takes one
    entry off the queue.  When the callbacks leave the queue alone, the
    timers dispatched followed by the queue left are the queue found, so
    that no timer is dispatched twice, none of them is in the queue
    afterwards, and a pass that follows dispatches none of them again; when
    they also leave the timer objects alone, every timer dispatched ends
    with its link cleared. *)
Theorem dispatch_due_and_once
    (cb_exec : Z -> Z -> M unit) (n fuel : nat) (s : state)
    (ds : list dispatch) (s' : state) :
  (forall f a s1 s2,
     cb_exec f a s1 = Ret tt s2 -> queue_ok s1 n -> queue_ok s2 n) ->
  queue_ok s n ->
  run (hal_timer_chk_queue cb_exec fuel n) s = Ret ds s' ->
  Forall (fun d => exists t hw s2,
    timers (d_state d) !! d_timer d = Some t /\
    cb_exec (cb_func t) (cb_arg t) (d_state d) = Ret tt s2 /\
    tmr_reg (bsptimers (d_state d) n) = Some hw /\
    d_now d = tick_read (d_state d) n hw /\
    d_expiry d = expiry t /\
    int32_t (tick_read (d_state d) n hw - expiry t) >= 0 /\
    link_tqe_prev t = false /\
    (d_timer d ∉ hal_timer_q (bsptimers (d_state d) n))) ds /\
  match ds with
  | d :: _ => unlinked_from n (d_timer d) s (d_state d)
  | [] => True
  end /\
  (forall ds1 d1 d2 ds2, ds = ds1 ++ d1 :: d2 :: ds2 ->
     exists t1 s2, timers (d_state d1) !! d_timer d1 = Some t1 /\
       cb_exec (cb_func t1) (cb_arg t1) (d_state d1) = Ret tt s2 /\
       unlinked_from n (d_timer d2) s2 (d_state d2)) /\
  match last ds with
  | Some d => exists t s2, timers (d_state d) !! d_timer d = Some t /\
      cb_exec (cb_func t) (cb_arg t) (d_state d) = Ret tt s2 /\
      frame s2 s'
  | None => frame s s'
  end /\
  ((forall f a s1 s2,
      cb_exec f a s1 = Ret tt s2 ->
      hal_timer_q (bsptimers s2 n) = hal_timer_q (bsptimers s1 n)) ->
   hal_timer_q (bsptimers s n)
   = (d_timer <$> ds) ++ hal_timer_q (bsptimers s' n) /\
   NoDup (d_timer <$> ds) /\
   Forall (fun x => x ∉ hal_timer_q (bsptimers s' n)) (d_timer <$> ds) /\
   (forall fuel' ds' s'',
      run (hal_timer_chk_queue cb_exec fuel' n) s' = Ret ds' s'' ->
      Forall (fun x => x ∉ d_timer <$> ds) (d_timer <$> ds')) /\
   ((forall f a s1 s2, cb_exec f a s1 = Ret tt s2 -> timers s2 = timers s1) ->
    Forall (fun x => exists t, timers s' !! x = Some t /\
                       link_tqe_prev t = false) (d_timer <$> ds))).
Proof.
  intros Hcb Hq H. apply chk_queue_inv in H as (s1 & Hloop & Hfr & _).
  assert (Hq0 : queue_ok (set_PRIMASK true s) n) by exact Hq.
  destruct (chk_queue_loop_chain cb_exec n Hcb fuel _ _ _ Hq0 Hloop)
    as [Hfirst Hchain].
  assert (Hlast :   match last ds with
    | Some d => exists t s2, timers (d_state d) !! d_timer d = Some t /\
        cb_exec (cb_func t) (cb_arg t) (d_state d) = Ret tt s2 /\
        frame s2 s'
    | None => frame s s'
    end).
  { pose proof (chk_queue_loop_last cb_exec n fuel _ _ _ Hloop) as Hl.
    destruct (last ds) as [d|].
    - destruct Hl as (t & s2 & Ht & Hrun & Hfr2). exists t, s2.
      split; [done|]. split; [done|]. by eapply frame_trans.
    - eapply frame_trans; [exact Hl|exact Hfr]. }
  split; [|split; [exact Hfirst|split; [exact Hchain|split; [exact Hlast|]]]].
  - eapply Forall_impl;
      [exact (chk_queue_loop_dispatches cb_exec n Hcb fuel _ _ _ Hq0 Hloop)|].
    intros d (t & hw & s2 & _ & Ht & Hrun & Hreg & Hnow & He & Hge & Hst & Hnin).
    exists t, hw, s2. do 6 (split; [done|]). split; [|done].
    destruct Hst as (_ & t' & Ht' & _ & Hl & _). congruence.
  - intros Hquiet.
    pose proof (chk_queue_loop_prefix cb_exec n Hquiet fuel _ _ _ Hloop) as Hp.
    cbn [bsptimers set_PRIMASK] in Hp.
    rewrite <- (proj1 (proj2 Hfr n)) in Hp.
    pose proof (proj1 (proj2 Hq)) as Hnd. rewrite Hp in Hnd.
    apply NoDup_app in Hnd as (Hnd & Hdisj & _).
    split; [exact Hp|]. split; [exact Hnd|]. split.
    { apply Forall_forall. intros x Hx. by apply Hdisj. }
    split.
    { intros fuel' ds' s'' H'.
      apply chk_queue_inv in H' as (s2 & Hloop' & _).
      pose proof (chk_queue_loop_prefix cb_exec n Hquiet fuel' _ _ _ Hloop')
        as Hp'.
      cbn [bsptimers set_PRIMASK] in Hp'.
      apply Forall_forall. intros x Hx Hx'. apply (Hdisj x Hx').
      rewrite Hp'. apply elem_of_app. by left. }
    intros Htimers. rewrite (proj1 Hfr).
    by apply (chk_queue_loop_links cb_exec n Htimers fuel _ _ _ Hloop).
Qed.

(** C10: in a pass of [hal_timer_chk_queue] over a well-formed queue, with
    any callbacks that keep the queue well formed, every dispatch runs the
    callback of its timer on a state in which the timer is out of the queue
    with its link cleared, and from that state [hal_timer_start_at] on that
    same timer returns 0, whatever the tick, and leaves the timer in the
    queue with that expiry.  That state is the one the pass was entered in
    (for the first dispatch) or the one in which the callback before it
    returned (for a later one) with the head of the queue taken out and its
    link cleared, and the pass ends with the queues and timer objects that
    the last callback left. *)
Theorem restart_from_own_callback
    (cb_exec : Z -> Z -> M unit) (n fuel : nat) (s : state)
    (ds : list dispatch) (s' : state) :
  (forall f a s1 s2,
     cb_exec f a s1 = Ret tt s2 -> queue_ok s1 n -> queue_ok s2 n) ->
  queue_ok s n ->
  run (hal_timer_chk_queue cb_exec fuel n) s = Ret ds s' ->
  Forall (fun d => exists t s2,
    timers (d_state d) !! d_timer d = Some t /\
    link_tqe_prev t = false /\
    (d_timer d ∉ hal_timer_q (bsptimers (d_state d) n)) /\
    cb_exec (cb_func t) (cb_arg t) (d_state d) = Ret tt s2 /\
    forall tick, exists s'',
      run (hal_timer_start_at (d_timer d) tick) (d_state d) = Ret 0 s'' /\
      d_timer d ∈ hal_timer_q (bsptimers s'' n) /\
      expiry_of s'' (d_timer d) = Some tick /\
      queue_ok s'' n) ds /\
  match ds with
  | d :: _ => unlinked_from n (d_timer d) s (d_state d)
  | [] => True
  end /\
  (forall ds1 d1 d2 ds2, ds = ds1 ++ d1 :: d2 :: ds2 ->
     exists t1 s2, timers (d_state d1) !! d_timer d1 = Some t1 /\
       cb_exec (cb_func t1) (cb_arg t1) (d_state d1) = Ret tt s2 /\
       unlinked_from n (d_timer d2) s2 (d_state d2)) /\
  match last ds with
  | Some d => exists t s2, timers (d_state d) !! d_timer d = Some t /\
      cb_exec (cb_func t) (cb_arg t) (d_state d) = Ret tt s2 /\
      frame s2 s'
  | None => frame s s'
  end.
Proof.
  intros Hcb Hq H. apply chk_queue_inv in H as (s1 & Hloop & Hfr & _).
  assert (Hq0 : queue_ok (set_PRIMASK true s) n) by exact Hq.
  destruct (chk_queue_loop_chain cb_exec n Hcb fuel _ _ _ Hq0 Hloop)
    as [Hfirst Hchain].
  assert (Hlast :   match last ds with
    | Some d => exists t s2, timers (d_state d) !! d_timer d = Some t /\
        cb_exec (cb_func t) (cb_arg t) (d_state d) = Ret tt s2 /\
        frame s2 s'
    | None => frame s s'
    end).
  { pose proof (chk_queue_loop_last cb_exec n fuel _ _ _ Hloop) as Hl.
    destruct (last ds) as [d|].
    - destruct Hl as (t & s2 & Ht & Hrun & Hfr2). exists t, s2.
      split; [done|]. split; [done|]. by eapply frame_trans.
    - eapply frame_trans; [exact Hl|exact Hfr]. }
  split; [|split; [exact Hfirst|split; [exact Hchain|exact Hlast]]].
  eapply Forall_impl;
    [exact (chk_queue_loop_dispatches cb_exec n Hcb fuel _ _ _ Hq0 Hloop)|].
  intros d (t & hw & s2 & Hqd & Ht & Hrun & _ & _ & _ & _ & Hst & Hnin).
  exists t, s2. split; [done|]. split.
  { destruct Hst as (_ & t' & Ht' & _ & Hl & _). congruence. }
  split; [done|]. split; [done|]. intros tick.
  destruct (hal_timer_start_at_summary (d_state d) n (d_timer d) tick Hqd Hst)
    as (s'' & q1 & q2 & hw' & t' & Hstart & _).
  exists s''. split; [done|].
  destruct (hal_timer_start_at_queue_ok _ _ _ _ _ Hqd Hst Hstart)
    as (Hq'' & Hin & He).
  done.
Qed.

Lemma cb_none_queue_ok n f a s1 s2 :
  Sample.cb_none f a s1 = Ret tt s2 -> queue_ok s1 n -> queue_ok s2 n.
Proof. by intros [= <-]. Qed.

Lemma cb_none_queue n f a s1 s2 :
  Sample.cb_none f a s1 = Ret tt s2 ->
  hal_timer_q (bsptimers s2 n) = hal_timer_q (bsptimers s1 n).
Proof. by intros [= <-]. Qed.

Lemma pending_queue_ok : queue_ok Sample.pending 0.
Proof. apply queue_okb_ok. by vm_compute. Qed.

Lemma cb_none_timers f a s1 s2 :
  Sample.cb_none f a s1 = Ret tt s2 -> timers s2 = timers s1.
Proof. by intros [= <-]. Qed.

Lemma cb_restart_queue_ok n f a s1 s2 :
  Sample.cb_restart f a s1 = Ret tt s2 -> queue_ok s1 n -> queue_ok s2 n.
Proof.
  unfold Sample.cb_restart. intros H.
  apply bind_Ret_inv in H as (t & s0 & Hd & H).
  apply deref_inv in Hd as (-> & _).
  apply bind_Ret_inv in H as (rc & s3 & Hrun & [= <-]).
  by eapply hal_timer_start_at_keeps_queue_ok.
Qed.

(** C2 on device 0 with timers due at 20 and 50 and the counter at 60: the
    pass dispatches timer 200, then timer 100, each once and both at tick
    60, and leaves the queue empty and both timers with their link
    cleared. *)
Lemma dispatch_due_and_once_witness :
  queue_ok Sample.pending 0 /\
  exists ds s',
    run (hal_timer_chk_queue Sample.cb_none 3 0) Sample.pending = Ret ds s' /\
    d_timer <$> ds = [200; 100] /\
    d_now <$> ds = [60; 60] /\
    d_expiry <$> ds = [20; 50] /\
    hal_timer_q (bsptimers Sample.pending 0) = [200; 100] /\
    hal_timer_q (bsptimers s' 0) = [] /\
    Forall (fun d => int32_t (d_now d - d_expiry d) >= 0) ds /\
    NoDup (d_timer <$> ds) /\
    Forall (fun x => exists t, timers s' !! x = Some t /\
                       link_tqe_prev t = false) (d_timer <$> ds).
Proof.
  split; [exact pending_queue_ok|].
  assert (Hd : (fun o => match o with
                         | Ret ds s' =>
                             Some (d_timer <$> ds, d_now <$> ds, d_expiry <$> ds,
                                   hal_timer_q (bsptimers s' 0))
                         | _ => None
                         end)
                 (run (hal_timer_chk_queue Sample.cb_none 3 0) Sample.pending)
               = Some ([200; 100], [60; 60], [20; 50], []))
    by (vm_compute; reflexivity).
  destruct (run (hal_timer_chk_queue Sample.cb_none 3 0) Sample.pending)
    as [ds s'| | |] eqn:E; try discriminate Hd.
  injection Hd as Ht Hn He Hq'.
  exists ds, s'. split; [reflexivity|]. split; [exact Ht|].
  split; [exact Hn|]. split; [exact He|].
  split; [vm_compute; reflexivity|]. split; [exact Hq'|].
  destruct (dispatch_due_and_once Sample.cb_none 0 3 Sample.pending ds s'
              (cb_none_queue_ok 0) pending_queue_ok E)
    as (Hall & _ & _ & _ & Hquiet).
  destruct (Hquiet (cb_none_queue 0)) as (_ & Hnd & _ & _ & Hlinks).
  split; [|split; [exact Hnd|exact (Hlinks cb_none_timers)]].
  eapply Forall_impl; [exact Hall|].
  intros d (t & hw & s2 & _ & _ & _ & -> & -> & Hge & _). exact Hge.
Defined.

(** C10 on the same queue with callbacks that start their own timer again,
    4096 ticks after the expiry it had: the pass dispatches timer 200 and
    timer 100, and ends with both queued again, for ticks 4116 and 4146. *)
Lemma restart_from_own_callback_witness :
  queue_ok Sample.pending 0 /\
  exists ds s',
    run (hal_timer_chk_queue Sample.cb_restart 3 0) Sample.pending
    = Ret ds s' /\
    d_timer <$> ds = [200; 100] /\
    hal_timer_q (bsptimers s' 0) = [200; 100] /\
    expiries s' (hal_timer_q (bsptimers s' 0)) = [4116; 4146] /\
    Forall (fun d => exists s'',
      run (hal_timer_start_at (d_timer d) 4096) (d_state d) = Ret 0 s'') ds.
Proof.
  split; [exact pending_queue_ok|].
  assert (Hd : (fun o => match o with
                         | Ret ds s' =>
                             Some (d_timer <$> ds, hal_timer_q (bsptimers s' 0),
                                   expiries s' (hal_timer_q (bsptimers s' 0)))
                         | _ => None
                         end)
                 (run (hal_timer_chk_queue Sample.cb_restart 3 0) Sample.pending)
               = Some ([200; 100], [200; 100], [4116; 4146]))
    by (vm_compute; reflexivity).
  destruct (run (hal_timer_chk_queue Sample.cb_restart 3 0) Sample.pending)
    as [ds s'| | |] eqn:E; try discriminate Hd.
  injection Hd as Ht Hq' He.
  exists ds, s'. split; [reflexivity|]. split; [exact Ht|].
  split; [exact Hq'|]. split; [exact He|].
  destruct (restart_from_own_callback Sample.cb_restart 0 3 Sample.pending
              ds s' (cb_restart_queue_ok 0) pending_queue_ok E)
    as (Hall & _).
  eapply Forall_impl; [exact Hall|].
  intros d (t & s2 & _ & _ & _ & _ & H).
  destruct (H 4096) as (s'' & Hs & _). exists s''. exact Hs.
Defined.

(** A callback that restarts its own timer: the pass dispatches timer 200
    and timer 100 once each, and ends with both queued again for their
    later ticks. *)
Example restart_in_callback :
  let o := run (hal_timer_chk_queue Sample.cb_restart 3 0) Sample.pending in
  Sample.dispatched o = Some [200; 100] /\
  (fun s => hal_timer_q (bsptimers s 0)) <$> final o = Some [200; 100] /\
  (fun s => expiry_of s 200) <$> final o = Some (Some 4116).
Proof. by vm_compute. Qed.

(** ** Order of the queue *)

Lemma int32_t_window base a b :
  in_window base a -> in_window base b ->
  int32_t (a - b) = offset base a - offset base b.
Proof.
  unfold in_window, offset, int32_t. intros Ha Hb.
  replace (a - b) with ((a - base) - (b - base)) by lia.
  rewrite Zminus_mod.
  pose proof (Z.mod_pos_bound (a - base) (2 ^ 32)) as Hx.
  pose proof (Z.mod_pos_bound (b - base) (2 ^ 32)) as Hy.
  set (x := (a - base) mod 2 ^ 32) in *.
  set (y := (b - base) mod 2 ^ 32) in *.
  cbv zeta.
  destruct (Z_lt_le_dec (x - y) 0) as [Hneg|Hpos].
  - assert (Hm : (x - y) mod 2 ^ 32 = x - y + 2 ^ 32).
    { replace (x - y) with ((x - y + 2 ^ 32) + (-1) * 2 ^ 32) at 1 by lia.
      rewrite Z.mod_add, Z.mod_small; lia. }
    rewrite Hm. destruct (Z.ltb_spec (x - y + 2 ^ 32) (2 ^ 31)); lia.
  - rewrite Z.mod_small by lia.
    destruct (Z.ltb_spec (x - y) (2 ^ 31)); lia.
Qed.

Lemma expiries_app s q1 q2 :
  expiries s (q1 ++ q2) = expiries s q1 ++ expiries s q2.
Proof. apply fmap_app. Qed.

Lemma expiries_ext s s' q :
  (forall x, x ∈ q -> expiry_of s' x = expiry_of s x) ->
  expiries s' q = expiries s q.
Proof.
  intros H. unfold expiries. apply list_fmap_ext.
  intros i x Hx. rewrite H; [done|]. by eapply list_elem_of_lookup_2.
Qed.

Lemma hal_timer_start_at_sorted s n timer tick base :
  queue_ok s n -> startable s n timer ->
  in_window base tick ->
  Forall (in_window base) (expiries s (hal_timer_q (bsptimers s n))) ->
  queue_sorted base s (hal_timer_q (bsptimers s n)) ->
  exists s' q1 q2,
    hal_timer_start_at timer tick s = Ret 0 s' /\
    hal_timer_q (bsptimers s n) = q1 ++ q2 /\
    hal_timer_q (bsptimers s' n) = q1 ++ timer :: q2 /\
    Forall (fun e => offset base e <= offset base tick) (expiries s q1) /\
    Forall (fun e => offset base tick < offset base e) (expiries s q2) /\
    expiries s' (hal_timer_q (bsptimers s' n))
    = expiries s q1 ++ tick :: expiries s q2 /\
    queue_sorted base s' (hal_timer_q (bsptimers s' n)).
Proof.
  intros Hq Hst Hwt Hwq Hsorted.
  pose proof (startable_not_queued _ _ _ Hq Hst) as Hnin.
  destruct (hal_timer_start_at_summary s n timer tick Hq Hst)
    as (s' & q1 & q2 & hw & t & Hrun & Ht & _ & Hsplit & Hq' & Hq1 & Hq2
        & Ht' & _).
  exists s', q1, q2. do 3 (split; [done|]).
  rewrite Hsplit in Hwq, Hsorted, Hnin. unfold queue_sorted in Hsorted.
  rewrite expiries_app in Hwq, Hsorted. rewrite fmap_app in Hsorted.
  apply Forall_app in Hwq as [Hw1 Hw2].
  apply StronglySorted_app in Hsorted as (H12 & Hs1 & Hs2).
  assert (Hle1 : Forall (fun e => offset base e <= offset base tick)
                   (expiries s q1)).
  { unfold expiries in *. rewrite Forall_fmap in *.
    rewrite Forall_forall in *. intros x Hx.
    destruct (Hq1 x Hx) as (e & He & Hge). cbn. rewrite He. cbn.
    specialize (Hw1 x Hx). cbn in Hw1. rewrite He in Hw1. cbn in Hw1.
    rewrite (int32_t_window base) in Hge by done. lia. }
  assert (Hlt2 : Forall (fun e => offset base tick < offset base e)
                   (expiries s q2)).
  { destruct q2 as [|y q2]; [constructor|].
    destruct Hq2 as (e & He & Hlt). cbn in Hw2, Hs2 |- *.
    rewrite He in Hw2, Hs2 |- *. cbn in Hw2, Hs2 |- *.
    apply Forall_cons in Hw2 as [Hwy Hw2].
    apply StronglySorted_cons in Hs2 as [Hy2 Hs2].
    rewrite (int32_t_window base) in Hlt by done.
    constructor; [lia|]. rewrite Forall_fmap in Hy2.
    eapply Forall_impl; [exact Hy2|]. cbn. intros z Hz. lia. }
  do 2 (split; [done|]).
  assert (Hexp : expiries s' (hal_timer_q (bsptimers s' n))
                 = expiries s q1 ++ tick :: expiries s q2).
  { rewrite Hq', expiries_app. cbn. f_equal; [|f_equal].
    - apply expiries_ext. intros x Hx. unfold expiry_of.
      rewrite Ht', lookup_insert_ne; [done|].
      intros <-. apply Hnin, elem_of_app. by left.
    - unfold expiry_of. rewrite Ht', lookup_insert_eq.
      destruct Hst as (H0 & _). by destruct (Z.eqb_spec timer 0).
    - apply expiries_ext. intros x Hx. unfold expiry_of.
      rewrite Ht', lookup_insert_ne; [done|].
      intros <-. apply Hnin, elem_of_app. by right. }
  split; [done|]. unfold queue_sorted. rewrite Hexp, fmap_app. cbn.
  apply StronglySorted_app_2; [|done|].
  - intros x1 x2 Hx1 [->|Hx2]%elem_of_cons.
    + apply list_elem_of_fmap in Hx1 as (e & -> & He).
      by apply (proj1 (Forall_forall _ _) Hle1).
    + by apply H12.
  - apply StronglySorted_cons. split; [|done].
    rewrite Forall_fmap. eapply Forall_impl; [exact Hlt2|].
    cbn. intros z Hz. lia.
Qed.

(** C3 as stated fails for expiries half the tick range apart: timer 200
    is queued for tick 0x80000000, then timer 100 for tick 0 which goes
    before it; timer 300, started last for the same tick 0x80000000 as
    timer 200, is put at the head, before timer 200. *)
Lemma tie_put_before_equal_expiry :
  let s := Sample.after (hal_timer_start_at 200 0x80000000;;
                         hal_timer_start_at 100 0) (Sample.ready 0 []) in
  let s' := Sample.after (hal_timer_start_at 300 0x80000000) s in
  hal_timer_q (bsptimers s 0) = [100; 200] /\
  expiry_of s 200 = Some 0x80000000 /\
  result (run (hal_timer_start_at 300 0x80000000) s) = Some 0 /\
  hal_timer_q (bsptimers s' 0) = [300; 100; 200] /\
  expiry_of s' 300 = Some 0x80000000.
Proof. by vm_compute. Qed.

Lemma dispatch_expiries s ds :
  Forall (fun d => expiry_of s (d_timer d) = Some (d_expiry d)) ds ->
  d_expiry <$> ds = expiries s (d_timer <$> ds).
Proof.
  induction 1 as [|d ds Hd _ IH]; [done|].
  cbn. rewrite Hd. cbn. by f_equal.
Qed.

(** C3, amended: when the expiries in the queue and the new tick lie within
    a window of less than 2^31 ticks from some tick [base], and the queue is
    sorted by distance from [base], [hal_timer_start_at] puts the timer
    after every entry whose expiry is before or equal to the new tick and
    before every entry whose expiry is after it, keeps the order of the
    entries, and leaves the queue sorted; and a drain pass, with callbacks
    that return and keep their hands off the queue, returns and dispatches a
    front part of the queue in queue order, so in ascending order of expiry
    with ties in the order of insertion. *)
Theorem start_at_keeps_queue_sorted
    (cb_exec : Z -> Z -> M unit) (s : state) (n : nat) (timer tick base : Z)
    (fuel : nat) :
  queue_ok s n -> startable s n timer ->
  in_window base tick ->
  Forall (in_window base) (expiries s (hal_timer_q (bsptimers s n))) ->
  queue_sorted base s (hal_timer_q (bsptimers s n)) ->
  (exists s' q1 q2,
     run (hal_timer_start_at timer tick) s = Ret 0 s' /\
     hal_timer_q (bsptimers s n) = q1 ++ q2 /\
     hal_timer_q (bsptimers s' n) = q1 ++ timer :: q2 /\
     Forall (fun e => offset base e <= offset base tick) (expiries s q1) /\
     Forall (fun e => offset base tick < offset base e) (expiries s q2) /\
     expiries s' (hal_timer_q (bsptimers s' n))
     = expiries s q1 ++ tick :: expiries s q2 /\
     queue_sorted base s' (hal_timer_q (bsptimers s' n))) /\
  ((forall f a s1, exists s2, cb_exec f a s1 = Ret tt s2) ->
   (forall f a s1 s2, cb_exec f a s1 = Ret tt s2 ->
      queue_ok s1 n -> queue_ok s2 n) ->
   (forall f a s1 s2, cb_exec f a s1 = Ret tt s2 ->
      hal_timer_q (bsptimers s2 n) = hal_timer_q (bsptimers s1 n)) ->
   (forall f a s1 s2 x, cb_exec f a s1 = Ret tt s2 ->
      expiry_of s2 x = expiry_of s1 x) ->
   (length (hal_timer_q (bsptimers s n)) < fuel)%nat ->
   exists ds s',
     run (hal_timer_chk_queue cb_exec fuel n) s = Ret ds s' /\
     (d_timer <$> ds) `prefix_of` hal_timer_q (bsptimers s n) /\
     d_expiry <$> ds = expiries s (d_timer <$> ds) /\
     StronglySorted Z.le (offset base <$> (d_expiry <$> ds))).
Proof.
  intros Hq Hst Hwt Hwq Hsorted. split.
  { by apply hal_timer_start_at_sorted. }
  intros Htotal Hok Hquiet Hexp Hfuel.
  destruct (hal_timer_chk_queue_returns cb_exec n Hquiet Htotal Hok fuel s
              Hq Hfuel) as (ds & s' & Hrun).
  exists ds, s'. split; [done|].
  apply chk_queue_inv in Hrun as (s1 & Hloop & _).
  pose proof (chk_queue_loop_prefix cb_exec n Hquiet fuel _ _ _ Hloop) as Hp.
  pose proof (chk_queue_loop_expiries cb_exec n Hexp fuel _ _ _ Hloop) as He.
  cbn in Hp.
  assert (Hde : d_expiry <$> ds = expiries s (d_timer <$> ds)).
  { by apply (dispatch_expiries (set_PRIMASK true s)). }
  split; [by eexists|]. split; [done|].
  unfold queue_sorted in Hsorted.
  rewrite Hp, expiries_app, fmap_app in Hsorted.
  rewrite Hde. by eapply StronglySorted_app_1_l.
Qed.

Lemma cb_none_total f a s1 : exists s2, Sample.cb_none f a s1 = Ret tt s2.
Proof. by exists s1. Qed.

Lemma cb_none_expiry f a s1 s2 x :
  Sample.cb_none f a s1 = Ret tt s2 -> expiry_of s2 x = expiry_of s1 x.
Proof. by intros [= <-]. Qed.

(** C3, amended, on device 0 with timer 200 due at 20 and timer 100 due at
    50: timer 300 started for tick 50 goes last, behind timer 100 with the
    same expiry, and the drain pass dispatches timer 200 then timer 100. *)
Lemma start_at_keeps_queue_sorted_witness :
  let s := Sample.pending in
  queue_ok s 0 /\ startable s 0 300 /\ in_window 0 50 /\
  hal_timer_q (bsptimers s 0) = [200; 100] /\
  expiries s (hal_timer_q (bsptimers s 0)) = [20; 50] /\
  (exists s', run (hal_timer_start_at 300 50) s = Ret 0 s' /\
     hal_timer_q (bsptimers s' 0) = [200; 100; 300]) /\
  exists ds s', run (hal_timer_chk_queue Sample.cb_none 3 0) s = Ret ds s' /\
     d_timer <$> ds = [200; 100] /\ d_expiry <$> ds = [20; 50].
Proof.
  cbv zeta.
  assert (Hst : startable Sample.pending 0 300).
  { split; [done|]. eexists. split; [vm_compute; reflexivity|].
    by repeat split. }
  assert (Hwt : in_window 0 50) by (vm_compute; reflexivity).
  assert (Hqe : hal_timer_q (bsptimers Sample.pending 0) = [200; 100])
    by (vm_compute; reflexivity).
  assert (Hexp : expiries Sample.pending
                   (hal_timer_q (bsptimers Sample.pending 0)) = [20; 50])
    by (vm_compute; reflexivity).
  assert (Hwq : Forall (in_window 0)
                  (expiries Sample.pending
                     (hal_timer_q (bsptimers Sample.pending 0)))).
  { rewrite Hexp. repeat constructor; vm_compute; reflexivity. }
  assert (Hsorted : queue_sorted 0 Sample.pending
                      (hal_timer_q (bsptimers Sample.pending 0))).
  { unfold queue_sorted. rewrite Hexp. cbn.
    repeat constructor; vm_compute; discriminate. }
  split; [exact pending_queue_ok|]. split; [exact Hst|].
  split; [exact Hwt|]. split; [exact Hqe|]. split; [exact Hexp|].
  destruct (start_at_keeps_queue_sorted Sample.cb_none Sample.pending 0 300
              50 0 3 pending_queue_ok Hst Hwt Hwq Hsorted) as [Hins Hdrain].
  split.
  - destruct Hins as (s' & q1 & q2 & Hrun & Hsplit & Hq' & _).
    exists s'. split; [exact Hrun|].
    assert (Hres : (fun s => hal_timer_q (bsptimers s 0)) <$>
                     final (run (hal_timer_start_at 300 50) Sample.pending)
                   = Some [200; 100; 300]) by (vm_compute; reflexivity).
    rewrite Hrun in Hres. injection Hres as Hres. exact Hres.
  - destruct Hdrain as (ds & s' & Hrun & _ & Hde & _).
    { apply cb_none_total. }
    { apply cb_none_queue_ok. }
    { apply cb_none_queue. }
    { apply cb_none_expiry. }
    { rewrite Hqe. cbn. lia. }
    exists ds, s'. split; [exact Hrun|].
    assert (Hd : Sample.dispatched
                   (run (hal_timer_chk_queue Sample.cb_none 3 0) Sample.pending)
                 = Some [200; 100]) by (vm_compute; reflexivity).
    rewrite Hrun in Hd. injection Hd as Hd. split; [exact Hd|].
    rewrite Hde, Hd. vm_compute. reflexivity.
Defined.

(** ** Initialisation and the prescaler *)

Lemma prescaler_table : forallb prescaler_check (seqZ 1 512) = true.
Proof. vm_compute. reflexivity. Qed.

Lemma prescaler_nearest div :
  1 <= div <= 512 ->
  nearest_exponent div (hal_timer_init_prescaler div) /\
  forall e', halfway div e' -> hal_timer_init_prescaler div = e'.
Proof.
  intros Hd.
  pose proof (proj1 (forallb_forall _ _) prescaler_table div) as H.
  unfold prescaler_check in H.
  rewrite !andb_true_iff, forallb_forall in H.
  destruct H as [[He1 He2] Hall]; [apply list_elem_of_In, elem_of_seqZ; lia|].
  assert (Hall' : forall e', 0 <= e' <= 9 ->
    Z.abs (2 ^ hal_timer_init_prescaler div - div) <= Z.abs (2 ^ e' - div) /\
    (halfway div e' -> hal_timer_init_prescaler div = e')).
  { intros e' He'. specialize (Hall e').
    rewrite andb_true_iff, orb_true_iff, negb_true_iff, andb_false_iff in Hall.
    destruct Hall as [Ha Hb]; [apply list_elem_of_In, elem_of_seqZ; lia|].
    split; [lia|]. intros [? ?]. lia. }
  split; [split; [lia|]|].
  - intros e' He'. by apply Hall'.
  - intros e' Hh. apply Hall'; [destruct Hh; lia|done].
Qed.

Lemma nrf51_hal_timers_Some cfg k b :
  nrf51_hal_timers cfg k = Some b -> b = k.
Proof.
  destruct k as [|[|[|k]]]; cbn; [| | |done].
  - destruct (TIMER_0 cfg); by intros [= <-].
  - destruct (TIMER_1 cfg); by intros [= <-].
  - destruct (TIMER_2 cfg); by intros [= <-].
Qed.

Lemma resolve_eq cfg timer_num bsptimer s :
  0 <= timer_num < 3 ->
  nrf51_hal_timers cfg (Z.to_nat timer_num) = Some bsptimer ->
  NRF51_HAL_TIMER_RESOLVE cfg timer_num s = Ret (Some bsptimer) s.
Proof.
  intros Hn Hcfg. unfold NRF51_HAL_TIMER_RESOLVE.
  destruct (Z.geb_spec timer_num NRF51_HAL_TIMER_MAX);
    [unfold NRF51_HAL_TIMER_MAX in *; lia|].
  destruct (Z.ltb_spec timer_num 0); [lia|]. by rewrite Hcfg.
Qed.

Lemma init_switch_eq cfg timer_num bsptimer :
  0 <= timer_num < 3 ->
  nrf51_hal_timers cfg (Z.to_nat timer_num) = Some bsptimer ->
  exists irq isr set16 prio,
    hal_timer_init_switch cfg timer_num
    = (irq, Some bsptimer, isr, set16, prio).
Proof.
  intros Hn Hcfg. unfold hal_timer_init_switch.
  assert (Hc : timer_num = 0 \/ timer_num = 1 \/ timer_num = 2) by lia.
  destruct Hc as [-> | [-> | ->]].
  - change (Z.to_nat 0) with 0%nat in Hcfg. cbn in Hcfg |- *.
    destruct (TIMER_0 cfg); [|done]. injection Hcfg as <-.
    by eexists _, _, _, _.
  - change (Z.to_nat 1) with 1%nat in Hcfg. cbn in Hcfg |- *.
    destruct (TIMER_1 cfg); [|done]. injection Hcfg as <-.
    by eexists _, _, _, _.
  - change (Z.to_nat 2) with 2%nat in Hcfg. cbn in Hcfg |- *.
    destruct (TIMER_2 cfg); [|done]. injection Hcfg as <-.
    by eexists _, _, _, _.
Qed.

Ltac istep :=
  mstep;
  cbn [bsptimers NRF_TIMER timers PRIMASK set_bsptimers set_NRF_TIMER
       set_timers set_PRIMASK set_HFCLK_running set_nvic_install];
  rewrite ?upd_same.

Lemma hal_timer_init_ok cfg s timer_num freq_hz bsptimer :
  0 <= timer_num < 3 ->
  nrf51_hal_timers cfg (Z.to_nat timer_num) = Some bsptimer ->
  tmr_enabled (bsptimers s bsptimer) = 0 ->
  0 < freq_hz ->
  1 <= NRF51_MAX_TIMER_FREQ / freq_hz <= 512 ->
  exists s', hal_timer_init cfg timer_num freq_hz s = Ret 0 s' /\
    tmr_freq (bsptimers s' bsptimer)
    = NRF51_MAX_TIMER_FREQ /
      2 ^ hal_timer_init_prescaler (NRF51_MAX_TIMER_FREQ / freq_hz) /\
    tmr_enabled (bsptimers s' bsptimer) = 1 /\
    exists hw, tmr_reg (bsptimers s' bsptimer) = Some hw /\
      PRESCALER (NRF_TIMER s' hw)
      = hal_timer_init_prescaler (NRF51_MAX_TIMER_FREQ / freq_hz).
Proof.
  intros Hn Hcfg Hen Hf Hdiv.
  pose proof (resolve_eq cfg timer_num bsptimer s Hn Hcfg) as Hres.
  unfold hal_timer_init. rewrite (bind_Ret _ _ _ _ _ Hres).
  destruct (Z.eqb_spec freq_hz 0); [lia|]. mstep.
  unfold nonzero at 1. rewrite Hen.
  destruct (Z.eqb_spec (NRF51_MAX_TIMER_FREQ / freq_hz) 0); [lia|].
  destruct (Z.gtb_spec (NRF51_MAX_TIMER_FREQ / freq_hz) 512); [lia|].
  change (0 =? 0) with true. cbn [negb orb]. rewrite Z.shiftl_1_l.
  set (e := hal_timer_init_prescaler _).
  set (fr := NRF51_MAX_TIMER_FREQ / 2 ^ e).
  istep.
  destruct (init_switch_eq cfg timer_num bsptimer Hn Hcfg)
    as (irq & isr & set16 & prio & ->).
  match goal with |- context [_ (set_bsptimers ?f s)] =>
    set (s1 := set_bsptimers f s) end.
  assert (H16 : exists s2,
    (if set16 then upd_bsptimer bsptimer (with_tmr_16bit 1) else mret tt) s1
    = Ret tt s2 /\ tmr_freq (bsptimers s2 bsptimer) = fr).
  { destruct set16; (eexists; split; [reflexivity|]); cbn;
      rewrite ?upd_same; cbn; by rewrite ?upd_same. }
  destruct H16 as (s2 & Hs2 & Hfr2). rewrite (bind_Ret _ _ _ _ _ Hs2).
  clear Hs2. clearbody s1. istep. istep.
  match goal with |- context [_ (set_bsptimers ?f ?x)] =>
    set (s4 := set_bsptimers f x) end.
  assert (H4 : tmr_freq (bsptimers s4 bsptimer) = fr /\
               tmr_enabled (bsptimers s4 bsptimer) = 1 /\
               tmr_reg (bsptimers s4 bsptimer) = Some bsptimer).
  { unfold s4. cbn. rewrite !upd_same. cbn. by rewrite ?upd_same. }
  clearbody s4. do 6 istep.
  assert (Hfin : forall s5, bsptimers s5 = bsptimers s4 ->
    exists s',
      (write_TASKS_START (Some bsptimer);;
       modify (set_nvic_install irq prio isr);;
       __HAL_ENABLE_INTERRUPTS (PRIMASK s4);;
       reg_write (Some bsptimer) (with_PRESCALER e);;
       mret 0) s5 = Ret 0 s' /\
      bsptimers s' = bsptimers s4 /\
      PRESCALER (NRF_TIMER s' bsptimer) = e).
  { intros s5 H5. do 2 istep.
    destruct (PRIMASK s4); do 2 istep; (eexists; split; [reflexivity|]);
      cbn; rewrite ?upd_same; done. }
  destruct (nonzero (tmr_16bit (bsptimers s4 bsptimer))).
  - istep.
    match goal with |- context [_ (set_NRF_TIMER ?f ?x)] =>
      destruct (Hfin (set_NRF_TIMER f x) eq_refl) as (s' & Hs' & Hb' & Hp') end.
    exists s'. split; [exact Hs'|]. rewrite Hb'. destruct H4 as (? & ? & ?).
    repeat split; try done. by exists bsptimer.
  - istep.
    match goal with |- context [_ (set_NRF_TIMER ?f ?x)] =>
      destruct (Hfin (set_NRF_TIMER f x) eq_refl) as (s' & Hs' & Hb' & Hp') end.
    exists s'. split; [exact Hs'|]. rewrite Hb'. destruct H4 as (? & ? & ?).
    repeat split; try done. by exists bsptimer.
Qed.

(** C5 as stated fails on the tie: a request of 5333333 Hz gives the
    divider 3, halfway between 2 and 4, and the prescaler found is 2, the
    larger exponent; the device ends at 4 MHz, not 8 MHz. *)
Lemma tie_takes_larger_exponent :
  let div := NRF51_MAX_TIMER_FREQ / 5333333 in
  div = 3 /\ halfway div 2 /\ hal_timer_init_prescaler div = 2 /\
  (fun s => tmr_freq (bsptimers s 0)) <$>
    final (run (hal_timer_init Sample.cfg 0 5333333) (Sample.power_on []))
  = Some 4000000.
Proof.
  cbv zeta. split; [by vm_compute|]. split; [|by vm_compute].
  split; [lia|]. by vm_compute.
Qed.

(** C5, amended: for a configured device that is not enabled and a
    frequency whose divider [16000000 / freq_hz] lies in 1..512,
    [hal_timer_init] returns 0 with the prescaler exponent [e] whose [2 ^ e]
    is nearest to the divider, and when the divider lies halfway between
    [2 ^ (e' - 1)] and [2 ^ e'] the larger exponent [e'] (the lower
    frequency) is taken; the device stores [16000000 / 2 ^ e].  For 100000
    Hz this is exponent 7 and 125000 Hz. *)
Theorem prescaler_is_nearest_power_of_two
    (cfg : syscfg) (s : state) (timer_num freq_hz : Z) (bsptimer : nat) :
  0 <= timer_num < 3 ->
  nrf51_hal_timers cfg (Z.to_nat timer_num) = Some bsptimer ->
  tmr_enabled (bsptimers s bsptimer) = 0 ->
  0 < freq_hz ->
  1 <= NRF51_MAX_TIMER_FREQ / freq_hz <= 512 ->
  let div := NRF51_MAX_TIMER_FREQ / freq_hz in
  let e := hal_timer_init_prescaler div in
  nearest_exponent div e /\
  (forall e', halfway div e' -> e = e') /\
  exists s',
    run (hal_timer_init cfg timer_num freq_hz) s = Ret 0 s' /\
    tmr_freq (bsptimers s' bsptimer) = NRF51_MAX_TIMER_FREQ / 2 ^ e /\
    (freq_hz = 100000 ->
     e = 7 /\ tmr_freq (bsptimers s' bsptimer) = 125000).
Proof.
  intros Hn Hcfg Hen Hf Hdiv. cbv zeta.
  destruct (prescaler_nearest _ Hdiv) as [Hnear Htie].
  do 2 (split; [done|]).
  destruct (hal_timer_init_ok cfg s timer_num freq_hz bsptimer Hn Hcfg Hen
              Hf Hdiv) as (s' & Hrun & Hfr & _).
  exists s'. do 2 (split; [done|]). intros ->. rewrite Hfr.
  split; vm_compute; reflexivity.
Qed.

(** C5, amended, for timer 0 at 100000 Hz from start-up. *)
Lemma prescaler_is_nearest_power_of_two_witness :
  0 <= 0 < 3 /\
  nrf51_hal_timers Sample.cfg (Z.to_nat 0) = Some 0%nat /\
  tmr_enabled (bsptimers (Sample.power_on []) 0) = 0 /\
  1 <= NRF51_MAX_TIMER_FREQ / 100000 <= 512 /\
  exists s',
    run (hal_timer_init Sample.cfg 0 100000) (Sample.power_on []) = Ret 0 s' /\
    tmr_freq (bsptimers s' 0) = 125000.
Proof.
  assert (Hn : 0 <= 0 < 3) by lia.
  assert (Hdiv : 1 <= NRF51_MAX_TIMER_FREQ / 100000 <= 512)
    by (by vm_compute).
  do 4 (split; [done|]).
  destruct (prescaler_is_nearest_power_of_two Sample.cfg (Sample.power_on [])
              0 100000 0 Hn eq_refl eq_refl eq_refl Hdiv)
    as (_ & _ & s' & Hrun & _ & H).
  exists s'. split; [exact Hrun|]. by apply H.
Defined.

(** ** De-initialisation *)

Lemma hal_timer_deinit_effects cfg timer_num bsptimer hw s :
  0 <= timer_num < 3 ->
  nrf51_hal_timers cfg (Z.to_nat timer_num) = Some bsptimer ->
  tmr_reg (bsptimers s bsptimer) = Some hw ->
  exists s',
    run (hal_timer_deinit cfg timer_num) s = Ret Indeterminate s' /\
    ~ compare_enabled (NRF_TIMER s' hw) /\
    RUNNING (NRF_TIMER s' hw) = false /\
    tmr_enabled (bsptimers s' bsptimer) = 0.
Proof.
  intros Hn Hcfg Hreg.
  unfold hal_timer_deinit. cbv zeta.
  rewrite (bind_Ret _ _ _ _ _ (resolve_eq cfg timer_num bsptimer s Hn Hcfg)).
  do 2 istep. rewrite Hreg. do 2 istep.
  unfold compare_enabled.
  destruct (PRIMASK s); do 2 istep; (eexists; split; [reflexivity|]);
    cbn; rewrite ?upd_same; cbn; rewrite ?upd_same; cbn;
    by rewrite intenclr_disabled.
Qed.

Lemma hal_timer_deinit_einval cfg timer_num s :
  3 <= timer_num \/
  (0 <= timer_num < 3 /\ nrf51_hal_timers cfg (Z.to_nat timer_num) = None) ->
  run (hal_timer_deinit cfg timer_num) s = Ret (Int EINVAL) s.
Proof.
  intros H. unfold hal_timer_deinit, NRF51_HAL_TIMER_RESOLVE. cbv zeta.
  destruct (Z.geb_spec timer_num NRF51_HAL_TIMER_MAX) as [Hge|Hlt];
    unfold NRF51_HAL_TIMER_MAX in *; [by mstep|].
  destruct H as [?|[Hn Hcfg]]; [lia|].
  destruct (Z.ltb_spec timer_num 0); [lia|]. mstep. by rewrite Hcfg.
Qed.

(** C9 at its failing input: [hal_timer_deinit] on the configured and
    initialised timer 0 disables the compare interrupt, stops the counter
    and clears the enabled flag, but the value it returns is the automatic
    [rc] that no statement of the success path assigns.  On the error paths
    the macro assigns [EINVAL]. *)
Example hal_timer_deinit_returns_unassigned_rc :
  let o := run (hal_timer_deinit Sample.cfg 0) (Sample.ready 0 []) in
  result o = Some Indeterminate /\
  (fun s => (Z.testbit (INTEN (NRF_TIMER s 0)) 19, RUNNING (NRF_TIMER s 0),
             tmr_enabled (bsptimers s 0))) <$> final o
  = Some (false, false, 0) /\
  result (run (hal_timer_deinit Sample.cfg 3) (Sample.ready 0 []))
  = Some (Int EINVAL) /\
  result (run (hal_timer_set_cb Sample.cfg 0 100 7 100) (Sample.ready 0 []))
  = Some 0.
Proof. by vm_compute. Qed.

(** ** Late arming *)

(** C4 at its failing input: a 16-bit device (timer 1) in epoch 0 whose
    counter stands at 5 is armed for expiry 5.  The counter read back after
    the compare register is set equals the target; [5 > 5] is false, the
    interrupt is not made pending, and no compare event is raised either.
    The same on the 32-bit device (timer 0), whose test is [>= 0], does make
    the interrupt pending. *)
Example set_ocmp_equal_not_forced_16bit :
  let narrow := Sample.after (hal_timer_read Sample.cfg 1)
                  (Sample.ready 1 [5; 0]%N) in
  let wide := Sample.after (hal_timer_read Sample.cfg 0)
                (Sample.ready 0 [5; 0]%N) in
  let view n := fun s =>
    (CC (NRF_TIMER s n) NRF_TIMER_CC_READ, CC (NRF_TIMER s n) NRF_TIMER_CC_INT,
     Z.testbit (INTEN (NRF_TIMER s n)) 19,
     EVENTS_COMPARE (NRF_TIMER s n) NRF_TIMER_CC_INT,
     elements (nvic_pending s)) in
  (tmr_16bit (bsptimers narrow 1), tmr_cntr (bsptimers narrow 1),
   COUNTER (NRF_TIMER narrow 1), elements (nvic_pending narrow))
  = (1, 0, 5, []) /\
  view 1%nat <$> final (run (nrf_timer_set_ocmp 1 5) narrow)
  = Some (5, 5, true, 0, []) /\
  (tmr_16bit (bsptimers wide 0), COUNTER (NRF_TIMER wide 0),
   elements (nvic_pending wide))
  = (0, 5, []) /\
  view 0%nat <$> final (run (nrf_timer_set_ocmp 0 5) wide)
  = Some (5, 5, true, 0, [TIMER0_IRQn]).
Proof. by vm_compute. Qed.

(** The 32-bit branch does what C4 says: the interrupt is made pending
    exactly when the counter read back has reached the expiry. *)
Lemma set_ocmp_wide_forces n hw e s :
  tmr_reg (bsptimers s n) = Some hw ->
  nonzero (tmr_16bit (bsptimers s n)) = false ->
  exists s' c,
    run (nrf_timer_set_ocmp n e) s = Ret tt s' /\
    CC (NRF_TIMER s' hw) NRF_TIMER_CC_READ = c /\
    nvic_pending s'
    = if int32_t (c - e) >=? 0
      then {[tmr_irq_num (bsptimers s n)]} ∪ nvic_pending s
      else nvic_pending s.
Proof.
  intros Hreg H16. unfold nrf_timer_set_ocmp.
  mstep. rewrite Hreg, H16. mrun. rewrite nrf_read_timer_cntr_eq.
  set (c := COUNTER (captured hw _)).
  destruct (int32_t (c - e) >=? 0) eqn:E;
    (eexists _, c; split; [reflexivity|]); rewrite E;
    (split; [|reflexivity]); unfold c, captured, Hw.capture; cbn;
    by rewrite ?upd_same.
Qed.

(** ** Rejected starts *)

(** C8: [hal_timer_start_at] returns [EINVAL] exactly when the timer
    pointer is NULL, the timer is linked, or it has no callback, and then
    the machine state is the one it was called in; in every other case in
    which it returns, it returns 0. *)
Theorem start_at_einval_iff_bad_timer (timer tick : Z) (s : state) :
  let bad := timer = 0 \/
             exists t, timers s !! timer = Some t /\
                       (link_tqe_prev t = true \/ cb_func t = 0) in
  (bad <-> run (hal_timer_start_at timer tick) s = Ret EINVAL s) /\
  forall rc s', run (hal_timer_start_at timer tick) s = Ret rc s' ->
    (rc = EINVAL /\ s' = s /\ bad) \/ (rc = 0 /\ ~ bad).
Proof.
  cbv zeta. unfold hal_timer_start_at.
  destruct (Z.eqb_spec timer 0) as [->|H0].
  { split; [split; [done|by left]|]. intros rc s' [= <- <-]. left. eauto. }
  destruct (timers s !! timer) as [t|] eqn:Ht.
  - rewrite (bind_Ret _ _ _ _ _ (deref_eq _ _ _ Ht H0)).
    destruct (link_tqe_prev t) eqn:Hl; cbn [orb].
    { split; [split; [done|]; intros _; right; eauto|].
      intros rc s' [= <- <-]. left. repeat split; right; eauto. }
    destruct (Z.eqb_spec (cb_func t) 0) as [Hcb|Hcb].
    { split; [split; [done|]; intros _; right; eauto|].
      intros rc s' [= <- <-]. left. repeat split; right; eauto. }
    assert (Hgood : ~ (timer = 0 \/
      exists t0, Some t = Some t0 /\ (link_tqe_prev t0 = true \/ cb_func t0 = 0))).
    { intros [?|(t0 & [= <-] & [?|?])]; congruence. }
    assert (Hrc : forall rc s',
      (bsptimer ← deref_bsp (bsp_timer t);
       upd_timer timer (with_expiry tick);;
       ctx ← __HAL_DISABLE_INTERRUPTS;
       b ← get_bsptimer bsptimer;
       s ← get;
       match
         match hal_timer_q b with
         | [] => Some [timer]
         | _ :: _ => tailq_insert (expiry_of s) timer tick (hal_timer_q b)
         end
       with
       | Some q =>
           upd_bsptimer bsptimer (with_hal_timer_q q);;
           upd_timer timer (with_link_tqe_prev true)
       | None => undefined
       end;;
       b0 ← get_bsptimer bsptimer;
       (if is_first (hal_timer_q b0) timer
        then t0 ← deref timer; nrf_timer_set_ocmp bsptimer (expiry t0)
        else mret tt);;
       __HAL_ENABLE_INTERRUPTS ctx;; mret 0) s = Ret rc s' -> rc = 0).
    { intros rc s' H.
      repeat (apply bind_Ret_inv in H as (? & ? & _ & H)).
      by injection H as <- _. }
    split.
    + split; [by intros ?%Hgood|]. intros H%Hrc. done.
    + intros rc s' H. right. split; [by eapply Hrc|done].
  - split.
    + split; [intros [?|(t & [=] & _)]; done|].
      unfold mbind, M_bind, deref. by rewrite Ht.
    + intros rc s'. unfold mbind, M_bind, deref. by rewrite Ht.
Qed.

(** ** Busy-wait delay *)

Lemma run_after {A} (m : M A) s a :
  result (run m s) = Some a -> run m s = Ret a (Sample.after m s).
Proof. unfold Sample.after. destruct (run m s); cbn; congruence. Qed.

Lemma calls_S_inv {A} k (m : M A) s l s' :
  calls (S k) m s = Ret l s' ->
  exists a s1 l', m s = Ret a s1 /\ calls k m s1 = Ret l' s' /\ l = a :: l'.
Proof.
  cbn [calls]. intros H. apply bind_Ret_inv in H as (a & s1 & Hm & H).
  apply fmap_Ret_inv in H as (l' & Hc & ->). by exists a, s1, l'.
Qed.

Lemma hal_timer_delay_loop_returns cfg n until v s' : forall vs fuel s0,
  calls (S (length vs)) (hal_timer_read cfg n) s0 = Ret (vs ++ [v]) s' ->
  Forall (fun w => int32_t (w - until) <= 0) vs ->
  int32_t (v - until) > 0 ->
  (length vs < fuel)%nat ->
  hal_timer_delay_loop cfg fuel n until s0 = Ret (vs ++ [v]) s'.
Proof.
  induction vs as [|w vs IH]; intros fuel s0 H Hall Hv Hf;
    (destruct fuel as [|fuel]; [cbn in Hf; lia|]);
    apply calls_S_inv in H as (a & s1 & l' & Hm & Hc & El);
    cbn [hal_timer_delay_loop]; rewrite (bind_Ret _ _ _ _ _ Hm).
  - injection El as <- <-. injection Hc as <-.
    by destruct (Z.leb_spec (int32_t (v - until)) 0); [lia|].
  - injection El as <- <-. apply Forall_cons in Hall as [Hw Hall].
    destruct (Z.leb_spec (int32_t (w - until)) 0); [|lia].
    unfold fmap, M_fmap. rewrite (IH fuel s1); [done..|]. cbn in Hf. lia.
Qed.

(** C6 as stated fails when a read gives exactly [until]: the counter of
    timer 0 reads 100 on entry, so [until] is 105 for 5 ticks; the next read
    gives 105, whose difference from [until] is 0, and the loop goes on (one
    iteration is not enough); it returns at the read after, which gives
    106. *)
Lemma delay_waits_past_until :
  let s := Sample.ready 0 [100; 5; 1]%N in
  result (run (calls 3 (hal_timer_read Sample.cfg 0)) s)
  = Some [100; 105; 106] /\
  int32_t (105 - uint32_t (100 + 5)) >= 0 /\
  run (hal_timer_delay Sample.cfg 1 0 5) s = OutOfFuel /\
  run (hal_timer_delay Sample.cfg 2 0 5) s
  = Ret 0 (Sample.after (calls 3 (hal_timer_read Sample.cfg 0)) s).
Proof.
  cbv zeta. split; [by vm_compute|]. split; [by vm_compute|].
  split; [by vm_compute|].
  assert (Hd : forall fuel s until l s',
    hal_timer_delay_loop Sample.cfg fuel 0 until s = Ret l s' ->
    (hal_timer_delay_loop Sample.cfg fuel 0 until;; mret 0) s = Ret 0 s').
  { intros fuel s until l s' H. by rewrite (bind_Ret _ _ _ _ _ H). }
  set (s := Sample.ready 0 [100%N; 5%N; 1%N]).
  pose proof (run_after (calls 3 (hal_timer_read Sample.cfg 0)) s
                [100; 105; 106] ltac:(by vm_compute)) as Hc.
  apply calls_S_inv in Hc as (t0 & s0 & l & Hr & Hc & [= <- <-]).
  unfold hal_timer_delay. rewrite (bind_Ret _ _ _ _ _ Hr).
  apply (Hd _ _ _ ([105] ++ [106])).
  apply hal_timer_delay_loop_returns; [done| |by vm_compute|cbn; lia].
  repeat constructor. by vm_compute.
Qed.

(** C6, amended: [hal_timer_delay] returns 0 right after the first read of
    the counter whose signed 32-bit difference from [until] is strictly
    positive, where [until] is the tick value read on entry plus [ticks]:
    when the successive reads give [t0], then values [vs] that are not past
    [until], then [v] that is, the delay ends in the state after the read
    of [v]. *)
Theorem delay_returns_when_past_until
    (cfg : syscfg) (n ticks : Z) (s : state) (t0 : Z) (vs : list Z) (v : Z)
    (s' : state) (fuel : nat) :
  run (calls (S (S (length vs))) (hal_timer_read cfg n)) s
  = Ret (t0 :: vs ++ [v]) s' ->
  Forall (fun w => int32_t (w - uint32_t (t0 + ticks)) <= 0) vs ->
  int32_t (v - uint32_t (t0 + ticks)) > 0 ->
  (length vs < fuel)%nat ->
  run (hal_timer_delay cfg fuel n ticks) s = Ret 0 s'.
Proof.
  intros Hc Hall Hv Hf.
  apply calls_S_inv in Hc as (a & s0 & l & Hr & Hc & [= <- <-]).
  unfold hal_timer_delay. rewrite (bind_Ret _ _ _ _ _ Hr).
  by rewrite (bind_Ret _ _ _ _ _
                (hal_timer_delay_loop_returns cfg n _ v s' vs fuel s0
                   Hc Hall Hv Hf)).
Qed.

(** C6, amended, on timer 0 whose reads give 100, 105 and 106, for a delay
    of 5 ticks. *)
Lemma delay_returns_when_past_until_witness :
  let s := Sample.ready 0 [100; 5; 1]%N in
  let s' := Sample.after (calls 3 (hal_timer_read Sample.cfg 0)) s in
  run (calls 3 (hal_timer_read Sample.cfg 0)) s = Ret [100; 105; 106] s' /\
  int32_t (105 - uint32_t (100 + 5)) <= 0 /\
  int32_t (106 - uint32_t (100 + 5)) > 0 /\
  run (hal_timer_delay Sample.cfg 2 0 5) s = Ret 0 s'.
Proof.
  cbv zeta.
  pose proof (run_after (calls 3 (hal_timer_read Sample.cfg 0))
                (Sample.ready 0 [100%N; 5%N; 1%N]) [100; 105; 106]
                ltac:(vm_compute; reflexivity)) as Hc.
  assert (H1 : int32_t (105 - uint32_t (100 + 5)) <= 0)
    by (vm_compute; discriminate).
  assert (H2 : int32_t (106 - uint32_t (100 + 5)) > 0)
    by (vm_compute; reflexivity).
  split; [exact Hc|]. split; [exact H1|]. split; [exact H2|].
  apply (delay_returns_when_past_until Sample.cfg 0 5 _ 100 [105] 106 _ 2 Hc).
  - constructor; [exact H1|constructor].
  - exact H2.
  - cbn. lia.
Defined.

(** ** The extended counter of a 16-bit device *)

Lemma lor_aligned T l :
  T mod 2 ^ 16 = 0 -> 0 <= l < 2 ^ 16 -> Z.lor T l = T + l.
Proof.
  intros HT Hl.
  assert (Hland : Z.land T l = 0).
  { apply Z.bits_inj'. intros i Hi. rewrite Z.land_spec, Z.bits_0.
    destruct (Z_lt_le_dec i 16).
    - rewrite <- (Z.mod_pow2_bits_low T 16 i), HT, Z.bits_0 by lia. done.
    - rewrite <- (Z.mod_small l (2 ^ 16)) by lia.
      rewrite Z.mod_pow2_bits_high by lia. apply andb_false_r. }
  by rewrite <- Z.lxor_lor, <- Z.add_nocarry_lxor.
Qed.

Lemma uint16_t_bound z : 0 <= uint16_t z < 2 ^ 16.
Proof. unfold uint16_t. apply Z.mod_pos_bound. lia. Qed.

(** What a capture does to a running or stopped 16-bit counter. *)
Lemma captured16 hw s :
  BITMODE (NRF_TIMER s hw) = TIMER_BITMODE_BITMODE_16Bit ->
  CC (NRF_TIMER s hw) NRF_TIMER_CC_OVERFLOW mod 2 ^ 16 = 0 ->
  let r := NRF_TIMER s hw in
  let r1 := captured hw s in
  BITMODE r1 = TIMER_BITMODE_BITMODE_16Bit /\
  CC r1 NRF_TIMER_CC_OVERFLOW = CC r NRF_TIMER_CC_OVERFLOW /\
  (EVENTS_COMPARE r NRF_TIMER_CC_OVERFLOW = 0 ->
   EVENTS_COMPARE r1 NRF_TIMER_CC_OVERFLOW = 0 ->
   uint16_t (COUNTER r) <= uint16_t (COUNTER r1)).
Proof.
  intros Hbm Hcc. cbv zeta. unfold captured, Hw.capture, Hw.advance.
  set (d := match elapse s with [] => 0 | d :: _ => Z.of_N d end).
  assert (Hd : 0 <= d) by (unfold d; destruct (elapse s); lia).
  destruct (RUNNING (NRF_TIMER s hw)); cbn; rewrite upd_other by done;
    [|by repeat split; try lia].
  split; [done|]. split; [done|]. intros _.
  unfold Hw.width, Hw.reaches. rewrite Hbm. cbn [Z.eqb TIMER_BITMODE_BITMODE_16Bit].
  destruct (Z.ltb_spec ((CC (NRF_TIMER s hw) NRF_TIMER_CC_OVERFLOW
                         - COUNTER (NRF_TIMER s hw) - 1) mod 2 ^ 16) d)
    as [Hlt|Hge]; [done|]. intros _.
  set (c := COUNTER (NRF_TIMER s hw)) in *.
  set (cc := CC (NRF_TIMER s hw) NRF_TIMER_CC_OVERFLOW) in *.
  unfold uint16_t. rewrite Z.mod_mod by lia.
  pose proof (Z.div_mod c (2 ^ 16) ltac:(lia)) as Ec.
  pose proof (Z.div_mod cc (2 ^ 16) ltac:(lia)) as Ecc.
  pose proof (Z.mod_pos_bound c (2 ^ 16) ltac:(lia)) as Hm.
  rewrite Hcc in Ecc.
  set (m := c mod 2 ^ 16) in *. set (qc := c / 2 ^ 16) in *.
  set (qcc := cc / 2 ^ 16) in *.
  assert (H1 : (cc - c - 1) mod 2 ^ 16 = 65535 - m).
  { replace (cc - c - 1) with ((65535 - m) + (qcc - qc - 1) * 2 ^ 16) by lia.
    rewrite Z.mod_add by lia. apply Z.mod_small. lia. }
  rewrite H1 in Hge.
  replace (c + d) with ((m + d) + qc * 2 ^ 16) by lia.
  rewrite Z.mod_add by lia. rewrite Z.mod_small by lia. lia.
Qed.

Lemma read16_step n hw s :
  narrow_ok s n hw -> tmr_cntr (bsptimers s n) + 65536 < 2 ^ 32 ->
  exists v s',
    hal_timer_read_bsptimer n s = Ret v s' /\
    narrow_ok s' n hw /\
    v = extended s' n hw /\
    EVENTS_COMPARE (NRF_TIMER s' hw) NRF_TIMER_CC_OVERFLOW = 0 /\
    tmr_cntr (bsptimers s' n) <= tmr_cntr (bsptimers s n) + 65536 /\
    (EVENTS_COMPARE (NRF_TIMER s hw) NRF_TIMER_CC_OVERFLOW = 0 ->
     extended s n hw <= v).
Proof.
  intros (H16 & Hreg & Hbm & Hcc & HT0 & HTa) Hno.
  pose proof (read16_eq n hw s H16 Hreg) as H. cbn zeta in H.
  destruct (captured16 hw (set_PRIMASK true s) Hbm Hcc) as (Hbm1 & Hcc1 & Hmono).
  set (r1 := captured hw (set_PRIMASK true s)) in *.
  destruct (nonzero (EVENTS_COMPARE r1 NRF_TIMER_CC_OVERFLOW)) eqn:Hev.
  - set (T' := uint32_t (tmr_cntr (bsptimers s n) + 65536)) in *.
    assert (HT' : T' = tmr_cntr (bsptimers s n) + 65536).
    { unfold T', uint32_t. apply Z.mod_small. lia. }
    match type of H with context [captured hw ?x] => set (s2 := x) in * end.
    assert (Hr2 : NRF_TIMER s2 hw = r1).
    { unfold s2. cbn. by rewrite upd_same. }
    destruct (captured16 hw s2) as (Hbm2 & Hcc2 & _);
      [by rewrite Hr2|by rewrite Hr2, Hcc1|].
    rewrite Hr2 in Hcc2.
    set (r2 := captured hw s2) in *.
    destruct H as (s' & Hrun & Hb & Ht & Hp & Hr & Hel).
    assert (Hbn : bsptimers s' n = with_tmr_cntr T' (bsptimers s n)).
    { rewrite Hb. unfold s2. cbn. by rewrite upd_same. }
    assert (HTm : T' mod 2 ^ 16 = 0).
    { rewrite HT'. rewrite <- Z.add_mod_idemp_l, HTa by lia. done. }
    exists (Z.lor T' (uint16_t (COUNTER r2))), s'. split; [exact Hrun|].
    change (CC r1 NRF_TIMER_CC_OVERFLOW
            = CC (NRF_TIMER s hw) NRF_TIMER_CC_OVERFLOW) in Hcc1.
    pose proof (uint16_t_bound (COUNTER r2)) as Hb2.
    pose proof (uint16_t_bound (COUNTER (NRF_TIMER s hw))) as Hb0.
    unfold narrow_ok, extended. rewrite Hbn, Hr.
    clearbody r2 r1 T' s2.
    cbn [tmr_16bit tmr_reg tmr_cntr with_tmr_cntr BITMODE CC COUNTER
         EVENTS_COMPARE with_EVENTS_COMPARE].
    rewrite upd_same, lor_aligned by done.
    split; [|split; [reflexivity|split; [reflexivity|split; [lia|intros _; lia]]]].
    split; [exact H16|]. split; [exact Hreg|]. split; [exact Hbm2|].
    split; [rewrite Hcc2, Hcc1; exact Hcc|]. split; [lia|exact HTm].
  - apply nonzero_false in Hev.
    destruct H as (s' & Hrun & Hb & Ht & Hp & Hr & Hel).
    exists (Z.lor (tmr_cntr (bsptimers s n)) (uint16_t (COUNTER r1))), s'.
    split; [exact Hrun|].
    change (CC r1 NRF_TIMER_CC_OVERFLOW
            = CC (NRF_TIMER s hw) NRF_TIMER_CC_OVERFLOW) in Hcc1.
    change (EVENTS_COMPARE (NRF_TIMER s hw) NRF_TIMER_CC_OVERFLOW = 0 ->
            EVENTS_COMPARE r1 NRF_TIMER_CC_OVERFLOW = 0 ->
            uint16_t (COUNTER (NRF_TIMER s hw)) <= uint16_t (COUNTER r1))
      in Hmono.
    pose proof (uint16_t_bound (COUNTER r1)) as Hb1.
    unfold narrow_ok, extended. rewrite Hb, Hr.
    clearbody r1.
    rewrite lor_aligned by done.
    split; [|split; [reflexivity|split; [exact Hev|split; [lia|]]]].
    + split; [exact H16|]. split; [exact Hreg|]. split; [exact Hbm1|].
      split; [rewrite Hcc1; exact Hcc|]. split; [exact HT0|exact HTa].
    + intros Hf. specialize (Hmono Hf Hev). lia.
Qed.

Lemma reads16_sorted n hw : forall k s,
  narrow_ok s n hw ->
  EVENTS_COMPARE (NRF_TIMER s hw) NRF_TIMER_CC_OVERFLOW = 0 ->
  tmr_cntr (bsptimers s n) + 65536 * Z.of_nat k < 2 ^ 32 ->
  exists vs s',
    calls k (hal_timer_read_bsptimer n) s = Ret vs s' /\
    length vs = k /\
    Forall (Z.le (extended s n hw)) vs /\ StronglySorted Z.le vs.
Proof.
  induction k as [|k IH]; intros s Hok Hev Hno.
  { exists [], s. repeat split; constructor. }
  destruct (read16_step n hw s Hok) as (v & s1 & Hrun & Hok1 & Hv & Hev1 & HT & Hle);
    [lia|].
  destruct (IH s1 Hok1 Hev1) as (vs & s' & Hc & Hlen & Hall & Hs); [lia|].
  exists (v :: vs), s'. cbn [calls]. rewrite (bind_Ret _ _ _ _ _ Hrun).
  unfold fmap, M_fmap. rewrite Hc. split; [done|]. split; [cbn; lia|].
  rewrite <- Hv in Hall. specialize (Hle Hev). split.
  - constructor; [done|]. eapply Forall_impl; [exact Hall|]. cbn. lia.
  - by constructor.
Qed.

(** The extended value is a 32-bit tick value and wraps like one: a 16-bit
    device with overflow tally 0xFFFF0000 and its counter at 0xFFFF reads
    0xFFFFFFFF; one tick later the counter has wrapped, the tally becomes 0
    in 32 bits, and the read gives 0. *)
Lemma extended_value_wraps_at_32_bits :
  let s0 := Sample.after (hal_timer_read Sample.cfg 1)
              (Sample.ready 1 [65535; 0; 1; 0]%N) in
  let s := set_bsptimers
             (upd (bsptimers s0) 1 (with_tmr_cntr 0xFFFF0000 (bsptimers s0 1)))
             s0 in
  (tmr_16bit (bsptimers s 1), tmr_cntr (bsptimers s 1),
   COUNTER (NRF_TIMER s 1), EVENTS_COMPARE (NRF_TIMER s 1) NRF_TIMER_CC_OVERFLOW)
  = (1, 0xFFFF0000, 65535, 0) /\
  result (run (calls 2 (hal_timer_read_bsptimer 1)) s)
  = Some [4294967295; 0].
Proof. by vm_compute. Qed.

(** With the counter running at the captures only, so that no tick falls
    between the accesses that one read makes to the peripheral: on a 16-bit
    device set up as [hal_timer_init] leaves it, [k] successive calls of
    [hal_timer_read_bsptimer] return, and the values they return are in
    non-decreasing order as long as the overflow tally stays below 2^32. *)
Theorem extended_reads_monotone (n hw : nat) (s : state) (k : nat) :
  narrow_ok s n hw ->
  tmr_cntr (bsptimers s n) + 65536 * Z.of_nat k < 2 ^ 32 ->
  exists vs s',
    run (calls k (hal_timer_read_bsptimer n)) s = Ret vs s' /\
    length vs = k /\ StronglySorted Z.le vs.
Proof.
  intros Hok Hno. destruct k as [|k].
  { exists [], s. repeat split; constructor. }
  destruct (read16_step n hw s Hok) as (v & s1 & Hrun & Hok1 & Hv & Hev1 & HT & _);
    [lia|].
  destruct (reads16_sorted n hw k s1 Hok1 Hev1) as (vs & s' & Hc & Hlen & Hall & Hs);
    [lia|].
  exists (v :: vs), s'. cbn [calls]. rewrite (bind_Ret _ _ _ _ _ Hrun).
  unfold fmap, M_fmap. rewrite Hc. split; [done|]. split; [cbn; lia|].
  rewrite <- Hv in Hall. by constructor.
Qed.

(** Timer 1 read across an overflow: the counter is read at 65530, then
    after it wrapped to 4, then at 7. *)
Lemma extended_reads_monotone_witness :
  let s := Sample.ready 1 [65530; 10; 0; 3]%N in
  narrow_ok s 1 1 /\
  tmr_cntr (bsptimers s 1) + 65536 * Z.of_nat 3 < 2 ^ 32 /\
  result (run (calls 3 (hal_timer_read_bsptimer 1)) s)
  = Some [65530; 65540; 65543] /\
  exists vs s',
    run (calls 3 (hal_timer_read_bsptimer 1)) s = Ret vs s' /\
    length vs = 3%nat /\ StronglySorted Z.le vs.
Proof.
  cbv zeta.
  assert (Hok : narrow_ok (Sample.ready 1 [65530%N; 10%N; 0%N; 3%N]) 1 1).
  { repeat split; vm_compute; (reflexivity || discriminate). }
  assert (Hno : tmr_cntr (bsptimers (Sample.ready 1
                   [65530%N; 10%N; 0%N; 3%N]) 1) + 65536 * Z.of_nat 3
                < 2 ^ 32) by (vm_compute; reflexivity).
  split; [exact Hok|]. split; [exact Hno|].
  split; [vm_compute; reflexivity|].
  exact (extended_reads_monotone 1 1 _ 3 Hok Hno).
Defined.

(** C7 at its failing input.  The counter of the hardware runs on while
    [hal_timer_read_bsptimer] executes, and the overflow event is cleared
    only after the counter was captured again: a wrap of the counter
    between that second capture and the clearing of the event is wiped
    without having been counted.  Timer 1 is as [hal_timer_init] leaves it,
    with the counter running and the interrupts masked by the caller; the
    counter has wrapped once, and the overflow event is still flagged when
    the counter stands at 0xFFFE and the first read captures it.  That read
    counts the overflow and captures 0xFFFF, the counter wraps before the
    event is cleared, and the read returns 131071.  The read one tick later
    finds no event flagged and returns 65537: the value went down, and the
    tally stays 65536 behind.  When the same wrap falls after the clearing,
    the second read counts it and returns 131073. *)
Example read_wipes_overflow_after_second_capture :
  let masked el :=
    set_PRIMASK true
      (Sample.after (hal_timer_init Sample.cfg 1 16000000)
         (Sample.power_on el)) in
  let s := masked [131070; 0; 0; 1; 0; 1; 1; 0; 0]%N in
  let s' := masked [131070; 0; 0; 1; 0; 0; 2; 0; 0; 0; 0; 0]%N in
  narrow_ok s 1 1 /\
  (tmr_cntr (bsptimers s 1), COUNTER (NRF_TIMER s 1), RUNNING (NRF_TIMER s 1),
   EVENTS_COMPARE (NRF_TIMER s 1) NRF_TIMER_CC_OVERFLOW, PRIMASK s)
  = (0, 0, true, 0, true) /\
  result (run (calls 2 (Running.hal_timer_read_bsptimer 1)) s)
  = Some [131071; 65537] /\
  (fun s1 => (tmr_cntr (bsptimers s1 1), COUNTER (NRF_TIMER s1 1),
              EVENTS_COMPARE (NRF_TIMER s1 1) NRF_TIMER_CC_OVERFLOW))
    <$> final (run (calls 2 (Running.hal_timer_read_bsptimer 1)) s)
  = Some (65536, 1, 0) /\
  result (run (calls 2 (Running.hal_timer_read_bsptimer 1)) s')
  = Some [131071; 131073].
Proof.
  cbv zeta. split.
  { repeat split; vm_compute; (reflexivity || discriminate). }
  repeat split; vm_compute; reflexivity.
Qed.

(** * Further properties of the driver *)

(** ** Stopping and restarting timers *)

Lemma hal_timer_stop_idle timer t s :
  timer ≠ 0 -> timers s !! timer = Some t -> link_tqe_prev t = false ->
  hal_timer_stop timer s = Ret 0 s.
Proof.
  intros H0 Ht Hl.
  unfold hal_timer_stop. destruct (Z.eqb_spec timer 0); [done|].
  rewrite (bind_Ret _ _ _ _ _ (deref_eq _ _ _ Ht H0)). rewrite Hl.
  mstep. mstep.
  clear. by destruct s as [? ? ? [] ? ? ? ? ? ?].
Qed.

(** [hal_timer_stop] on a timer that is not linked returns 0 and leaves the
    machine exactly as it was; on NULL it returns [EINVAL] and leaves the
    machine as it was. *)
Theorem stop_idle_timer_changes_nothing (timer : Z) (t : hal_timer) (s : state) :
  timer ≠ 0 -> timers s !! timer = Some t -> link_tqe_prev t = false ->
  run (hal_timer_stop timer) s = Ret 0 s /\
  run (hal_timer_stop 0) s = Ret EINVAL s.
Proof.
  intros H0 Ht Hl. split; [by eapply hal_timer_stop_idle|reflexivity].
Qed.

(** [stop_idle_timer_changes_nothing] on timer 100 of device 0, attached but
    not started. *)
Lemma stop_idle_timer_changes_nothing_witness :
  let s := Sample.ready 0 [] in
  let t := mkHalTimer (Some 0%nat) 7 100 0 false in
  100 ≠ 0 /\ timers s !! 100 = Some t /\ link_tqe_prev t = false /\
  run (hal_timer_stop 100) s = Ret 0 s.
Proof.
  cbv zeta.
  assert (H0 : 100 ≠ 0) by lia.
  assert (Ht : timers (Sample.ready 0 []) !! 100
               = Some (mkHalTimer (Some 0%nat) 7 100 0 false))
    by (vm_compute; reflexivity).
  split; [exact H0|]. split; [exact Ht|]. split; [reflexivity|].
  exact (proj1 (stop_idle_timer_changes_nothing 100 _ _ H0 Ht eq_refl)).
Defined.

Lemma TAILQ_REMOVE_split q timer :
  timer ∈ q -> NoDup q ->
  exists q1 q2, q = q1 ++ timer :: q2 /\ TAILQ_REMOVE q timer = q1 ++ q2 /\
    (timer ∉ q1 ++ q2).
Proof.
  induction q as [|y q IH]; intros Hin Hnd; [by apply elem_of_nil in Hin|].
  apply NoDup_cons in Hnd as [Hy Hnd]. cbn.
  destruct (Z.eqb_spec y timer) as [->|Hne].
  - by exists [], q.
  - apply elem_of_cons in Hin. destruct Hin as [Heq|Hin]; [congruence|].
    destruct (IH Hin Hnd) as (q1 & q2 & -> & -> & Hn).
    exists (y :: q1), q2. split; [done|]. split; [done|].
    cbn. intros H. apply elem_of_cons in H. destruct H as [Heq|H]; [congruence|done].
Qed.

Lemma TAILQ_REMOVE_middle q1 q2 timer :
  timer ∉ q1 -> TAILQ_REMOVE (q1 ++ timer :: q2) timer = q1 ++ q2.
Proof.
  induction q1 as [|y q1 IH]; intros Hn; cbn; [by rewrite Z.eqb_refl|].
  destruct (Z.eqb_spec y timer) as [->|Hne]; [exfalso; apply Hn; left|].
  rewrite IH; [done|]. intros H. apply Hn. by right.
Qed.

Lemma hal_timer_stop_unlinks s n timer :
  queue_ok s n -> timer ∈ hal_timer_q (bsptimers s n) ->
  exists s' t q1 q2,
    hal_timer_stop timer s = Ret 0 s' /\
    timers s !! timer = Some t /\
    hal_timer_q (bsptimers s n) = q1 ++ timer :: q2 /\
    hal_timer_q (bsptimers s' n) = q1 ++ q2 /\
    (timer ∉ q1 ++ q2) /\
    timers s' = <[timer:=with_link_tqe_prev false t]> (timers s) /\
    queue_ok s' n.
Proof.
  intros Hq Hin.
  destruct (queue_ok_entry _ _ _ Hq Hin) as (H0 & t & Ht & Hbsp & Hl & Hcb).
  destruct (hal_timer_stop_summary s n timer t Hq H0 Ht (fun _ => Hbsp))
    as (s' & hw & Hrun & Hreg & _ & Hb & Hrest).
  rewrite Hl in Hrest. destruct Hrest as (Hq' & Ht' & _).
  destruct Hq as (_ & Hnd & Hall).
  destruct (TAILQ_REMOVE_split _ _ Hin Hnd) as (q1 & q2 & Hsplit & Hrem & Hnin).
  rewrite Hrem in Hq'.
  exists s', t, q1, q2. do 6 (split; [done|]).
  split; [|split].
  - rewrite (proj1 (Hb n)), Hreg. by eexists.
  - rewrite Hq'. rewrite Hsplit in Hnd.
    apply NoDup_app in Hnd as (Hn1 & Hn12 & Hn2).
    apply NoDup_cons in Hn2 as [_ Hn2]. apply NoDup_app.
    repeat split; [done| |done].
    intros x Hx1 Hx2. apply (Hn12 x Hx1). by right.
  - intros x Hx. rewrite Hq' in Hx.
    assert (Hx' : x ∈ hal_timer_q (bsptimers s n)).
    { rewrite Hsplit. apply elem_of_app in Hx as [Hx|Hx];
        apply elem_of_app; [by left|right; by right]. }
    destruct (Hall x Hx') as (Hx0 & tx & Htx & ?). split; [done|].
    exists tx. split; [|done]. rewrite Ht', lookup_insert_ne; [done|].
    intros <-. done.
Qed.

(** [hal_timer_stop] on a timer that is in the queue of its device returns
    0 and takes exactly that timer out: the entries before it and after it
    keep their order, the timer object has its link cleared and is otherwise
    as it was, no other timer object changes, the queue stays well formed,
    and a second [hal_timer_stop] changes nothing. *)
Theorem stop_unlinks_timer (s : state) (n : nat) (timer : Z) :
  queue_ok s n -> timer ∈ hal_timer_q (bsptimers s n) ->
  exists s' t q1 q2,
    run (hal_timer_stop timer) s = Ret 0 s' /\
    timers s !! timer = Some t /\
    hal_timer_q (bsptimers s n) = q1 ++ timer :: q2 /\
    hal_timer_q (bsptimers s' n) = q1 ++ q2 /\
    (timer ∉ q1 ++ q2) /\
    timers s' = <[timer:=with_link_tqe_prev false t]> (timers s) /\
    queue_ok s' n /\
    run (hal_timer_stop timer) s' = Ret 0 s'.
Proof.
  intros Hq Hin.
  destruct (queue_ok_entry _ _ _ Hq Hin) as (H0 & _).
  destruct (hal_timer_stop_unlinks s n timer Hq Hin)
    as (s' & t & q1 & q2 & Hrun & Ht & Hsplit & Hq' & Hnin & Ht' & Hqok).
  exists s', t, q1, q2. do 7 (split; [done|]).
  apply (hal_timer_stop_idle timer (with_link_tqe_prev false t));
    [done| |reflexivity].
  rewrite Ht'. apply lookup_insert_eq.
Qed.

(** [stop_unlinks_timer] on [Sample.pending], where timer 200 is at the head
    of the queue of device 0 and timer 100 behind it. *)
Lemma stop_unlinks_timer_witness :
  queue_ok Sample.pending 0 /\
  200 ∈ hal_timer_q (bsptimers Sample.pending 0) /\
  exists s' t q1 q2,
    run (hal_timer_stop 200) Sample.pending = Ret 0 s' /\
    timers Sample.pending !! 200 = Some t /\
    hal_timer_q (bsptimers Sample.pending 0) = q1 ++ 200 :: q2 /\
    hal_timer_q (bsptimers s' 0) = q1 ++ q2 /\
    (200 ∉ q1 ++ q2) /\
    timers s' = <[200:=with_link_tqe_prev false t]> (timers Sample.pending) /\
    queue_ok s' 0 /\
    run (hal_timer_stop 200) s' = Ret 0 s'.
Proof.
  assert (Hin : 200 ∈ hal_timer_q (bsptimers Sample.pending 0)).
  { replace (hal_timer_q (bsptimers Sample.pending 0)) with [200; 100]
      by (vm_compute; reflexivity).
    left. }
  split; [exact pending_queue_ok|]. split; [exact Hin|].
  exact (stop_unlinks_timer Sample.pending 0 200 pending_queue_ok Hin).
Defined.

Lemma startable_frame s s' n timer :
  frame s s' -> startable s n timer -> startable s' n timer.
Proof. intros (Ht & _) (H0 & t & Hl & H). split; [done|]. exists t. by rewrite Ht. Qed.

(** Starting a timer and stopping it again gives back the queue as it was:
    [hal_timer_start_at] followed by [hal_timer_stop] on an idle timer both
    return 0, the timer is in the queue in between, and afterwards the queue
    of the device is the one before the start, the only change to the timer
    objects is the expiry of that timer, and the compare channel follows the
    head of the queue again. *)
Theorem start_at_then_stop_restores_queue
    (s : state) (n : nat) (timer tick : Z) :
  queue_ok s n -> rearm_inv s n -> startable s n timer ->
  exists s1 s2 t,
    run (hal_timer_start_at timer tick) s = Ret 0 s1 /\
    run (hal_timer_stop timer) s1 = Ret 0 s2 /\
    timers s !! timer = Some t /\
    timer ∈ hal_timer_q (bsptimers s1 n) /\
    hal_timer_q (bsptimers s2 n) = hal_timer_q (bsptimers s n) /\
    timers s2 = <[timer:=with_expiry tick t]> (timers s) /\
    queue_ok s2 n /\ rearm_inv s2 n.
Proof.
  intros Hq Hinv Hst.
  pose proof (startable_not_queued _ _ _ Hq Hst) as Hnin.
  destruct (hal_timer_start_at_summary s n timer tick Hq Hst)
    as (s1 & q1 & q2 & hw & t & Hrun & Ht & Hreg & Hsplit & Hq1 & _ & _ & Ht1
        & _).
  destruct (hal_timer_start_at_rearm s n timer tick Hq Hinv Hst)
    as (s1' & Hrun' & Hinv1).
  rewrite Hrun in Hrun'. injection Hrun' as <-.
  destruct (hal_timer_start_at_queue_ok _ _ _ _ _ Hq Hst Hrun)
    as (Hqok1 & Hin1 & _).
  destruct Hst as (H0 & t0 & Ht0 & Hbsp & Hl & Hcb).
  rewrite Ht in Ht0. injection Ht0 as <-.
  destruct (hal_timer_stop_unlinks s1 n timer Hqok1 Hin1)
    as (s2 & t1 & p1 & p2 & Hstop & Ht1' & Hp & Hq2 & Hnin2 & Ht2 & Hqok2).
  rewrite Ht1, lookup_insert_eq in Ht1'. injection Ht1' as <-.
  destruct (hal_timer_stop_rearm s1 n timer
              (with_link_tqe_prev true (with_expiry tick t)) Hqok1 Hinv1 H0)
    as (s2' & Hstop' & Hinv2);
    [by rewrite Ht1, lookup_insert_eq|done|].
  rewrite Hstop in Hstop'. injection Hstop' as <-.
  exists s1, s2, t. do 4 (split; [done|]). split; [|split; [|done]].
  - rewrite Hq2, Hsplit. rewrite Hq1 in Hp.
    assert (Hn1 : timer ∉ q1).
    { intros H. apply Hnin. rewrite Hsplit. apply elem_of_app. by left. }
    transitivity (TAILQ_REMOVE (q1 ++ timer :: q2) timer);
      [|by apply TAILQ_REMOVE_middle].
    rewrite Hp. symmetry. apply TAILQ_REMOVE_middle.
    intros H. apply Hnin2. apply elem_of_app. by left.
  - rewrite Ht2, Ht1, insert_insert_eq. f_equal.
    unfold with_link_tqe_prev, with_expiry. cbn. by rewrite Hl.
Qed.

(** [start_at_then_stop_restores_queue] on device 0 with an empty queue and
    timer 100. *)
Lemma start_at_then_stop_restores_queue_witness :
  let s := Sample.ready 0 [] in
  queue_ok s 0 /\ rearm_inv s 0 /\ startable s 0 100 /\
  exists s1 s2 t,
    run (hal_timer_start_at 100 50) s = Ret 0 s1 /\
    run (hal_timer_stop 100) s1 = Ret 0 s2 /\
    timers s !! 100 = Some t /\
    100 ∈ hal_timer_q (bsptimers s1 0) /\
    hal_timer_q (bsptimers s2 0) = hal_timer_q (bsptimers s 0) /\
    timers s2 = <[100:=with_expiry 50 t]> (timers s) /\
    queue_ok s2 0 /\ rearm_inv s2 0.
Proof.
  cbv zeta.
  assert (Hq : queue_ok (Sample.ready 0 []) 0).
  { apply queue_okb_ok. vm_compute. reflexivity. }
  assert (Hinv : rearm_inv (Sample.ready 0 []) 0).
  { exists 0%nat. split; [vm_compute; reflexivity|].
    unfold compare_enabled. vm_compute. discriminate. }
  assert (Hst : startable (Sample.ready 0 []) 0 100).
  { split; [lia|]. eexists. split; [vm_compute; reflexivity|].
    split; [reflexivity|]. split; [reflexivity|]. cbn. lia. }
  split; [exact Hq|]. split; [exact Hinv|]. split; [exact Hst|].
  exact (start_at_then_stop_restores_queue (Sample.ready 0 []) 0 100 50
           Hq Hinv Hst).
Defined.

(** A timer that has been stopped does not fire: after [hal_timer_stop] has
    returned for a queued timer, a pass of [hal_timer_chk_queue] (with
    callbacks that return and leave the queue alone) returns, the timer is
    not among the timers it dispatches, and the timers it dispatches
    followed by the queue it leaves are the queue it found. *)
Theorem stopped_timer_is_not_dispatched
    (cb_exec : Z -> Z -> M unit) (s : state) (n : nat) (timer : Z)
    (fuel : nat) :
  (forall f a s1, exists s2, cb_exec f a s1 = Ret tt s2) ->
  (forall f a s1 s2, cb_exec f a s1 = Ret tt s2 ->
     queue_ok s1 n -> queue_ok s2 n) ->
  (forall f a s1 s2, cb_exec f a s1 = Ret tt s2 ->
     hal_timer_q (bsptimers s2 n) = hal_timer_q (bsptimers s1 n)) ->
  queue_ok s n -> timer ∈ hal_timer_q (bsptimers s n) ->
  (length (hal_timer_q (bsptimers s n)) <= fuel)%nat ->
  exists s1 ds s2,
    run (hal_timer_stop timer) s = Ret 0 s1 /\
    run (hal_timer_chk_queue cb_exec fuel n) s1 = Ret ds s2 /\
    (timer ∉ d_timer <$> ds) /\
    hal_timer_q (bsptimers s1 n)
    = (d_timer <$> ds) ++ hal_timer_q (bsptimers s2 n).
Proof.
  intros Htotal Hok Hquiet Hq Hin Hfuel.
  destruct (hal_timer_stop_unlinks s n timer Hq Hin)
    as (s1 & t & q1 & q2 & Hstop & _ & Hsplit & Hq1 & Hnin & _ & Hq1ok).
  destruct (hal_timer_chk_queue_returns cb_exec n Hquiet Htotal Hok fuel s1 Hq1ok)
    as (ds & s2 & Hrun).
  { rewrite Hq1. rewrite Hsplit in Hfuel. rewrite length_app in *. cbn in Hfuel. lia. }
  exists s1, ds, s2. do 2 (split; [done|]).
  apply chk_queue_inv in Hrun as (s3 & Hloop & (_ & Hfr) & _).
  apply (chk_queue_loop_prefix cb_exec n Hquiet) in Hloop.
  change (hal_timer_q (bsptimers (set_PRIMASK true s1) n))
    with (hal_timer_q (bsptimers s1 n)) in Hloop.
  rewrite (proj1 (Hfr n)). split; [|done].
  intros Hd. apply Hnin. rewrite <- Hq1, Hloop. apply elem_of_app. by left.
Qed.

(** [stopped_timer_is_not_dispatched] on [Sample.pending]: timer 200 is
    stopped, and the pass that follows dispatches timer 100 only. *)
Lemma stopped_timer_is_not_dispatched_witness :
  queue_ok Sample.pending 0 /\
  200 ∈ hal_timer_q (bsptimers Sample.pending 0) /\
  (length (hal_timer_q (bsptimers Sample.pending 0)) <= 3)%nat /\
  Sample.dispatched
    (run (hal_timer_stop 200;; hal_timer_chk_queue Sample.cb_none 3 0)
       Sample.pending) = Some [100] /\
  exists s1 ds s2,
    run (hal_timer_stop 200) Sample.pending = Ret 0 s1 /\
    run (hal_timer_chk_queue Sample.cb_none 3 0) s1 = Ret ds s2 /\
    (200 ∉ d_timer <$> ds) /\
    hal_timer_q (bsptimers s1 0)
    = (d_timer <$> ds) ++ hal_timer_q (bsptimers s2 0).
Proof.
  assert (Hin : 200 ∈ hal_timer_q (bsptimers Sample.pending 0)).
  { replace (hal_timer_q (bsptimers Sample.pending 0)) with [200; 100]
      by (vm_compute; reflexivity).
    left. }
  assert (Hlen : (length (hal_timer_q (bsptimers Sample.pending 0)) <= 3)%nat).
  { replace (hal_timer_q (bsptimers Sample.pending 0)) with [200; 100]
      by (vm_compute; reflexivity).
    cbn. lia. }
  split; [exact pending_queue_ok|]. split; [exact Hin|]. split; [exact Hlen|].
  split; [vm_compute; reflexivity|].
  exact (stopped_timer_is_not_dispatched Sample.cb_none Sample.pending 0 200 3
           cb_none_total (cb_none_queue_ok 0) (cb_none_queue 0)
           pending_queue_ok Hin Hlen).
Defined.

(** [hal_timer_start] with a non-zero tick count reads the counter of the
    timer's device and starts the timer for the tick value read plus
    [ticks], in 32 bits: it returns 0 in the state that [hal_timer_start_at]
    for that tick gives after the read, with the timer queued and its expiry
    set; with a tick count of 0 it returns [EINVAL] and changes nothing. *)
Theorem start_counts_ticks_from_now (s : state) (n : nat) (timer ticks : Z) :
  queue_ok s n -> startable s n timer -> ticks ≠ 0 ->
  exists now s0 s',
    run (hal_timer_read_bsptimer n) s = Ret now s0 /\
    run (hal_timer_start timer ticks) s = Ret 0 s' /\
    run (hal_timer_start_at timer (uint32_t (now + ticks))) s0 = Ret 0 s' /\
    expiry_of s' timer = Some (uint32_t (now + ticks)) /\
    timer ∈ hal_timer_q (bsptimers s' n) /\
    queue_ok s' n /\
    run (hal_timer_start timer 0) s = Ret EINVAL s.
Proof.
  intros Hq Hst Hticks.
  destruct (hal_timer_read_bsptimer_total n s (proj1 Hq)) as (now & s0 & Hread).
  pose proof (hal_timer_read_bsptimer_frame _ _ _ _ Hread) as Hfr.
  pose proof (queue_ok_frame _ _ _ Hfr Hq) as Hq0.
  pose proof (startable_frame _ _ _ _ Hfr Hst) as Hst0.
  destruct (hal_timer_start_at_summary s0 n timer (uint32_t (now + ticks)) Hq0 Hst0)
    as (s' & _ & _ & _ & _ & Hrun & _).
  destruct (hal_timer_start_at_queue_ok _ _ _ _ _ Hq0 Hst0 Hrun) as (Hq' & Hin & He).
  exists now, s0, s'. split; [done|].
  split; [|split; [done|split; [done|split; [done|split; [done|reflexivity]]]]].
  unfold hal_timer_start. apply nonzero_true in Hticks. rewrite Hticks.
  destruct Hst as (H0 & t & Ht & Hbsp & _).
  rewrite (bind_Ret _ _ _ _ _ (deref_eq _ _ _ Ht H0)). rewrite Hbsp.
  mstep. by rewrite (bind_Ret _ _ _ _ _ Hread).
Qed.

(** [start_counts_ticks_from_now] on device 0 with its counter at 5: timer
    100 started for 10 ticks expires at tick 15. *)
Lemma start_counts_ticks_from_now_witness :
  let s := Sample.ready 0 [5; 0]%N in
  queue_ok s 0 /\ startable s 0 100 /\ 10 ≠ 0 /\
  (fun s' => expiry_of s' 100) <$> final (run (hal_timer_start 100 10) s)
  = Some (Some 15) /\
  exists now s0 s',
    run (hal_timer_read_bsptimer 0) s = Ret now s0 /\
    run (hal_timer_start 100 10) s = Ret 0 s' /\
    run (hal_timer_start_at 100 (uint32_t (now + 10))) s0 = Ret 0 s' /\
    expiry_of s' 100 = Some (uint32_t (now + 10)) /\
    100 ∈ hal_timer_q (bsptimers s' 0) /\
    queue_ok s' 0 /\
    run (hal_timer_start 100 0) s = Ret EINVAL s.
Proof.
  cbv zeta.
  assert (Hq : queue_ok (Sample.ready 0 [5%N; 0%N]) 0).
  { apply queue_okb_ok. vm_compute. reflexivity. }
  assert (Hst : startable (Sample.ready 0 [5%N; 0%N]) 0 100).
  { split; [lia|]. eexists. split; [vm_compute; reflexivity|].
    split; [reflexivity|]. split; [reflexivity|]. cbn. lia. }
  assert (Hn : 10 ≠ 0) by lia.
  split; [exact Hq|]. split; [exact Hst|]. split; [exact Hn|].
  split; [vm_compute; reflexivity|].
  exact (start_counts_ticks_from_now (Sample.ready 0 [5%N; 0%N]) 0 100 10
           Hq Hst Hn).
Defined.

(** ** Attaching a callback *)

(** [hal_timer_set_cb] on a configured device and a timer object that is
    not in the queue returns 0, attaches the callback, its argument and the
    device to the object, clears its link and leaves its expiry; the object
    is then ready to start: [hal_timer_start_at] returns 0 and queues it. *)
Theorem set_cb_makes_timer_startable
    (cfg : syscfg) (timer_num : Z) (n : nat) (timer cb arg tick : Z)
    (t : hal_timer) (s : state) :
  0 <= timer_num < 3 ->
  nrf51_hal_timers cfg (Z.to_nat timer_num) = Some n ->
  timer ≠ 0 -> timers s !! timer = Some t -> cb ≠ 0 ->
  queue_ok s n -> timer ∉ hal_timer_q (bsptimers s n) ->
  exists s' s'',
    run (hal_timer_set_cb cfg timer_num timer cb arg) s = Ret 0 s' /\
    s' = set_timers
           (<[timer:=mkHalTimer (Some n) cb arg (expiry t) false]> (timers s)) s /\
    queue_ok s' n /\ startable s' n timer /\
    run (hal_timer_start_at timer tick) s' = Ret 0 s'' /\
    timer ∈ hal_timer_q (bsptimers s'' n).
Proof.
  intros Hn Hcfg H0 Ht Hcb Hq Hnin.
  set (s' := set_timers
           (<[timer:=mkHalTimer (Some n) cb arg (expiry t) false]> (timers s)) s).
  assert (Hrun : hal_timer_set_cb cfg timer_num timer cb arg s = Ret 0 s').
  { unfold hal_timer_set_cb.
    rewrite (bind_Ret _ _ _ _ _ (resolve_eq cfg timer_num n s Hn Hcfg)).
    by rewrite (bind_Ret _ _ _ _ _ (upd_timer_eq _ _ _ _ Ht H0)). }
  assert (Hq' : queue_ok s' n).
  { destruct Hq as (Hreg & Hnd & Hall). split; [done|]. split; [done|].
    intros x Hx. destruct (Hall x Hx) as (Hx0 & tx & Htx & Hrest).
    split; [done|]. exists tx. split; [|done].
    cbn. rewrite lookup_insert_ne; [done|]. intros <-. done. }
  assert (Hst : startable s' n timer).
  { split; [done|]. eexists. split; [apply lookup_insert_eq|]. done. }
  destruct (hal_timer_start_at_summary s' n timer tick Hq' Hst)
    as (s'' & q1 & q2 & _ & _ & Hstart & _ & _ & _ & Hq'' & _).
  exists s', s''. do 5 (split; [done|]).
  rewrite Hq''. apply elem_of_app. right. left.
Qed.

(** [set_cb_makes_timer_startable] on device 0: timer 100 gets callback 9
    and is started for tick 50. *)
Lemma set_cb_makes_timer_startable_witness :
  let s := Sample.ready 0 [] in
  let t := mkHalTimer (Some 0%nat) 7 100 0 false in
  0 <= 0 < 3 /\ nrf51_hal_timers Sample.cfg (Z.to_nat 0) = Some 0%nat /\
  100 ≠ 0 /\ timers s !! 100 = Some t /\ 9 ≠ 0 /\
  queue_ok s 0 /\ (100 ∉ hal_timer_q (bsptimers s 0)) /\
  exists s' s'',
    run (hal_timer_set_cb Sample.cfg 0 100 9 100) s = Ret 0 s' /\
    s' = set_timers
           (<[100:=mkHalTimer (Some 0%nat) 9 100 (expiry t) false]> (timers s)) s /\
    queue_ok s' 0 /\ startable s' 0 100 /\
    run (hal_timer_start_at 100 50) s' = Ret 0 s'' /\
    100 ∈ hal_timer_q (bsptimers s'' 0).
Proof.
  cbv zeta.
  assert (Hn : 0 <= 0 < 3) by lia.
  assert (H0 : 100 ≠ 0) by lia.
  assert (Hcb : 9 ≠ 0) by lia.
  assert (Ht : timers (Sample.ready 0 []) !! 100
               = Some (mkHalTimer (Some 0%nat) 7 100 0 false))
    by (vm_compute; reflexivity).
  assert (Hq : queue_ok (Sample.ready 0 []) 0).
  { apply queue_okb_ok. vm_compute. reflexivity. }
  assert (Hnin : 100 ∉ hal_timer_q (bsptimers (Sample.ready 0 []) 0)).
  { replace (hal_timer_q (bsptimers (Sample.ready 0 []) 0)) with (@nil Z)
      by (vm_compute; reflexivity).
    apply not_elem_of_nil. }
  split; [exact Hn|]. split; [reflexivity|]. split; [exact H0|].
  split; [exact Ht|]. split; [exact Hcb|]. split; [exact Hq|].
  split; [exact Hnin|].
  exact (set_cb_makes_timer_startable Sample.cfg 0 0 100 9 100 50 _
           (Sample.ready 0 []) Hn eq_refl H0 Ht Hcb Hq Hnin).
Defined.

(** ** Initialisation, de-initialisation and resolution *)

Lemma nrf51_hal_timers_self cfg k n :
  nrf51_hal_timers cfg k = Some n -> n = k.
Proof.
  destruct k as [|[|[|k]]]; cbn; [| | |done];
    match goal with |- context [if ?b then _ else _] => destruct b end;
    congruence.
Qed.

Lemma init_switch_full cfg timer_num n :
  0 <= timer_num < 3 ->
  nrf51_hal_timers cfg (Z.to_nat timer_num) = Some n ->
  hal_timer_init_switch cfg timer_num
  = (TIMER0_IRQn + timer_num, Some n, timer_num, negb (timer_num =? 0),
     interrupt_priority cfg timer_num).
Proof.
  intros Hn Hcfg. unfold hal_timer_init_switch.
  assert (Hc : timer_num = 0 \/ timer_num = 1 \/ timer_num = 2) by lia.
  destruct Hc as [-> | [-> | ->]].
  - change (Z.to_nat 0) with 0%nat in Hcfg. cbn in Hcfg |- *.
    destruct (TIMER_0 cfg); [|done]. by injection Hcfg as <-.
  - change (Z.to_nat 1) with 1%nat in Hcfg. cbn in Hcfg |- *.
    destruct (TIMER_1 cfg); [|done]. by injection Hcfg as <-.
  - change (Z.to_nat 2) with 2%nat in Hcfg. cbn in Hcfg |- *.
    destruct (TIMER_2 cfg); [|done]. by injection Hcfg as <-.
Qed.

Lemma hal_timer_init_full cfg s timer_num freq_hz n :
  0 <= timer_num < 3 ->
  nrf51_hal_timers cfg (Z.to_nat timer_num) = Some n ->
  tmr_enabled (bsptimers s n) = 0 ->
  0 < freq_hz ->
  1 <= NRF51_MAX_TIMER_FREQ / freq_hz <= 512 ->
  let b := bsptimers s n in
  let r := NRF_TIMER s n in
  let irq := TIMER0_IRQn + timer_num in
  let w := if timer_num =? 0 then tmr_16bit b else 1 in
  exists s',
    hal_timer_init cfg timer_num freq_hz s = Ret 0 s' /\
    (tmr_enabled (bsptimers s' n) = 1 /\
     tmr_irq_num (bsptimers s' n) = irq /\
     tmr_16bit (bsptimers s' n) = w /\
     tmr_cntr (bsptimers s' n) = tmr_cntr b /\
     tmr_reg (bsptimers s' n) = Some n /\
     hal_timer_q (bsptimers s' n) = hal_timer_q b) /\
    (forall m, m ≠ n ->
       bsptimers s' m = bsptimers s m /\ NRF_TIMER s' m = NRF_TIMER s m) /\
    (timers s' = timers s /\ PRIMASK s' = PRIMASK s /\
     nvic_pending s' = nvic_pending s /\ elapse s' = elapse s) /\
    (irq ∈ nvic_enabled s' /\ nvic_vector s' !! irq = Some timer_num /\
     nvic_priority s' !! irq = Some (interrupt_priority cfg timer_num) /\
     HFCLK_running s' = true) /\
    (RUNNING (NRF_TIMER s' n) = true /\
     COUNTER (NRF_TIMER s' n) = COUNTER r /\
     MODE (NRF_TIMER s' n) = TIMER_MODE_MODE_Timer /\
     CC (NRF_TIMER s' n) NRF_TIMER_CC_INT = CC r NRF_TIMER_CC_INT /\
     (compare_enabled (NRF_TIMER s' n) <-> compare_enabled r)) /\
    if nonzero w then
      BITMODE (NRF_TIMER s' n) = TIMER_BITMODE_BITMODE_16Bit /\
      CC (NRF_TIMER s' n) NRF_TIMER_CC_OVERFLOW = 0 /\
      EVENTS_COMPARE (NRF_TIMER s' n) NRF_TIMER_CC_OVERFLOW = 0 /\
      overflow_enabled (NRF_TIMER s' n)
    else
      BITMODE (NRF_TIMER s' n) = TIMER_BITMODE_BITMODE_32Bit.
Proof.
  intros Hn Hcfg Hen Hf Hdiv. cbv zeta.
  pose proof (resolve_eq cfg timer_num n s Hn Hcfg) as Hres.
  unfold hal_timer_init. rewrite (bind_Ret _ _ _ _ _ Hres).
  destruct (Z.eqb_spec freq_hz 0); [lia|]. mstep.
  unfold nonzero at 1. rewrite Hen.
  destruct (Z.eqb_spec (NRF51_MAX_TIMER_FREQ / freq_hz) 0); [lia|].
  destruct (Z.gtb_spec (NRF51_MAX_TIMER_FREQ / freq_hz) 512); [lia|].
  change (0 =? 0) with true. cbn [negb orb]. rewrite Z.shiftl_1_l.
  set (e := hal_timer_init_prescaler _).
  set (fr := NRF51_MAX_TIMER_FREQ / 2 ^ e).
  rewrite (init_switch_full cfg timer_num n Hn Hcfg).
  set (prio := interrupt_priority cfg timer_num). clearbody prio.
  clearbody e fr. clear Hres.
  assert (Hbit : forall x, Z.testbit (Z.lor x (NRF_TIMER_INT_MASK NRF_TIMER_CC_OVERFLOW))
                   (16 + Z.of_nat NRF_TIMER_CC_INT)
                 = Z.testbit x (16 + Z.of_nat NRF_TIMER_CC_INT)).
  { intros x. rewrite Z.lor_spec.
    change (NRF_TIMER_INT_MASK NRF_TIMER_CC_OVERFLOW) with (2 ^ 17).
    change (16 + Z.of_nat NRF_TIMER_CC_INT) with 19.
    rewrite Z.pow2_bits_false by lia. apply orb_false_r. }
  assert (Hbit' : forall x, Z.testbit (Z.lor x (NRF_TIMER_INT_MASK NRF_TIMER_CC_OVERFLOW))
                   (16 + Z.of_nat NRF_TIMER_CC_OVERFLOW) = true).
  { intros x. rewrite Z.lor_spec.
    change (NRF_TIMER_INT_MASK NRF_TIMER_CC_OVERFLOW) with (2 ^ 17).
    change (16 + Z.of_nat NRF_TIMER_CC_OVERFLOW) with 17.
    rewrite Z.pow2_bits_true by lia. apply orb_true_r. }
  unfold compare_enabled, overflow_enabled.
  destruct (Z.eqb_spec timer_num 0) as [Hz|Hz]; cbn [negb].
  - destruct (nonzero (tmr_16bit (bsptimers s n))) eqn:H16;
      mrun; rewrite ?upd_same; cbn; rewrite ?upd_same, ?H16; cbn;
      destruct (PRIMASK s) eqn:EP;
      (eexists; split; [reflexivity|]); cbn; rewrite ?upd_same; cbn;
      rewrite ?upd_same, ?Hbit, ?Hbit';
      (split; [done|]);
      (split; [intros m Hm; by rewrite !upd_other by done|]);
      (split; [done|]);
      (split; [split; [apply elem_of_union_l, elem_of_singleton_2; reflexivity
               |split; [apply lookup_insert_eq
                       |split; [apply lookup_insert_eq|done]]]|]);
      done.
  - mrun; rewrite ?upd_same; cbn; rewrite ?upd_same; cbn;
      destruct (PRIMASK s) eqn:EP;
      (eexists; split; [reflexivity|]); cbn; rewrite ?upd_same; cbn;
      rewrite ?upd_same, ?Hbit, ?Hbit';
      (split; [done|]);
      (split; [intros m Hm; by rewrite !upd_other by done|]);
      (split; [done|]);
      (split; [split; [apply elem_of_union_l, elem_of_singleton_2; reflexivity
               |split; [apply lookup_insert_eq
                       |split; [apply lookup_insert_eq|done]]]|]);
      done.
Qed.

Lemma freq_in_range freq_hz :
  0 < freq_hz ->
  (1 <= NRF51_MAX_TIMER_FREQ / freq_hz <= 512 <-> 31190 <= freq_hz <= 16000000).
Proof.
  intros Hf. unfold NRF51_MAX_TIMER_FREQ. split.
  - intros [H1 H2]. split.
    + destruct (Z_lt_le_dec freq_hz 31190) as [Hlt|]; [|done].
      assert (513 <= 16000000 / freq_hz); [|lia].
      apply Z.div_le_lower_bound; lia.
    + destruct (Z_lt_le_dec 16000000 freq_hz) as [Hlt|]; [|done].
      rewrite Z.div_small in H1 by lia. lia.
  - intros [H1 H2]. split.
    + apply Z.div_le_lower_bound; lia.
    + assert (16000000 / freq_hz < 513); [|lia].
      apply Z.div_lt_upper_bound; lia.
Qed.

Lemma nrf51_hal_timers_None cfg k : (3 <= k)%nat -> nrf51_hal_timers cfg k = None.
Proof. by destruct k as [|[|[|k]]]; [lia..|]. Qed.

Lemma resolve_None cfg timer_num s :
  0 <= timer_num -> nrf51_hal_timers cfg (Z.to_nat timer_num) = None ->
  NRF51_HAL_TIMER_RESOLVE cfg timer_num s = Ret None s.
Proof.
  intros H0 Hcfg. unfold NRF51_HAL_TIMER_RESOLVE.
  destruct (Z.geb_spec timer_num NRF51_HAL_TIMER_MAX); [done|].
  destruct (Z.ltb_spec timer_num 0); [lia|]. by rewrite Hcfg.
Qed.

Lemma resolve_Some cfg timer_num n s :
  0 <= timer_num -> nrf51_hal_timers cfg (Z.to_nat timer_num) = Some n ->
  NRF51_HAL_TIMER_RESOLVE cfg timer_num s = Ret (Some n) s /\ timer_num < 3.
Proof.
  intros H0 Hcfg.
  assert (Hlt : timer_num < 3).
  { destruct (Z_lt_le_dec timer_num 3); [done|].
    rewrite nrf51_hal_timers_None in Hcfg by lia. done. }
  split; [|done]. by apply resolve_eq.
Qed.

Lemma hal_timer_init_einval cfg timer_num freq_hz s :
  0 <= timer_num -> 0 < freq_hz ->
  nrf51_hal_timers cfg (Z.to_nat timer_num) = None \/
  (exists n, nrf51_hal_timers cfg (Z.to_nat timer_num) = Some n /\
             tmr_enabled (bsptimers s n) ≠ 0) \/
  freq_hz < 31190 \/ 16000000 < freq_hz ->
  hal_timer_init cfg timer_num freq_hz s = Ret EINVAL s.
Proof.
  intros H0 Hf Hbad. unfold hal_timer_init.
  destruct (nrf51_hal_timers cfg (Z.to_nat timer_num)) as [n|] eqn:Hcfg;
    [|by rewrite (bind_Ret _ _ _ _ _ (resolve_None cfg timer_num s H0 Hcfg))].
  destruct (resolve_Some cfg timer_num n s H0 Hcfg) as [Hres Hlt].
  rewrite (bind_Ret _ _ _ _ _ Hres).
  destruct (Z.eqb_spec freq_hz 0); [lia|]. mstep.
  destruct Hbad as [?|[(m & [= <-] & Hen)|Hfr]]; [done| |].
  - apply nonzero_true in Hen. by rewrite Hen.
  - destruct (Z.gtb_spec (NRF51_MAX_TIMER_FREQ / freq_hz) 512);
      [by rewrite orb_true_r|].
    destruct (Z.eqb_spec (NRF51_MAX_TIMER_FREQ / freq_hz) 0);
      [by rewrite orb_true_r|].
    pose proof (proj1 (freq_in_range freq_hz Hf)) as Hr.
    assert (0 <= NRF51_MAX_TIMER_FREQ / freq_hz)
      by (apply Z.div_pos; unfold NRF51_MAX_TIMER_FREQ; lia).
    lia.
Qed.

(** For a timer number that is not negative and a frequency that is not 0,
    [hal_timer_init] returns [EINVAL], leaving the machine as it was,
    exactly when the timer is not configured (or its number is 3 or more),
    the device is already enabled, or the frequency is below 31190 Hz or
    above 16 MHz (the divider [16000000 / freq_hz] is above 512 or is 0). *)
Theorem init_rejects_iff_bad_request
    (cfg : syscfg) (timer_num freq_hz : Z) (s : state) :
  0 <= timer_num -> 0 < freq_hz ->
  let dev := nrf51_hal_timers cfg (Z.to_nat timer_num) in
  (dev = None \/
   (exists n, dev = Some n /\ tmr_enabled (bsptimers s n) ≠ 0) \/
   freq_hz < 31190 \/ 16000000 < freq_hz)
  <-> run (hal_timer_init cfg timer_num freq_hz) s = Ret EINVAL s.
Proof.
  intros H0 Hf. cbv zeta. split; [by apply hal_timer_init_einval|].
  intros Hrun.
  destruct (nrf51_hal_timers cfg (Z.to_nat timer_num)) as [n|] eqn:Hcfg;
    [|by left].
  destruct (Z.eqb_spec (tmr_enabled (bsptimers s n)) 0) as [Hen|Hen];
    [|right; left; eauto].
  destruct (Z_lt_le_dec freq_hz 31190) as [Hlo|Hlo]; [by auto|].
  destruct (Z_lt_le_dec 16000000 freq_hz) as [Hhi|Hhi]; [by auto|].
  destruct (resolve_Some cfg timer_num n s H0 Hcfg) as [_ Hlt].
  destruct (hal_timer_init_ok cfg s timer_num freq_hz n) as (s' & Hok & _);
    [lia|done|done|done|by apply freq_in_range|].
  rewrite Hok in Hrun. discriminate.
Qed.

(** [init_rejects_iff_bad_request] for timer 0 at 20 MHz. *)
Lemma init_rejects_iff_bad_request_witness :
  0 <= 0 /\ 0 < 20000000 /\
  run (hal_timer_init Sample.cfg 0 20000000) (Sample.power_on [])
  = Ret EINVAL (Sample.power_on []).
Proof.
  assert (H0 : 0 <= 0) by lia.
  assert (Hf : 0 < 20000000) by lia.
  split; [exact H0|]. split; [exact Hf|].
  apply (init_rejects_iff_bad_request Sample.cfg 0 20000000
           (Sample.power_on []) H0 Hf).
  right. right. right. lia.
Defined.

(** A device is initialised once: after [hal_timer_init] has returned 0, a
    second [hal_timer_init] of the same device returns [EINVAL] and changes
    nothing; [hal_timer_deinit] returns (leaving its result unassigned), and
    after it [hal_timer_init] returns 0 again. *)
Theorem init_is_rejected_until_deinit
    (cfg : syscfg) (timer_num freq_hz freq_hz' : Z) (n : nat) (s : state) :
  0 <= timer_num ->
  nrf51_hal_timers cfg (Z.to_nat timer_num) = Some n ->
  tmr_enabled (bsptimers s n) = 0 ->
  31190 <= freq_hz <= 16000000 -> 31190 <= freq_hz' <= 16000000 ->
  exists s1 s2 s3,
    run (hal_timer_init cfg timer_num freq_hz) s = Ret 0 s1 /\
    run (hal_timer_init cfg timer_num freq_hz') s1 = Ret EINVAL s1 /\
    run (hal_timer_deinit cfg timer_num) s1 = Ret Indeterminate s2 /\
    run (hal_timer_init cfg timer_num freq_hz') s2 = Ret 0 s3.
Proof.
  intros H0 Hcfg Hen Hf Hf'.
  destruct (resolve_Some cfg timer_num n s H0 Hcfg) as [_ Hlt].
  destruct (hal_timer_init_ok cfg s timer_num freq_hz n)
    as (s1 & Hrun1 & _ & Hen1 & hw & Hreg1 & _);
    [lia|done|done|lia|apply freq_in_range; lia|].
  destruct (hal_timer_deinit_effects cfg timer_num n hw s1)
    as (s2 & Hrun2 & _ & _ & Hen2); [lia|done|done|].
  destruct (hal_timer_init_ok cfg s2 timer_num freq_hz' n)
    as (s3 & Hrun3 & _); [lia|done|done|lia|apply freq_in_range; lia|].
  exists s1, s2, s3. split; [done|]. split; [|done].
  apply hal_timer_init_einval; [done|lia|].
  right. left. exists n. split; [done|]. rewrite Hen1. done.
Qed.

(** [init_is_rejected_until_deinit] for timer 0 from start-up, at 1 MHz and
    then 2 MHz. *)
Lemma init_is_rejected_until_deinit_witness :
  0 <= 0 /\ nrf51_hal_timers Sample.cfg (Z.to_nat 0) = Some 0%nat /\
  tmr_enabled (bsptimers (Sample.power_on []) 0) = 0 /\
  31190 <= 1000000 <= 16000000 /\ 31190 <= 2000000 <= 16000000 /\
  exists s1 s2 s3,
    run (hal_timer_init Sample.cfg 0 1000000) (Sample.power_on []) = Ret 0 s1 /\
    run (hal_timer_init Sample.cfg 0 2000000) s1 = Ret EINVAL s1 /\
    run (hal_timer_deinit Sample.cfg 0) s1 = Ret Indeterminate s2 /\
    run (hal_timer_init Sample.cfg 0 2000000) s2 = Ret 0 s3.
Proof.
  assert (H0 : 0 <= 0) by lia.
  assert (Hf : 31190 <= 1000000 <= 16000000) by lia.
  assert (Hf' : 31190 <= 2000000 <= 16000000) by lia.
  split; [exact H0|]. split; [reflexivity|]. split; [reflexivity|].
  split; [exact Hf|]. split; [exact Hf'|].
  exact (init_is_rejected_until_deinit Sample.cfg 0 1000000 2000000 0
           (Sample.power_on []) H0 eq_refl eq_refl Hf Hf').
Defined.

(** [hal_timer_init] on a device with an empty queue and the compare
    interrupt off (as at start-up or after [hal_timer_deinit]) returns 0 and
    establishes what the other operations rely on: the queue is well formed
    and the compare channel follows it, the device is enabled, its counter
    runs and its interrupt is enabled in the interrupt controller; the timer
    objects, the interrupt mask and the other devices and peripherals are
    untouched.  Timers 1 and 2 are set up as 16-bit devices with the
    overflow channel compared with 0, its event cleared and its interrupt
    enabled; the overflow tally is left as it was, and when it is a multiple
    of 65536 the device is as the reads of the extended counter need it
    ([narrow_ok]). *)
Theorem init_establishes_invariants
    (cfg : syscfg) (timer_num freq_hz : Z) (n : nat) (s : state) :
  0 <= timer_num ->
  nrf51_hal_timers cfg (Z.to_nat timer_num) = Some n ->
  tmr_enabled (bsptimers s n) = 0 ->
  31190 <= freq_hz <= 16000000 ->
  hal_timer_q (bsptimers s n) = [] ->
  ~ compare_enabled (NRF_TIMER s n) ->
  exists s',
    run (hal_timer_init cfg timer_num freq_hz) s = Ret 0 s' /\
    queue_ok s' n /\ rearm_inv s' n /\
    tmr_enabled (bsptimers s' n) = 1 /\
    RUNNING (NRF_TIMER s' n) = true /\
    TIMER0_IRQn + timer_num ∈ nvic_enabled s' /\
    timers s' = timers s /\ PRIMASK s' = PRIMASK s /\
    (forall m, m ≠ n ->
       bsptimers s' m = bsptimers s m /\ NRF_TIMER s' m = NRF_TIMER s m) /\
    (timer_num ≠ 0 ->
     tmr_16bit (bsptimers s' n) = 1 /\
     BITMODE (NRF_TIMER s' n) = TIMER_BITMODE_BITMODE_16Bit /\
     CC (NRF_TIMER s' n) NRF_TIMER_CC_OVERFLOW = 0 /\
     EVENTS_COMPARE (NRF_TIMER s' n) NRF_TIMER_CC_OVERFLOW = 0 /\
     overflow_enabled (NRF_TIMER s' n) /\
     tmr_cntr (bsptimers s' n) = tmr_cntr (bsptimers s n) /\
     (0 <= tmr_cntr (bsptimers s n) ->
      tmr_cntr (bsptimers s n) mod 2 ^ 16 = 0 -> narrow_ok s' n n)).
Proof.
  intros H0 Hcfg Hen Hf Hq Hoff.
  destruct (resolve_Some cfg timer_num n s H0 Hcfg) as [_ Hlt].
  destruct (hal_timer_init_full cfg s timer_num freq_hz n)
    as (s' & Hrun & (Hen' & Hirq & H16 & Hcntr & Hreg & Hq') & Hother
        & (Ht & Hp & _) & (Hnv & _) & (Hr & _ & _ & _ & Hce) & Hmode);
    [lia|done|done|lia|apply freq_in_range; lia|].
  exists s'. split; [done|]. split; [|split].
  - split; [by rewrite Hreg; eexists|]. rewrite Hq', Hq.
    split; [constructor|]. intros x Hx. by apply elem_of_nil in Hx.
  - exists n. split; [done|]. rewrite Hq', Hq. by rewrite Hce.
  - do 6 (split; [done|]). intros Hnz.
    destruct (Z.eqb_spec timer_num 0); [done|]. cbn in Hmode.
    destruct Hmode as (Hbm & Hcc & Hev & Hov).
    do 6 (split; [done|]). intros HT0 HTa.
    split; [by rewrite H16|]. split; [done|]. split; [done|].
    split; [by rewrite Hcc|]. by rewrite Hcntr.
Qed.

(** [init_establishes_invariants] for timer 1 from start-up. *)
Lemma init_establishes_invariants_witness :
  let s := Sample.power_on [] in
  0 <= 1 /\ nrf51_hal_timers Sample.cfg (Z.to_nat 1) = Some 1%nat /\
  tmr_enabled (bsptimers s 1) = 0 /\ 31190 <= 1000000 <= 16000000 /\
  hal_timer_q (bsptimers s 1) = [] /\ ~ compare_enabled (NRF_TIMER s 1) /\
  exists s',
    run (hal_timer_init Sample.cfg 1 1000000) s = Ret 0 s' /\
    queue_ok s' 1 /\ rearm_inv s' 1 /\ narrow_ok s' 1 1 /\
    EVENTS_COMPARE (NRF_TIMER s' 1) NRF_TIMER_CC_OVERFLOW = 0 /\
    overflow_enabled (NRF_TIMER s' 1).
Proof.
  cbv zeta.
  assert (H0 : 0 <= 1) by lia.
  assert (Hf : 31190 <= 1000000 <= 16000000) by lia.
  assert (Hoff : ~ compare_enabled (NRF_TIMER (Sample.power_on []) 1)).
  { unfold compare_enabled. vm_compute. discriminate. }
  split; [exact H0|]. split; [reflexivity|]. split; [reflexivity|].
  split; [exact Hf|]. split; [reflexivity|]. split; [exact Hoff|].
  destruct (init_establishes_invariants Sample.cfg 1 1000000 1
              (Sample.power_on []) H0 eq_refl eq_refl Hf eq_refl Hoff)
    as (s' & Hrun & Hq & Hinv & _ & _ & _ & _ & _ & _ & Hn).
  exists s'. split; [exact Hrun|]. split; [exact Hq|]. split; [exact Hinv|].
  destruct Hn as (_ & _ & _ & Hev & Hov & _ & Hok); [lia|].
  split; [|split; [exact Hev|exact Hov]].
  apply Hok; [vm_compute; discriminate|reflexivity].
Defined.

(** [hal_timer_init] wires a device to its own interrupt: the device gets
    the peripheral and the interrupt number of its timer, and the interrupt
    is enabled in the interrupt controller with the configured priority and
    with the handler that serves this very device in the vector table. *)
Theorem init_wires_interrupt_to_own_handler
    (cfg : syscfg) (timer_num freq_hz : Z) (n : nat) (s : state) :
  0 <= timer_num ->
  nrf51_hal_timers cfg (Z.to_nat timer_num) = Some n ->
  tmr_enabled (bsptimers s n) = 0 ->
  31190 <= freq_hz <= 16000000 ->
  let irq := TIMER0_IRQn + timer_num in
  exists s' isr,
    run (hal_timer_init cfg timer_num freq_hz) s = Ret 0 s' /\
    tmr_irq_num (bsptimers s' n) = irq /\
    tmr_reg (bsptimers s' n) = Some n /\
    irq ∈ nvic_enabled s' /\
    nvic_priority s' !! irq = Some (interrupt_priority cfg timer_num) /\
    nvic_vector s' !! irq = Some isr /\
    forall cb_exec fuel,
      vector_entry isr cb_exec fuel = hal_timer_irq_handler cb_exec fuel n.
Proof.
  intros H0 Hcfg Hen Hf. cbv zeta.
  destruct (resolve_Some cfg timer_num n s H0 Hcfg) as [_ Hlt].
  destruct (hal_timer_init_full cfg s timer_num freq_hz n)
    as (s' & Hrun & (_ & Hirq & _ & _ & Hreg & _) & _ & _
        & (Hnv & Hvec & Hprio & _) & _);
    [lia|done|done|lia|apply freq_in_range; lia|].
  exists s', timer_num. do 6 (split; [done|]). intros cb_exec fuel.
  apply nrf51_hal_timers_self in Hcfg as ->.
  assert (Hc : timer_num = 0 \/ timer_num = 1 \/ timer_num = 2) by lia.
  by destruct Hc as [-> | [-> | ->]].
Qed.

(** The same for timer 2 from start-up. *)
Lemma init_wires_interrupt_to_own_handler_witness :
  0 <= 2 /\ nrf51_hal_timers Sample.cfg (Z.to_nat 2) = Some 2%nat /\
  tmr_enabled (bsptimers (Sample.power_on []) 2) = 0 /\
  31190 <= 1000000 <= 16000000 /\
  exists s' isr,
    run (hal_timer_init Sample.cfg 2 1000000) (Sample.power_on []) = Ret 0 s' /\
    tmr_irq_num (bsptimers s' 2) = TIMER2_IRQn /\
    nvic_vector s' !! TIMER2_IRQn = Some isr /\
    forall cb_exec fuel,
      vector_entry isr cb_exec fuel = nrf51_timer2_irq_handler cb_exec fuel.
Proof.
  assert (H0 : 0 <= 2) by lia.
  assert (Hf : 31190 <= 1000000 <= 16000000) by lia.
  split; [exact H0|]. split; [reflexivity|]. split; [reflexivity|].
  split; [exact Hf|].
  destruct (init_wires_interrupt_to_own_handler Sample.cfg 2 1000000 2
              (Sample.power_on []) H0 eq_refl eq_refl Hf)
    as (s' & isr & Hrun & Hirq & _ & _ & _ & Hvec & Hh).
  exists s', isr. split; [exact Hrun|]. split; [exact Hirq|].
  split; [exact Hvec|exact Hh].
Defined.

Lemma prescaler_range div :
  1 <= div <= 512 -> 0 <= hal_timer_init_prescaler div <= 9.
Proof. intros H. by destruct (prescaler_nearest div H) as [[? _] _]. Qed.

(** After [hal_timer_init] has returned 0 with prescaler exponent [e],
    [hal_timer_get_resolution] returns the tick period in nanoseconds,
    [125 * 2 ^ e / 2] (62 for [e = 0], [125 * 2 ^ (e - 1)] above), between
    62 and 32000, and changes nothing.  On a configured device that has
    never been initialised ([tmr_freq] still 0) it divides by zero. *)
Theorem resolution_after_init
    (cfg : syscfg) (timer_num freq_hz : Z) (n : nat) (s : state) :
  0 <= timer_num ->
  nrf51_hal_timers cfg (Z.to_nat timer_num) = Some n ->
  tmr_enabled (bsptimers s n) = 0 ->
  31190 <= freq_hz <= 16000000 ->
  let e := hal_timer_init_prescaler (NRF51_MAX_TIMER_FREQ / freq_hz) in
  exists s',
    run (hal_timer_init cfg timer_num freq_hz) s = Ret 0 s' /\
    run (hal_timer_get_resolution cfg timer_num) s'
    = Ret (125 * 2 ^ e / 2) s' /\
    62 <= 125 * 2 ^ e / 2 <= 32000 /\
    (tmr_freq (bsptimers s n) = 0 ->
     run (hal_timer_get_resolution cfg timer_num) s = Undefined).
Proof.
  intros H0 Hcfg Hen Hf. cbv zeta.
  destruct (resolve_Some cfg timer_num n s H0 Hcfg) as [Hres Hlt].
  assert (Hdiv : 1 <= NRF51_MAX_TIMER_FREQ / freq_hz <= 512)
    by (apply freq_in_range; lia).
  destruct (hal_timer_init_ok cfg s timer_num freq_hz n)
    as (s' & Hrun & Hfr & _); [lia|done|done|lia|done|].
  pose proof (prescaler_range _ Hdiv) as He.
  set (e := hal_timer_init_prescaler _) in *.
  assert (Hvals : 1000000000 / (NRF51_MAX_TIMER_FREQ / 2 ^ e) = 125 * 2 ^ e / 2 /\
                  NRF51_MAX_TIMER_FREQ / 2 ^ e ≠ 0 /\
                  62 <= 125 * 2 ^ e / 2 <= 32000).
  { assert (Hc : e = 0 \/ e = 1 \/ e = 2 \/ e = 3 \/ e = 4 \/ e = 5 \/ e = 6 \/
                 e = 7 \/ e = 8 \/ e = 9) by lia.
    clearbody e.
    destruct Hc as [->|[->|[->|[->|[->|[->|[->|[->|[->| ->]]]]]]]]];
      vm_compute; repeat split; congruence. }
  destruct Hvals as (Hv & Hnz & Hb).
  exists s'. split; [done|]. split; [|split; [done|]].
  - unfold hal_timer_get_resolution.
    rewrite (bind_Ret _ _ _ _ _ (resolve_eq cfg timer_num n s' ltac:(lia) Hcfg)).
    mstep. rewrite Hfr. destruct (Z.eqb_spec (NRF51_MAX_TIMER_FREQ / 2 ^ e) 0);
      [done|]. by rewrite Hv.
  - intros Hz. unfold hal_timer_get_resolution.
    rewrite (bind_Ret _ _ _ _ _ Hres). mstep. by rewrite Hz.
Qed.

(** [resolution_after_init] for timer 0 at 1 MHz: 1000 ns. *)
Lemma resolution_after_init_witness :
  0 <= 0 /\ nrf51_hal_timers Sample.cfg (Z.to_nat 0) = Some 0%nat /\
  tmr_enabled (bsptimers (Sample.power_on []) 0) = 0 /\
  31190 <= 1000000 <= 16000000 /\
  125 * 2 ^ hal_timer_init_prescaler (NRF51_MAX_TIMER_FREQ / 1000000) / 2
  = 1000 /\
  exists s',
    run (hal_timer_init Sample.cfg 0 1000000) (Sample.power_on []) = Ret 0 s' /\
    run (hal_timer_get_resolution Sample.cfg 0) s'
    = Ret (125 * 2 ^ hal_timer_init_prescaler
                       (NRF51_MAX_TIMER_FREQ / 1000000) / 2) s'.
Proof.
  assert (H0 : 0 <= 0) by lia.
  assert (Hf : 31190 <= 1000000 <= 16000000) by lia.
  split; [exact H0|]. split; [reflexivity|]. split; [reflexivity|].
  split; [exact Hf|]. split; [vm_compute; reflexivity|].
  destruct (resolution_after_init Sample.cfg 0 1000000 0 (Sample.power_on [])
              H0 eq_refl eq_refl Hf) as (s' & Hrun & Hres & _).
  exists s'. split; [exact Hrun|exact Hres].
Defined.

(** A timer number of 3 or more, or of a timer that is not configured, is
    rejected by every function that takes one, and the machine is left as it
    was: [hal_timer_init], [hal_timer_deinit] and [hal_timer_set_cb] return
    [EINVAL], [hal_timer_get_resolution] returns 0, and [hal_timer_read] and
    [hal_timer_delay], which have no error value, fail their assertion. *)
Theorem bad_timer_number_is_rejected
    (cfg : syscfg) (timer_num freq_hz timer cb arg ticks : Z) (fuel : nat)
    (s : state) :
  0 <= timer_num ->
  nrf51_hal_timers cfg (Z.to_nat timer_num) = None ->
  run (hal_timer_init cfg timer_num freq_hz) s = Ret EINVAL s /\
  run (hal_timer_deinit cfg timer_num) s = Ret (Int EINVAL) s /\
  run (hal_timer_set_cb cfg timer_num timer cb arg) s = Ret EINVAL s /\
  run (hal_timer_get_resolution cfg timer_num) s = Ret 0 s /\
  run (hal_timer_read cfg timer_num) s = AssertFail /\
  run (hal_timer_delay cfg fuel timer_num ticks) s = AssertFail.
Proof.
  intros H0 Hcfg.
  pose proof (resolve_None cfg timer_num s H0 Hcfg) as Hres.
  assert (Hread : hal_timer_read cfg timer_num s = AssertFail).
  { unfold hal_timer_read. by rewrite (bind_Ret _ _ _ _ _ Hres). }
  unfold hal_timer_init, hal_timer_deinit, hal_timer_set_cb,
    hal_timer_get_resolution, hal_timer_delay.
  rewrite !(bind_Ret _ _ _ _ _ Hres). do 5 (split; [done|]).
  unfold mbind at 1, M_bind at 1. by rewrite Hread.
Qed.

(** [bad_timer_number_is_rejected] for timer number 3. *)
Lemma bad_timer_number_is_rejected_witness :
  0 <= 3 /\ nrf51_hal_timers Sample.cfg (Z.to_nat 3) = None /\
  run (hal_timer_read Sample.cfg 3) (Sample.power_on []) = AssertFail /\
  run (hal_timer_get_resolution Sample.cfg 3) (Sample.power_on [])
  = Ret 0 (Sample.power_on []).
Proof.
  assert (H0 : 0 <= 3) by lia.
  split; [exact H0|]. split; [reflexivity|].
  destruct (bad_timer_number_is_rejected Sample.cfg 3 0 0 0 0 0 0
              (Sample.power_on []) H0 eq_refl)
    as (_ & _ & _ & Hres & Hread & _).
  split; [exact Hread|exact Hres].
Defined.

(** ** The interrupt mask *)

Create HintDb mask.

Lemma keeps_ret {A} (a : A) : keeps_mask (mret a).
Proof. by intros s a' s' [= _ <-]. Qed.

Lemma keeps_bind {A B} (m : M A) (f : A -> M B) :
  keeps_mask m -> (forall a, keeps_mask (f a)) -> keeps_mask (m ≫= f).
Proof.
  intros Hm Hf s b s' (a & s1 & H1 & H2)%bind_Ret_inv.
  rewrite (Hf _ _ _ _ H2). eauto.
Qed.

Lemma keeps_fmap {A B} (g : A -> B) (m : M A) :
  keeps_mask m -> keeps_mask (g <$> m).
Proof. intros Hm s b s' (a & H & _)%fmap_Ret_inv. eauto. Qed.

Lemma restores_bind {A B} b (m : M A) (f : A -> M B) :
  keeps_mask m -> (forall a, restores_mask b (f a)) ->
  restores_mask b (m ≫= f).
Proof.
  intros Hm Hf s x s' Hs (a & s1 & H1 & H2)%bind_Ret_inv.
  apply (Hf _ _ _ _) in H2; [done|]. rewrite (Hm _ _ _ H1). done.
Qed.

Lemma restores_enable {B} b (f : unit -> M B) :
  (forall u, keeps_mask (f u)) ->
  restores_mask b (__HAL_ENABLE_INTERRUPTS b ≫= f).
Proof.
  intros Hf s x s' Hs (a & s1 & H1 & H2)%bind_Ret_inv.
  rewrite (Hf _ _ _ _ H2). destruct b; injection H1 as _ <-; done.
Qed.

Lemma keeps_critical {B} (f : bool -> M B) :
  (forall ctx, restores_mask ctx (f ctx)) ->
  keeps_mask (__HAL_DISABLE_INTERRUPTS ≫= f).
Proof.
  intros Hf s x s' (a & s1 & [= <- <-] & H2)%bind_Ret_inv.
  by apply Hf in H2.
Qed.

Lemma keeps_modify (f : state -> state) :
  (forall s, PRIMASK (f s) = PRIMASK s) -> keeps_mask (modify f).
Proof. intros Hf s a s' [= _ <-]. apply Hf. Qed.

Lemma keeps_stuck {A} (m : M A) :
  (forall s a s', m s ≠ Ret a s') -> keeps_mask m.
Proof. intros H s a s' Hr. by apply H in Hr. Qed.

Lemma keeps_reg_write hw f : keeps_mask (reg_write hw f).
Proof. destruct hw; [by apply keeps_modify|by apply keeps_stuck]. Qed.

Lemma keeps_write_INTENCLR hw v : keeps_mask (write_INTENCLR hw v).
Proof. apply keeps_reg_write. Qed.
Lemma keeps_write_INTENSET hw v : keeps_mask (write_INTENSET hw v).
Proof. apply keeps_reg_write. Qed.
Lemma keeps_write_CC hw i v : keeps_mask (write_CC hw i v).
Proof. apply keeps_reg_write. Qed.
Lemma keeps_write_EVENTS_COMPARE hw i v :
  keeps_mask (write_EVENTS_COMPARE hw i v).
Proof. apply keeps_reg_write. Qed.
Lemma keeps_write_TASKS_STOP hw : keeps_mask (write_TASKS_STOP hw).
Proof. apply keeps_reg_write. Qed.
Lemma keeps_write_TASKS_START hw : keeps_mask (write_TASKS_START hw).
Proof. apply keeps_reg_write. Qed.

Lemma keeps_reg_read hw : keeps_mask (reg_read hw).
Proof. destruct hw; [by intros s a s' [= _ <-]|by apply keeps_stuck]. Qed.

Lemma keeps_next_elapse : keeps_mask next_elapse.
Proof. intros s a s'. unfold next_elapse. destruct (elapse s); by intros [= _ <-]. Qed.

Lemma keeps_get : keeps_mask get.
Proof. by intros s a s' [= _ <-]. Qed.

Lemma keeps_get_bsptimer n : keeps_mask (get_bsptimer n).
Proof. by intros s a s' [= _ <-]. Qed.

Lemma keeps_deref timer : keeps_mask (deref timer).
Proof. intros s a s' H. by apply deref_inv in H as (-> & _). Qed.

Lemma keeps_deref_bsp p : keeps_mask (deref_bsp p).
Proof. destruct p; [apply keeps_ret|by apply keeps_stuck]. Qed.

#[export] Hint Resolve keeps_ret keeps_reg_write keeps_reg_read
  keeps_write_INTENCLR keeps_write_INTENSET keeps_write_CC
  keeps_write_EVENTS_COMPARE keeps_write_TASKS_STOP keeps_write_TASKS_START
  keeps_next_elapse keeps_get keeps_get_bsptimer keeps_deref keeps_deref_bsp
  : mask.

Ltac mask_step :=
  first
    [ assumption
    | solve [auto with mask]
    | progress cbv zeta
    | apply keeps_critical; intros ?
    | apply restores_enable; intros ?
    | apply keeps_fmap
    | apply keeps_bind; [|intros ?]
    | apply restores_bind; [|intros ?]
    | apply keeps_modify; reflexivity
    | apply keeps_stuck; discriminate
    | match goal with
      | |- keeps_mask (if ?b then _ else _) => destruct b
      | |- keeps_mask (match ?x with _ => _ end) => destruct x
      | |- keeps_mask (let '(_, _) := ?x in _) => destruct x
      | |- restores_mask _ (if ?b then _ else _) => destruct b
      | |- restores_mask _ (match ?x with _ => _ end) => destruct x
      | |- restores_mask _ (let '(_, _) := ?x in _) => destruct x
      end ].

Ltac mask := intros; repeat mask_step.

Lemma keeps_write_TASKS_CAPTURE hw i : keeps_mask (write_TASKS_CAPTURE hw i).
Proof. unfold write_TASKS_CAPTURE. mask. Qed.
#[export] Hint Resolve keeps_write_TASKS_CAPTURE : mask.

Lemma keeps_upd_bsptimer n f : keeps_mask (upd_bsptimer n f).
Proof. unfold upd_bsptimer. mask. Qed.

Lemma keeps_upd_timer timer f : keeps_mask (upd_timer timer f).
Proof. unfold upd_timer. mask. Qed.

Lemma keeps_NVIC_SetPendingIRQ irq : keeps_mask (NVIC_SetPendingIRQ irq).
Proof. unfold NVIC_SetPendingIRQ. mask. Qed.
#[export] Hint Resolve keeps_upd_bsptimer keeps_upd_timer
  keeps_NVIC_SetPendingIRQ : mask.

Lemma keeps_nrf_read_timer_cntr hw : keeps_mask (nrf_read_timer_cntr hw).
Proof. unfold nrf_read_timer_cntr. mask. Qed.
#[export] Hint Resolve keeps_nrf_read_timer_cntr : mask.

Lemma keeps_nrf_timer_set_ocmp n e : keeps_mask (nrf_timer_set_ocmp n e).
Proof.
  unfold nrf_timer_set_ocmp. mask.
Qed.

Lemma keeps_nrf_timer_disable_ocmp hw : keeps_mask (nrf_timer_disable_ocmp hw).
Proof. unfold nrf_timer_disable_ocmp. mask. Qed.
#[export] Hint Resolve keeps_nrf_timer_set_ocmp keeps_nrf_timer_disable_ocmp
  : mask.

Lemma keeps_hal_timer_read_bsptimer n : keeps_mask (hal_timer_read_bsptimer n).
Proof. unfold hal_timer_read_bsptimer. mask. Qed.
#[export] Hint Resolve keeps_hal_timer_read_bsptimer : mask.

Lemma keeps_hal_timer_start_at timer tick :
  keeps_mask (hal_timer_start_at timer tick).
Proof. unfold hal_timer_start_at. mask. Qed.
#[export] Hint Resolve keeps_hal_timer_start_at : mask.

Section Mask.

Variable cfg : syscfg.
Variable cb_exec : Z -> Z -> M unit.
Hypothesis cb_keeps : forall f a, keeps_mask (cb_exec f a).

Lemma keeps_chk_queue_loop n : forall fuel,
  keeps_mask (hal_timer_chk_queue_loop cb_exec fuel n).
Proof.
  induction fuel as [|fuel IH]; cbn [hal_timer_chk_queue_loop]; mask.
Qed.

Lemma keeps_hal_timer_chk_queue fuel n :
  keeps_mask (hal_timer_chk_queue cb_exec fuel n).
Proof.
  pose proof (keeps_chk_queue_loop n fuel).
  unfold hal_timer_chk_queue. mask.
Qed.

Lemma keeps_hal_timer_irq_handler fuel n :
  keeps_mask (hal_timer_irq_handler cb_exec fuel n).
Proof.
  pose proof (keeps_hal_timer_chk_queue fuel n).
  unfold hal_timer_irq_handler. mask.
Qed.

Lemma keeps_resolve n : keeps_mask (NRF51_HAL_TIMER_RESOLVE cfg n).
Proof. unfold NRF51_HAL_TIMER_RESOLVE. mask. Qed.

Lemma keeps_hal_timer_init n f : keeps_mask (hal_timer_init cfg n f).
Proof.
  pose proof (keeps_resolve n).
  unfold hal_timer_init. mask.
Qed.

Lemma keeps_hal_timer_deinit n : keeps_mask (hal_timer_deinit cfg n).
Proof.
  pose proof (keeps_resolve n).
  unfold hal_timer_deinit. mask.
Qed.

Lemma keeps_hal_timer_read n : keeps_mask (hal_timer_read cfg n).
Proof. pose proof (keeps_resolve n). unfold hal_timer_read. mask. Qed.

Lemma keeps_hal_timer_delay_loop n until : forall fuel,
  keeps_mask (hal_timer_delay_loop cfg fuel n until).
Proof.
  pose proof (keeps_hal_timer_read n).
  induction fuel as [|fuel IH]; cbn [hal_timer_delay_loop]; mask.
Qed.

(** Every entry point of the driver returns with the interrupt mask it was
    entered with, as long as the callbacks do: each critical section
    restores the mask it saved, so the driver neither leaves interrupts
    disabled nor enables them for a caller that had them disabled. *)
Theorem interrupt_mask_is_restored :
  (forall n f, keeps_mask (hal_timer_init cfg n f)) /\
  (forall n, keeps_mask (hal_timer_deinit cfg n)) /\
  (forall n, keeps_mask (hal_timer_get_resolution cfg n)) /\
  (forall n, keeps_mask (hal_timer_read cfg n)) /\
  (forall fuel n ticks, keeps_mask (hal_timer_delay cfg fuel n ticks)) /\
  (forall n timer f a, keeps_mask (hal_timer_set_cb cfg n timer f a)) /\
  (forall timer ticks, keeps_mask (hal_timer_start timer ticks)) /\
  (forall timer tick, keeps_mask (hal_timer_start_at timer tick)) /\
  (forall timer, keeps_mask (hal_timer_stop timer)) /\
  (forall fuel n, keeps_mask (hal_timer_irq_handler cb_exec fuel n)).
Proof.
  repeat split.
  - apply keeps_hal_timer_init.
  - apply keeps_hal_timer_deinit.
  - intros n. pose proof (keeps_resolve n). unfold hal_timer_get_resolution. mask.
  - apply keeps_hal_timer_read.
  - intros fuel n ticks. pose proof (keeps_hal_timer_read n).
    pose proof (keeps_hal_timer_delay_loop n).
    unfold hal_timer_delay. mask.
  - intros n timer f a. pose proof (keeps_resolve n).
    unfold hal_timer_set_cb. mask.
  - intros timer ticks. unfold hal_timer_start. mask.
  - apply keeps_hal_timer_start_at.
  - intros timer. unfold hal_timer_stop. mask.
  - apply keeps_hal_timer_irq_handler.
Qed.

End Mask.

(** [interrupt_mask_is_restored] with callbacks that do nothing, at the
    interrupt handler of device 0 on [Sample.pending]. *)
Lemma interrupt_mask_is_restored_witness :
  (forall f a, keeps_mask (Sample.cb_none f a)) /\
  forall ds s',
    run (hal_timer_irq_handler Sample.cb_none 3 0) Sample.pending = Ret ds s' ->
    PRIMASK s' = PRIMASK Sample.pending.
Proof.
  assert (Hcb : forall f a, keeps_mask (Sample.cb_none f a)).
  { intros f a s x s' H. injection H as _ <-. reflexivity. }
  split; [exact Hcb|].
  destruct (interrupt_mask_is_restored Sample.cfg Sample.cb_none Hcb)
    as (_ & _ & _ & _ & _ & _ & _ & _ & _ & Hirq).
  intros ds s'. apply Hirq.
Defined.

(** ** No expiry is missed on a 32-bit device *)

Lemma int32_t_neg z : int32_t z < 0 <-> 2 ^ 31 <= z mod 2 ^ 32.
Proof.
  unfold int32_t. cbv zeta.
  pose proof (Z.mod_pos_bound z (2 ^ 32) ltac:(lia)).
  destruct (Z.ltb_spec (z mod 2 ^ 32) (2 ^ 31)); lia.
Qed.

(** A counter of 32 bits that runs on does not pass its compare value
    unnoticed. *)
Lemma advance_keeps_wake d r e :
  0 <= d -> Hw.width r = 32 -> CC r NRF_TIMER_CC_INT = e ->
  EVENTS_COMPARE r NRF_TIMER_CC_INT ≠ 0 \/ int32_t (COUNTER r - e) < 0 ->
  EVENTS_COMPARE (Hw.advance d r) NRF_TIMER_CC_INT ≠ 0 \/
  int32_t (COUNTER (Hw.advance d r) - e) < 0.
Proof.
  intros Hd Hw He H. unfold Hw.advance. destruct (RUNNING r); [|done].
  cbn. rewrite Hw, He. unfold Hw.reaches.
  destruct (Z.ltb_spec ((e - COUNTER r - 1) mod 2 ^ 32) d) as [Hlt|Hge];
    [by left|].
  destruct H as [H|H]; [by left|]. right.
  apply int32_t_neg in H. apply int32_t_neg.
  rewrite Zminus_mod_idemp_l.
  set (c := COUNTER r) in *.
  pose proof (Z.div_mod (c - e) (2 ^ 32) ltac:(lia)) as E.
  pose proof (Z.mod_pos_bound (c - e) (2 ^ 32) ltac:(lia)) as Hb.
  set (w := (c - e) mod 2 ^ 32) in *. set (k := (c - e) / 2 ^ 32) in *.
  assert (H1 : (e - c - 1) mod 2 ^ 32 = 2 ^ 32 - 1 - w).
  { replace (e - c - 1) with ((2 ^ 32 - 1 - w) + (- k - 1) * 2 ^ 32) by lia.
    rewrite Z.mod_add by lia. apply Z.mod_small. lia. }
  rewrite H1 in Hge.
  replace (c + d - e) with ((w + d) + k * 2 ^ 32) by lia.
  rewrite Z.mod_add by lia. rewrite Z.mod_small by lia. lia.
Qed.

Lemma width_captured hw s : Hw.width (captured hw s) = Hw.width (NRF_TIMER s hw).
Proof. unfold captured, Hw.capture, Hw.advance, Hw.width. by destruct (RUNNING _). Qed.

Lemma elapse_nonneg (s : state) :
  0 <= match elapse s with [] => 0 | d :: _ => Z.of_N d end.
Proof. destruct (elapse s); lia. Qed.

Lemma captured_keeps_wake hw s e :
  Hw.width (NRF_TIMER s hw) = 32 ->
  CC (NRF_TIMER s hw) NRF_TIMER_CC_INT = e ->
  EVENTS_COMPARE (NRF_TIMER s hw) NRF_TIMER_CC_INT ≠ 0 \/
  int32_t (COUNTER (NRF_TIMER s hw) - e) < 0 ->
  EVENTS_COMPARE (captured hw s) NRF_TIMER_CC_INT ≠ 0 \/
  int32_t (COUNTER (captured hw s) - e) < 0.
Proof.
  intros Hw He H. unfold captured, Hw.capture.
  apply (advance_keeps_wake _ _ _ (elapse_nonneg s) Hw He H).
Qed.

(** What [nrf_timer_set_ocmp] leaves on a 32-bit device. *)
Lemma set_ocmp_wide_wake n hw e s :
  tmr_reg (bsptimers s n) = Some hw ->
  tmr_16bit (bsptimers s n) = 0 ->
  exists s',
    nrf_timer_set_ocmp n e s = Ret tt s' /\
    bsptimers s' = bsptimers s /\ timers s' = timers s /\
    PRIMASK s' = PRIMASK s /\
    CC (NRF_TIMER s' hw) NRF_TIMER_CC_INT = e /\
    compare_enabled (NRF_TIMER s' hw) /\
    wake_pending s' n hw e.
Proof.
  intros Hreg H16. unfold nrf_timer_set_ocmp, wake_pending, compare_enabled.
  mstep. rewrite Hreg, H16. change (nonzero 0) with false. mrun.
  rewrite nrf_read_timer_cntr_eq.
  match goal with |- context [captured hw ?x] => set (s1 := x) end.
  assert (Hcc : CC (captured hw s1) NRF_TIMER_CC_INT = e).
  { rewrite CC_captured by done. unfold s1. cbn. rewrite ?upd_same. cbn.
    rewrite ?upd_same. done. }
  assert (Hin : Z.testbit (INTEN (captured hw s1)) (16 + Z.of_nat NRF_TIMER_CC_INT)
                = true).
  { rewrite INTEN_captured. unfold s1. cbn. rewrite upd_same. cbn.
    apply intenset_enabled. }
  assert (Hs1 : bsptimers s1 = bsptimers s /\ timers s1 = timers s /\
                PRIMASK s1 = PRIMASK s /\ nvic_pending s1 = nvic_pending s)
    by (unfold s1; cbn; repeat split; reflexivity).
  destruct Hs1 as (Hb1 & Ht1 & Hp1 & Hn1). clearbody s1.
  destruct (Z.geb_spec (int32_t (COUNTER (captured hw s1) - e)) 0) as [Hge|Hlt];
    (eexists; split; [reflexivity|]); cbn; rewrite ?upd_same.
  - do 5 (split; [done|]). left. rewrite Hb1.
    apply elem_of_union_l, elem_of_singleton_2. reflexivity.
  - do 5 (split; [done|]). right. right. done.
Qed.

Lemma wake_inv_ext s s' n :
  bsptimers s' = bsptimers s -> timers s' = timers s ->
  NRF_TIMER s' = NRF_TIMER s -> nvic_pending s' = nvic_pending s ->
  wake_inv s n -> wake_inv s' n.
Proof. unfold wake_inv, wake_pending. by intros -> -> -> ->. Qed.

(** The end of a critical section. *)
Lemma critical_section_end {A} (a : A) ctx s :
  exists s', (__HAL_ENABLE_INTERRUPTS ctx;; mret a) s = Ret a s' /\
    bsptimers s' = bsptimers s /\ timers s' = timers s /\
    NRF_TIMER s' = NRF_TIMER s /\ nvic_pending s' = nvic_pending s /\
    elapse s' = elapse s.
Proof. destruct ctx; eexists; (split; [reflexivity|]); done. Qed.

(** [hal_timer_start_at] up to the point where the timer is linked. *)
Lemma hal_timer_start_at_tail s n timer tick :
  queue_ok s n -> startable s n timer ->
  exists q1 q2 t s4,
    timers s !! timer = Some t /\
    hal_timer_q (bsptimers s n) = q1 ++ q2 /\
    (timer ∉ q1 ++ q2) /\
    bsptimers s4
    = upd (bsptimers s) n
        (with_hal_timer_q (q1 ++ timer :: q2) (bsptimers s n)) /\
    timers s4
    = <[timer:=with_link_tqe_prev true (with_expiry tick t)]> (timers s) /\
    NRF_TIMER s4 = NRF_TIMER s /\ nvic_pending s4 = nvic_pending s /\
    elapse s4 = elapse s /\
    match q2 with
    | [] => True
    | y :: _ => exists e, expiry_of s y = Some e /\ int32_t (tick - e) < 0
    end /\
    hal_timer_start_at timer tick s =
    ((match q1 with
      | [] => nrf_timer_set_ocmp n tick
      | _ => mret tt
      end);;
     __HAL_ENABLE_INTERRUPTS (PRIMASK s);; mret 0) s4.
Proof.
  intros Hq Hst.
  pose proof (startable_not_queued _ _ _ Hq Hst) as Hnin.
  destruct Hst as (H0 & t & Ht & Hbsp & Hl & Hcb).
  set (s1 := set_timers (<[timer:=with_expiry tick t]> (timers s)) s).
  set (s2 := set_PRIMASK true s1).
  destruct (tailq_insert_split (expiry_of s) timer tick
              (hal_timer_q (bsptimers s n)))
    as (q1 & q2 & Hsplit & Hins & Hq1 & Hq2).
  { intros x Hx. destruct (queue_ok_entry _ _ _ Hq Hx) as (? & tx & Htx & _).
    rewrite (expiry_of_Some _ _ _ Htx); eauto. }
  assert (Hins2 :
    match hal_timer_q (bsptimers s2 n) with
    | [] => Some [timer]
    | _ => tailq_insert (expiry_of s2) timer tick (hal_timer_q (bsptimers s2 n))
    end = Some (q1 ++ timer :: q2)).
  { rewrite <- Hins. cbn [s2 s1 bsptimers set_PRIMASK set_timers].
    transitivity (tailq_insert (expiry_of s2) timer tick
                    (hal_timer_q (bsptimers s n))).
    { by destruct (hal_timer_q (bsptimers s n)). }
    apply tailq_insert_ext. intros x Hx. unfold expiry_of. cbn.
    rewrite lookup_insert_ne; [done|]. intros ->. done. }
  set (s3 := set_bsptimers
    (upd (bsptimers s2) n (with_hal_timer_q (q1 ++ timer :: q2) (bsptimers s2 n)))
    s2).
  set (t' := with_link_tqe_prev true (with_expiry tick t)).
  set (s4 := set_timers (<[timer:=t']> (timers s3)) s3).
  assert (Hrun : hal_timer_start_at timer tick s =
    ((if is_first (q1 ++ timer :: q2) timer then
        t ← deref timer; nrf_timer_set_ocmp n (expiry t)
      else mret tt);;
     __HAL_ENABLE_INTERRUPTS (PRIMASK s);; mret 0) s4).
  { unfold hal_timer_start_at. destruct (Z.eqb_spec timer 0); [done|].
    rewrite (bind_Ret _ _ _ _ _ (deref_eq _ _ _ Ht H0)).
    rewrite Hl. destruct (Z.eqb_spec (cb_func t) 0); [done|]. cbn [orb].
    rewrite Hbsp. mstep.
    rewrite (bind_Ret _ _ _ _ _ (upd_timer_eq _ (with_expiry tick) _ _ Ht H0)).
    fold s1. mstep. fold s2. mstep. mstep. rewrite Hins2.
    erewrite bind_Ret; [| erewrite bind_Ret by reflexivity;
      apply upd_timer_eq; [apply lookup_insert_eq | done] ].
    cbn [timers set_bsptimers]. fold s3.
    change (set_timers _ s3) with
      (set_timers (<[timer:=t']> (<[timer:=with_expiry tick t]> (timers s))) s3).
    mstep. unfold s4, s3, s2, s1.
    cbn [bsptimers timers PRIMASK set_bsptimers set_timers set_PRIMASK].
    rewrite upd_same. cbn [hal_timer_q with_hal_timer_q]. reflexivity. }
  assert (Ht4 : timers s4 = <[timer:=t']> (timers s)).
  { unfold s4, s3, s2, s1. cbn. apply insert_insert_eq. }
  exists q1, q2, t, s4. split; [done|]. split; [done|].
  split; [by rewrite <- Hsplit|]. split; [reflexivity|]. split; [done|].
  split; [reflexivity|]. split; [reflexivity|]. split; [reflexivity|].
  split; [exact Hq2|].
  rewrite Hrun. destruct q1 as [|y q1].
  - cbn [app is_first]. rewrite Z.eqb_refl.
    assert (Hd : deref timer s4 = Ret t' s4).
    { apply deref_eq; [|done]. rewrite Ht4. apply lookup_insert_eq. }
    apply bind_run_eq. by rewrite (bind_Ret _ _ _ _ _ Hd).
  - cbn [app is_first]. destruct (Z.eqb_spec y timer) as [->|]; [|done].
    exfalso. apply Hnin. rewrite Hsplit. left.
Qed.

Lemma hal_timer_start_at_wake s n timer tick :
  queue_ok s n -> wake_inv s n -> startable s n timer ->
  exists s', hal_timer_start_at timer tick s = Ret 0 s' /\ wake_inv s' n.
Proof.
  intros Hq (hw & Hreg & H16 & Hw) Hst.
  destruct (hal_timer_start_at_tail s n timer tick Hq Hst)
    as (q1 & q2 & t & s4 & Ht & Hsplit & Hnin & Hb4 & Ht4 & Hr4 & Hn4 & _ & _
        & ->).
  assert (Hbn : bsptimers s4 n
                = with_hal_timer_q (q1 ++ timer :: q2) (bsptimers s n)).
  { by rewrite Hb4, upd_same. }
  destruct q1 as [|y q1].
  - destruct (set_ocmp_wide_wake n hw tick s4)
      as (s5 & Hrun & Hb5 & Ht5 & _ & Hcc & Hen & Hwp);
      [by rewrite Hbn|by rewrite Hbn|].
    rewrite (bind_Ret _ _ _ _ _ Hrun).
    destruct (critical_section_end 0 (PRIMASK s) s5)
      as (s' & -> & Hb' & Ht' & Hr' & Hn' & _).
    exists s'. split; [done|].
    apply (wake_inv_ext s5); [done..|].
    exists hw. rewrite Hb5, Hbn. split; [done|]. split; [done|].
    cbn. rewrite Ht5, Ht4, lookup_insert_eq. eexists. split; [done|].
    split; [done|]. split; [done|]. done.
  - mstep.
    destruct (critical_section_end 0 (PRIMASK s) s4)
      as (s' & -> & Hb' & Ht' & Hr' & Hn' & _).
    exists s'. split; [done|].
    apply (wake_inv_ext s4); [done..|].
    exists hw. rewrite Hbn. split; [done|]. split; [done|]. cbn.
    rewrite Hsplit in Hw. cbn in Hw.
    destruct Hw as (ty & Hty & Hcc & Hen & Hwp). exists ty.
    rewrite Ht4, Hr4. split; [|split; [done|split; [done|]]].
    + rewrite lookup_insert_ne; [done|]. intros <-. apply Hnin. left.
    + unfold wake_pending in *. by rewrite Hr4, Hn4, Hbn.
Qed.

(** [hal_timer_stop] up to the point where the timer is unlinked. *)
Lemma hal_timer_stop_tail s n timer :
  queue_ok s n -> timer ∈ hal_timer_q (bsptimers s n) ->
  let q := hal_timer_q (bsptimers s n) in
  exists t s3,
    timers s !! timer = Some t /\
    bsptimers s3
    = upd (bsptimers s) n
        (with_hal_timer_q (TAILQ_REMOVE q timer) (bsptimers s n)) /\
    timers s3 = <[timer:=with_link_tqe_prev false t]> (timers s) /\
    NRF_TIMER s3 = NRF_TIMER s /\ nvic_pending s3 = nvic_pending s /\
    elapse s3 = elapse s /\
    hal_timer_stop timer s =
    ((if is_first q timer then
        match head (tail q) with
        | Some e =>
            te ← deref e;
            eb ← deref_bsp (bsp_timer te);
            nrf_timer_set_ocmp eb (expiry te)
        | None =>
            b ← get_bsptimer n;
            nrf_timer_disable_ocmp (tmr_reg b)
        end
      else mret tt);;
     __HAL_ENABLE_INTERRUPTS (PRIMASK s);; mret 0) s3.
Proof.
  intros Hq Hin. cbv zeta.
  destruct (queue_ok_entry _ _ _ Hq Hin) as (H0 & t & Ht & Hbsp & Hl & Hcb).
  set (q := hal_timer_q (bsptimers s n)).
  set (s1 := set_PRIMASK true s).
  set (s2 := set_bsptimers
    (upd (bsptimers s1) n (with_hal_timer_q (TAILQ_REMOVE q timer) (bsptimers s1 n)))
    s1).
  set (s3 := set_timers (<[timer:=with_link_tqe_prev false t]> (timers s2)) s2).
  exists t, s3. do 6 (split; [done|]).
  unfold hal_timer_stop. destruct (Z.eqb_spec timer 0); [done|].
  rewrite (bind_Ret _ _ _ _ _ (deref_eq _ _ _ Ht H0)). mstep. fold s1.
  rewrite Hl, Hbsp. apply bind_run_eq.
  mstep. mstep. cbn zeta. mstep.
  erewrite bind_Ret; [|by apply upd_timer_eq]. reflexivity.
Qed.

Lemma hal_timer_stop_wake s n timer :
  queue_ok s n -> wake_inv s n -> timer ∈ hal_timer_q (bsptimers s n) ->
  exists s', run (hal_timer_stop timer) s = Ret 0 s' /\ wake_inv s' n.
Proof.
  intros Hq (hw & Hreg & H16 & Hw) Hin.
  destruct (hal_timer_stop_tail s n timer Hq Hin)
    as (t & s3 & Ht & Hb3 & Ht3 & Hr3 & Hn3 & _ & ->).
  set (q := hal_timer_q (bsptimers s n)) in *.
  assert (Hbn : bsptimers s3 n
                = with_hal_timer_q (TAILQ_REMOVE q timer) (bsptimers s n)).
  { by rewrite Hb3, upd_same. }
  assert (Hnd : NoDup q) by apply Hq.
  destruct q as [|first rest] eqn:Eq; [by apply elem_of_nil in Hin|].
  cbn [is_first tail]. destruct (Z.eqb_spec first timer) as [->|Hne].
  - rewrite TAILQ_REMOVE_head in Hbn. apply NoDup_cons in Hnd as [Hnf _].
    destruct rest as [|e rest]; cbn [head].
    + assert (Hd : (b ← get_bsptimer n; nrf_timer_disable_ocmp (tmr_reg b)) s3
                   = Ret tt (set_NRF_TIMER
                       (upd (NRF_TIMER s3) hw
                          (with_INTEN (Z.ldiff (INTEN (NRF_TIMER s3 hw))
                                         (NRF_TIMER_INT_MASK NRF_TIMER_CC_INT))
                             (NRF_TIMER s3 hw))) s3)).
      { mstep. rewrite Hbn. cbn. by rewrite Hreg. }
      rewrite (bind_Ret _ _ _ _ _ Hd).
      match goal with |- context [_ ?x = Ret 0 _] => set (s4 := x) end.
      destruct (critical_section_end 0 (PRIMASK s) s4)
        as (s' & -> & Hb' & Ht' & Hr' & Hn' & _).
      exists s'. split; [done|]. exists hw. rewrite Hb'.
      change (bsptimers s4) with (bsptimers s3). by rewrite Hbn.
    + destruct (queue_ok_entry s n e Hq) as (He0 & te & Hte & Hbe & _).
      { fold q. rewrite Eq. right. left. }
      assert (Het : e ≠ timer).
      { intros ->. apply Hnf. left. }
      assert (Hd : deref e s3 = Ret te s3).
      { apply deref_eq; [|done]. rewrite Ht3. by rewrite lookup_insert_ne. }
      destruct (set_ocmp_wide_wake n hw (expiry te) s3)
        as (s4 & Hrun & Hb4 & Ht4 & _ & Hcc & Hen & Hwp);
        [by rewrite Hbn|by rewrite Hbn|].
      erewrite bind_Ret;
        [| erewrite bind_Ret by exact Hd; rewrite Hbe; mstep; exact Hrun].
      destruct (critical_section_end 0 (PRIMASK s) s4)
        as (s' & -> & Hb' & Ht' & Hr' & Hn' & _).
      exists s'. split; [done|].
      apply (wake_inv_ext s4); [done..|].
      exists hw. rewrite Hb4, Hbn. split; [done|]. split; [done|]. cbn.
      exists te. rewrite Ht4, Ht3, lookup_insert_ne by done. done.
  - mstep.
    destruct (critical_section_end 0 (PRIMASK s) s3)
      as (s' & -> & Hb' & Ht' & Hr' & Hn' & _).
    exists s'. split; [done|].
    apply (wake_inv_ext s3); [done..|].
    exists hw. rewrite Hbn. split; [done|]. split; [done|].
    rewrite (TAILQ_REMOVE_not_first _ _ _ Hne). cbn.
    cbn in Hw. destruct Hw as (ty & Hty & Hcc & Hen & Hwp). exists ty.
    rewrite Ht3, Hr3. split; [|split; [done|split; [done|]]].
    + by rewrite lookup_insert_ne.
    + unfold wake_pending in *. by rewrite Hr3, Hn3, Hbn.
Qed.

Lemma hal_timer_chk_queue_wake cb_exec fuel n s ds s' :
  run (hal_timer_chk_queue cb_exec fuel n) s = Ret ds s' ->
  tmr_16bit (bsptimers s' n) = 0 ->
  wake_inv s' n.
Proof.
  unfold hal_timer_chk_queue. intros H H16.
  apply bind_Ret_inv in H as (ctx & s0 & [= <- <-] & H).
  apply bind_Ret_inv in H as (ds0 & s1 & Hloop & H).
  apply bind_Ret_inv in H as (b & s1' & [= <- <-] & H).
  apply bind_Ret_inv in H as ([] & s2 & Harm & H).
  destruct (critical_section_end ds0 (PRIMASK s) s2)
    as (s3 & Hs3 & Hb3 & Ht3 & Hr3 & Hn3 & _).
  rewrite Hs3 in H. injection H as -> ->.
  apply (wake_inv_ext s2); [done..|]. rewrite Hb3 in H16.
  destruct (tmr_reg (bsptimers s1 n)) as [hw|] eqn:Hreg.
  - destruct (hal_timer_q (bsptimers s1 n)) as [|timer q'] eqn:Eq.
    + rewrite disable_ocmp_eq in Harm. injection Harm as <-.
      exists hw. cbn in *. by rewrite Hreg, Eq.
    + apply bind_Ret_inv in Harm as (t & s1' & Hd & Harm).
      apply deref_inv in Hd as (-> & Ht & H0).
      assert (H16' : tmr_16bit (bsptimers s1 n) = 0).
      { destruct (set_ocmp_armed n (expiry t) s1 hw Hreg)
          as (s2' & Hs2 & Hb2 & _).
        rewrite Hs2 in Harm. injection Harm as <-. by rewrite <- Hb2. }
      destruct (set_ocmp_wide_wake n hw (expiry t) s1 Hreg H16')
        as (s2' & Hs2 & Hb2 & Ht2 & _ & Hcc & Hen & Hwp).
      rewrite Hs2 in Harm. injection Harm as <-.
      exists hw. rewrite Hb2, Ht2, Hreg, Eq. split; [done|]. split; [done|].
      by exists t.
  - destruct (hal_timer_q (bsptimers s1 n)) as [|timer q'] eqn:Eq; [done|].
    apply bind_Ret_inv in Harm as (t & s1' & Hd & Harm).
    apply deref_inv in Hd as (-> & Ht & H0).
    by rewrite set_ocmp_None in Harm.
Qed.

Lemma hal_timer_read_bsptimer_wake s n hw :
  wake_inv s n -> tmr_reg (bsptimers s n) = Some hw ->
  Hw.width (NRF_TIMER s hw) = 32 ->
  exists v s',
    run (hal_timer_read_bsptimer n) s = Ret v s' /\
    v = COUNTER (NRF_TIMER s' hw) /\
    wake_inv s' n /\ Hw.width (NRF_TIMER s' hw) = 32.
Proof.
  intros (hw' & Hreg' & H16 & Hw) Hreg Hwd.
  rewrite Hreg in Hreg'. injection Hreg' as <-.
  unfold hal_timer_read_bsptimer. mstep. rewrite H16, Hreg.
  change (nonzero 0) with false. cbv iota.
  rewrite nrf_read_timer_cntr_eq. eexists _, _. split; [reflexivity|].
  cbn. rewrite upd_same. split; [done|].
  split; [|by rewrite width_captured].
  exists hw. cbn. rewrite upd_same. split; [done|]. split; [done|].
  destruct (hal_timer_q (bsptimers s n)) as [|first rest]; [done|].
  destruct Hw as (t & Ht & Hcc & Hen & Hwp). exists t. split; [done|].
  split; [by rewrite CC_captured|].
  split; [unfold compare_enabled; by rewrite INTEN_captured|].
  unfold wake_pending in *. cbn. rewrite upd_same.
  destruct Hwp as [Hp|Hev]; [by left|]. right.
  by apply captured_keeps_wake.
Qed.

(** On a 32-bit device whose compare channel stands for the head of the
    queue without the expiry being missed ([wake_inv]: the compare register
    holds the expiry of the head, the compare interrupt is enabled, and the
    interrupt is pending, or the compare event is flagged, or the counter is
    still before the expiry), that stays so: [hal_timer_start_at] and
    [hal_timer_stop] return 0 in such a state, a read of the counter keeps
    it while the counter runs on, and every pass of [hal_timer_chk_queue]
    ends in such a state, whatever the callbacks did.  An expiry that has
    been reached when the compare register is set makes the interrupt
    pending. *)
Theorem no_wakeup_is_lost_on_32bit_device
    (cb_exec : Z -> Z -> M unit) (s : state) (n hw : nat) (timer tick : Z)
    (fuel : nat) :
  queue_ok s n -> wake_inv s n ->
  tmr_reg (bsptimers s n) = Some hw -> Hw.width (NRF_TIMER s hw) = 32 ->
  (startable s n timer ->
   exists s', run (hal_timer_start_at timer tick) s = Ret 0 s' /\
              wake_inv s' n) /\
  (timer ∈ hal_timer_q (bsptimers s n) ->
   exists s', run (hal_timer_stop timer) s = Ret 0 s' /\ wake_inv s' n) /\
  (exists v s',
     run (hal_timer_read_bsptimer n) s = Ret v s' /\
     v = COUNTER (NRF_TIMER s' hw) /\
     wake_inv s' n /\ Hw.width (NRF_TIMER s' hw) = 32) /\
  (forall ds s', run (hal_timer_chk_queue cb_exec fuel n) s = Ret ds s' ->
     tmr_16bit (bsptimers s' n) = 0 -> wake_inv s' n).
Proof.
  intros Hq Hw Hreg Hwd. split; [|split; [|split]].
  - by apply hal_timer_start_at_wake.
  - by apply hal_timer_stop_wake.
  - by apply hal_timer_read_bsptimer_wake.
  - intros ds s'. apply hal_timer_chk_queue_wake.
Qed.

(** The same on device 0 with its counter at 60 and an empty queue: timer
    100 started for tick 50, which has passed, makes the interrupt of the
    device pending. *)
Lemma no_wakeup_is_lost_on_32bit_device_witness :
  let s := Sample.after (hal_timer_read Sample.cfg 0)
             (Sample.ready 0 [60; 0]%N) in
  queue_ok s 0 /\ wake_inv s 0 /\
  tmr_reg (bsptimers s 0) = Some 0%nat /\ Hw.width (NRF_TIMER s 0) = 32 /\
  startable s 0 100 /\
  elements (nvic_pending (Sample.after (hal_timer_start_at 100 50) s))
  = [TIMER0_IRQn] /\
  exists s', run (hal_timer_start_at 100 50) s = Ret 0 s' /\ wake_inv s' 0.
Proof.
  cbv zeta.
  set (s := Sample.after (hal_timer_read Sample.cfg 0)
              (Sample.ready 0 [60%N; 0%N])).
  assert (Hq : queue_ok s 0).
  { apply queue_okb_ok. vm_compute. reflexivity. }
  assert (Hw : wake_inv s 0).
  { exists 0%nat. split; [vm_compute; reflexivity|].
    split; [vm_compute; reflexivity|].
    replace (hal_timer_q (bsptimers s 0)) with (@nil Z)
      by (vm_compute; reflexivity).
    exact I. }
  assert (Hreg : tmr_reg (bsptimers s 0) = Some 0%nat)
    by (vm_compute; reflexivity).
  assert (Hwd : Hw.width (NRF_TIMER s 0) = 32) by (vm_compute; reflexivity).
  assert (Hst : startable s 0 100).
  { split; [lia|]. eexists. split; [vm_compute; reflexivity|].
    split; [reflexivity|]. split; [reflexivity|]. cbn. lia. }
  split; [exact Hq|]. split; [exact Hw|]. split; [exact Hreg|].
  split; [exact Hwd|]. split; [exact Hst|].
  split; [vm_compute; reflexivity|].
  exact (proj1 (no_wakeup_is_lost_on_32bit_device Sample.cb_none s 0 0 100 50 1
                  Hq Hw Hreg Hwd) Hst).
Defined.

(** ** Arming a 16-bit device *)

(** [nrf_timer_set_ocmp] on a 16-bit device goes by the epoch of the
    expiry, its upper 16 bits, against the overflow tally of the device.  An
    epoch that has passed makes the interrupt pending and leaves the compare
    interrupt disabled; a later epoch leaves the compare interrupt disabled
    and nothing pending (the overflow interrupt will arm it); the current
    epoch sets the compare register to the low 16 bits, enables the compare
    interrupt, reads the counter once and makes the interrupt pending
    exactly when the value read is above the low 16 bits of the expiry.  The
    device structures and the timer objects are untouched. *)
Theorem set_ocmp_narrow_by_epoch (n hw : nat) (e : Z) (s : state) :
  tmr_reg (bsptimers s n) = Some hw ->
  tmr_16bit (bsptimers s n) ≠ 0 ->
  let b := bsptimers s n in
  let delta_t := int32_t (Z.land e 0xffff0000 - tmr_cntr b) in
  exists s',
    run (nrf_timer_set_ocmp n e) s = Ret tt s' /\
    bsptimers s' = bsptimers s /\ timers s' = timers s /\
    (delta_t < 0 ->
     ~ compare_enabled (NRF_TIMER s' hw) /\
     nvic_pending s' = {[tmr_irq_num b]} ∪ nvic_pending s /\
     elapse s' = elapse s) /\
    (delta_t > 0 ->
     ~ compare_enabled (NRF_TIMER s' hw) /\
     nvic_pending s' = nvic_pending s /\ elapse s' = elapse s) /\
    (delta_t = 0 ->
     compare_enabled (NRF_TIMER s' hw) /\
     CC (NRF_TIMER s' hw) NRF_TIMER_CC_INT = uint16_t e /\
     nvic_pending s'
     = (if CC (NRF_TIMER s' hw) NRF_TIMER_CC_READ >? uint16_t e
        then {[tmr_irq_num b]} ∪ nvic_pending s else nvic_pending s) /\
     elapse s' = tail (elapse s)).
Proof.
  intros Hreg H16. cbv zeta. apply nonzero_true in H16.
  unfold nrf_timer_set_ocmp, compare_enabled.
  mstep. rewrite Hreg, H16. cbv zeta.
  set (dt := int32_t _).
  destruct (Z.ltb_spec dt 0) as [Hlt|Hge].
  - mrun. eexists. split; [reflexivity|]. cbn. rewrite upd_same. cbn.
    rewrite intenclr_disabled. do 2 (split; [done|]).
    split; [done|]. split; intros; lia.
  - destruct (Z.eqb_spec dt 0) as [Hz|Hnz].
    + mrun. rewrite nrf_read_timer_cntr_eq.
      match goal with |- context [captured hw ?x] => set (s1 := x) end.
      assert (Hcc : CC (captured hw s1) NRF_TIMER_CC_INT = uint16_t e).
      { rewrite CC_captured by done. unfold s1. cbn. rewrite ?upd_same. cbn.
        by rewrite ?upd_same. }
      assert (Hin : Z.testbit (INTEN (captured hw s1))
                      (16 + Z.of_nat NRF_TIMER_CC_INT) = true).
      { rewrite INTEN_captured. unfold s1. cbn. rewrite upd_same. cbn.
        apply intenset_enabled. }
      assert (Hrd : CC (captured hw s1) NRF_TIMER_CC_READ
                    = COUNTER (captured hw s1)).
      { unfold captured, Hw.capture. cbn. by rewrite upd_same. }
      assert (Hs1 : bsptimers s1 = bsptimers s /\ timers s1 = timers s /\
                    nvic_pending s1 = nvic_pending s /\ elapse s1 = elapse s)
        by (unfold s1; cbn; repeat split; reflexivity).
      destruct Hs1 as (Hb1 & Ht1 & Hn1 & He1). clearbody s1.
      destruct (Z.gtb_spec (COUNTER (captured hw s1)) (uint16_t e)) as [Hgt|Hle];
        (eexists; split; [reflexivity|]); cbn; rewrite ?upd_same;
        (do 2 (split; [done|])); (split; [intros; lia|]);
        (split; [intros; lia|]); intros _; rewrite Hrd;
        (split; [done|]); (split; [done|]).
      * destruct (Z.gtb_spec (COUNTER (captured hw s1)) (uint16_t e)); [|lia].
        by rewrite ?Hb1, ?Hn1, ?He1.
      * destruct (Z.gtb_spec (COUNTER (captured hw s1)) (uint16_t e)); [lia|].
        by rewrite ?Hb1, ?Hn1, ?He1.
    + mrun. eexists. split; [reflexivity|]. cbn. rewrite upd_same. cbn.
      rewrite intenclr_disabled. do 2 (split; [done|]).
      split; [intros; lia|]. split; [done|]. intros; lia.
Qed.

(** The same on timer 1 with overflow tally 0 and an expiry in epoch 2. *)
Lemma set_ocmp_narrow_by_epoch_witness :
  let s := Sample.ready 1 [] in
  tmr_reg (bsptimers s 1) = Some 1%nat /\ tmr_16bit (bsptimers s 1) ≠ 0 /\
  int32_t (Z.land 0x20005 0xffff0000 - tmr_cntr (bsptimers s 1)) > 0 /\
  exists s',
    run (nrf_timer_set_ocmp 1 0x20005) s = Ret tt s' /\
    ~ compare_enabled (NRF_TIMER s' 1) /\
    nvic_pending s' = nvic_pending s.
Proof.
  cbv zeta.
  assert (Hreg : tmr_reg (bsptimers (Sample.ready 1 []) 1) = Some 1%nat)
    by (vm_compute; reflexivity).
  assert (H16 : tmr_16bit (bsptimers (Sample.ready 1 []) 1) ≠ 0)
    by (vm_compute; discriminate).
  assert (Hdt : int32_t (Z.land 0x20005 0xffff0000
                         - tmr_cntr (bsptimers (Sample.ready 1 []) 1)) > 0)
    by (vm_compute; reflexivity).
  split; [exact Hreg|]. split; [exact H16|]. split; [exact Hdt|].
  destruct (set_ocmp_narrow_by_epoch 1 1 0x20005 (Sample.ready 1 []) Hreg H16)
    as (s' & Hrun & _ & _ & _ & Hlater & _).
  exists s'. split; [exact Hrun|].
  destruct (Hlater Hdt) as (Hoff & Hp & _). split; [exact Hoff|exact Hp].
Defined.

(** ** The interrupt handler *)

Lemma bind_assoc {A B C} (m : M A) (f : A -> M B) (g : B -> M C) s :
  ((m ≫= f) ≫= g) s = (m ≫= fun a => f a ≫= g) s.
Proof. unfold mbind, M_bind. by destruct (m s). Qed.

(** The interrupt handler up to its call of [hal_timer_chk_queue]. *)
Lemma hal_timer_irq_handler_entry cb_exec fuel n hw s :
  tmr_reg (bsptimers s n) = Some hw ->
  let b := bsptimers s n in
  let r := NRF_TIMER s hw in
  let overflow :=
    nonzero (tmr_16bit b) && nonzero (EVENTS_COMPARE r NRF_TIMER_CC_OVERFLOW) in
  exists s0,
    hal_timer_irq_handler cb_exec fuel n s =
    (ds ← hal_timer_chk_queue cb_exec fuel n;
     _ ← reg_read (Some hw); mret ds) s0 /\
    frame s s0 /\ PRIMASK s0 = PRIMASK s /\ nvic_pending s0 = nvic_pending s /\
    elapse s0 = elapse s /\
    timer_isrs (bsptimers s0 n) = uint32_t (timer_isrs b + 1) /\
    tmr_cntr (bsptimers s0 n)
    = (if overflow then uint32_t (tmr_cntr b + 65536) else tmr_cntr b) /\
    EVENTS_COMPARE (NRF_TIMER s0 hw) NRF_TIMER_CC_INT = 0 /\
    EVENTS_COMPARE (NRF_TIMER s0 hw) NRF_TIMER_CC_OVERFLOW
    = (if nonzero (tmr_16bit b) then 0
       else EVENTS_COMPARE r NRF_TIMER_CC_OVERFLOW) /\
    INTEN (NRF_TIMER s0 hw) = INTEN r /\
    COUNTER (NRF_TIMER s0 hw) = COUNTER r /\
    BITMODE (NRF_TIMER s0 hw) = BITMODE r /\
    CC (NRF_TIMER s0 hw) = CC r.
Proof.
  intros Hreg. cbv zeta. unfold hal_timer_irq_handler.
  mstep. rewrite Hreg. mstep.
  assert (Hfr : forall s0 : state,
    timers s0 = timers s ->
    (forall m, hal_timer_q (bsptimers s0 m) = hal_timer_q (bsptimers s m) /\
       tmr_reg (bsptimers s0 m) = tmr_reg (bsptimers s m) /\
       tmr_16bit (bsptimers s0 m) = tmr_16bit (bsptimers s m)) ->
    frame s s0) by (intros s0 H1 H2; by split).
  assert (Hupd : forall (f : nat -> nrf51_hal_timer) g m,
    (forall b, hal_timer_q (g b) = hal_timer_q b /\ tmr_reg (g b) = tmr_reg b /\
               tmr_16bit (g b) = tmr_16bit b) ->
    hal_timer_q (upd f n (g (f n)) m) = hal_timer_q (f m) /\
    tmr_reg (upd f n (g (f n)) m) = tmr_reg (f m) /\
    tmr_16bit (upd f n (g (f n)) m) = tmr_16bit (f m)).
  { intros f g m Hg. destruct (decide (m = n)) as [->|Hm];
      [rewrite upd_same; apply Hg|by rewrite upd_other]. }
  destruct (nonzero (EVENTS_COMPARE (NRF_TIMER s hw) NRF_TIMER_CC_INT)) eqn:Hc;
    destruct (nonzero (tmr_16bit (bsptimers s n))) eqn:H16; cbn [andb];
    [| |apply nonzero_false in Hc..].
  - mstep. rewrite bind_assoc. mstep.
    cbn [NRF_TIMER set_NRF_TIMER]. rewrite upd_same.
    cbn [EVENTS_COMPARE with_EVENTS_COMPARE]. rewrite upd_other by done.
    destruct (nonzero (EVENTS_COMPARE (NRF_TIMER s hw) NRF_TIMER_CC_OVERFLOW))
      eqn:Ho.
    + rewrite bind_assoc. mstep. mstep. mstep.
      eexists. split; [reflexivity|]. cbn.
      rewrite ?upd_same. cbn. rewrite ?upd_same. cbn. rewrite ?upd_same.
      split; [|done]. apply Hfr; [done|]. intros m. cbn.
      destruct (decide (m = n)) as [->|Hm];
        [by rewrite !upd_same|by rewrite !upd_other].
    + mstep. mstep. apply nonzero_false in Ho.
      eexists. split; [reflexivity|]. cbn.
      rewrite ?upd_same. cbn. rewrite ?upd_same, ?upd_other by done.
      split; [|done]. apply Hfr; [done|]. intros m. cbn.
      destruct (decide (m = n)) as [->|Hm];
        [by rewrite !upd_same|by rewrite !upd_other].
  - mstep. mstep. mstep.
    eexists. split; [reflexivity|]. cbn.
    rewrite ?upd_same. cbn. rewrite ?upd_same, ?upd_other by done.
    split; [|done]. apply Hfr; [done|]. intros m. cbn.
    destruct (decide (m = n)) as [->|Hm];
      [by rewrite !upd_same|by rewrite !upd_other].
  - mstep. rewrite bind_assoc. mstep.
    destruct (nonzero (EVENTS_COMPARE (NRF_TIMER s hw) NRF_TIMER_CC_OVERFLOW))
      eqn:Ho.
    + rewrite bind_assoc. mstep. mstep. mstep.
      eexists. split; [reflexivity|]. cbn.
      rewrite ?upd_same. cbn. rewrite ?upd_same, ?upd_other by done. cbn.
      rewrite ?upd_same.
      split; [|done]. apply Hfr; [done|]. intros m. cbn.
      destruct (decide (m = n)) as [->|Hm];
        [by rewrite !upd_same|by rewrite !upd_other].
    + apply nonzero_false in Ho. mstep. mstep.
      eexists. split; [reflexivity|]. cbn. rewrite ?upd_same. cbn.
      split; [|done]. apply Hfr; [done|]. intros m. cbn.
      destruct (decide (m = n)) as [->|Hm];
        [by rewrite !upd_same|by rewrite !upd_other].
  - mstep. mstep. mstep.
    eexists. split; [reflexivity|]. cbn. rewrite ?upd_same. cbn.
    split; [|done]. apply Hfr; [done|]. intros m. cbn.
    destruct (decide (m = n)) as [->|Hm];
      [by rewrite !upd_same|by rewrite !upd_other].
Qed.

(** With no timer queued, [hal_timer_irq_handler] runs no callback and
    returns: it has counted the interrupt, cleared the compare event, added
    65536 to the overflow tally of a 16-bit device exactly when the overflow
    event was flagged (clearing that event), and left the compare interrupt
    disabled; the timer objects, the interrupt mask and the pending
    interrupts are as before. *)
Theorem irq_handler_with_empty_queue
    (cb_exec : Z -> Z -> M unit) (fuel n hw : nat) (s : state) :
  tmr_reg (bsptimers s n) = Some hw ->
  hal_timer_q (bsptimers s n) = [] ->
  let b := bsptimers s n in
  let r := NRF_TIMER s hw in
  exists s',
    run (hal_timer_irq_handler cb_exec (S fuel) n) s = Ret [] s' /\
    timer_isrs (bsptimers s' n) = uint32_t (timer_isrs b + 1) /\
    tmr_cntr (bsptimers s' n)
    = (if nonzero (tmr_16bit b) &&
          nonzero (EVENTS_COMPARE r NRF_TIMER_CC_OVERFLOW)
       then uint32_t (tmr_cntr b + 65536) else tmr_cntr b) /\
    EVENTS_COMPARE (NRF_TIMER s' hw) NRF_TIMER_CC_INT = 0 /\
    (tmr_16bit b ≠ 0 ->
     EVENTS_COMPARE (NRF_TIMER s' hw) NRF_TIMER_CC_OVERFLOW = 0) /\
    ~ compare_enabled (NRF_TIMER s' hw) /\
    hal_timer_q (bsptimers s' n) = [] /\
    timers s' = timers s /\ PRIMASK s' = PRIMASK s /\
    nvic_pending s' = nvic_pending s /\ elapse s' = elapse s.
Proof.
  intros Hreg Hq. cbv zeta.
  destruct (hal_timer_irq_handler_entry cb_exec (S fuel) n hw s Hreg)
    as (s0 & -> & (Ht0 & Hb0) & Hp0 & Hn0 & Hel0 & Hisr & Htally & Hev & Hov & _).
  destruct (Hb0 n) as (Hq0 & Hreg0 & H160).
  assert (Hchk : hal_timer_chk_queue cb_exec (S fuel) n s0
    = Ret [] (set_PRIMASK (PRIMASK s)
        (set_NRF_TIMER
           (upd (NRF_TIMER s0) hw
              (with_INTEN (Z.ldiff (INTEN (NRF_TIMER s0 hw))
                             (NRF_TIMER_INT_MASK NRF_TIMER_CC_INT))
                 (NRF_TIMER s0 hw))) s0))).
  { assert (Hloop : hal_timer_chk_queue_loop cb_exec (S fuel) n
                      (set_PRIMASK true s0) = Ret [] (set_PRIMASK true s0)).
    { cbn [hal_timer_chk_queue_loop]. mstep. cbn [bsptimers set_PRIMASK].
      by rewrite Hq0, Hq. }
    unfold hal_timer_chk_queue. mstep. rewrite (bind_Ret _ _ _ _ _ Hloop).
    mstep. cbn [bsptimers set_PRIMASK]. rewrite Hq0, Hq, Hreg0, Hreg.
    erewrite bind_Ret by apply disable_ocmp_eq.
    rewrite Hp0. destruct (PRIMASK s) eqn:EP; reflexivity. }
  rewrite (bind_Ret _ _ _ _ _ Hchk). mstep.
  eexists. split; [reflexivity|]. cbn. rewrite upd_same. cbn.
  rewrite Hisr, Htally, Hev, Hq0, Hq, Ht0, Hn0, Hel0.
  do 3 (split; [done|]).
  split; [intros H16; apply nonzero_true in H16; by rewrite Hov, H16|].
  split; [|done]. unfold compare_enabled. cbn. by rewrite intenclr_disabled.
Qed.

(** The same on timer 1 after its counter wrapped while a timer was being
    started and stopped: the handler finds the overflow event and moves the
    tally from 0 to 65536. *)
Lemma irq_handler_with_empty_queue_witness :
  let s := Sample.after (hal_timer_start_at 100 5;; hal_timer_stop 100)
             (Sample.ready 1 [70000]%N) in
  tmr_reg (bsptimers s 1) = Some 1%nat /\ hal_timer_q (bsptimers s 1) = [] /\
  (tmr_cntr (bsptimers s 1),
   EVENTS_COMPARE (NRF_TIMER s 1) NRF_TIMER_CC_OVERFLOW) = (0, 1) /\
  exists s',
    run (hal_timer_irq_handler Sample.cb_none 1 1) s = Ret [] s' /\
    tmr_cntr (bsptimers s' 1) = 65536 /\
    EVENTS_COMPARE (NRF_TIMER s' 1) NRF_TIMER_CC_OVERFLOW = 0.
Proof.
  cbv zeta.
  set (s := Sample.after (hal_timer_start_at 100 5;; hal_timer_stop 100)
              (Sample.ready 1 [70000%N])).
  assert (Hreg : tmr_reg (bsptimers s 1) = Some 1%nat)
    by (vm_compute; reflexivity).
  assert (Hq : hal_timer_q (bsptimers s 1) = []) by (vm_compute; reflexivity).
  split; [exact Hreg|]. split; [exact Hq|]. split; [vm_compute; reflexivity|].
  destruct (irq_handler_with_empty_queue Sample.cb_none 0 1 1 s Hreg Hq)
    as (s' & Hrun & _ & Htally & _ & Hov & _).
  exists s'. split; [exact Hrun|]. split.
  - rewrite Htally. vm_compute. reflexivity.
  - apply Hov. vm_compute. discriminate.
Defined.



(** ** Reading the counter of a device *)

(** [hal_timer_read] needs an initialised device: on a configured device
    that has its peripheral it returns the value that
    [hal_timer_read_bsptimer] gives, leaving the timer objects, the queues
    and the interrupt mask as they were; on a configured device that
    [hal_timer_init] has not given its peripheral yet it goes through the
    NULL register pointer. *)
Theorem read_needs_initialised_device
    (cfg : syscfg) (timer_num : Z) (n : nat) (s : state) :
  0 <= timer_num ->
  nrf51_hal_timers cfg (Z.to_nat timer_num) = Some n ->
  (is_Some (tmr_reg (bsptimers s n)) ->
   exists v s',
     run (hal_timer_read cfg timer_num) s = Ret v s' /\
     run (hal_timer_read_bsptimer n) s = Ret v s' /\
     frame s s' /\ PRIMASK s' = PRIMASK s) /\
  (tmr_reg (bsptimers s n) = None ->
   run (hal_timer_read cfg timer_num) s = Undefined).
Proof.
  intros H0 Hcfg.
  destruct (resolve_Some cfg timer_num n s H0 Hcfg) as [Hres _].
  unfold hal_timer_read. rewrite (bind_Ret _ _ _ _ _ Hres). split.
  - intros Hreg.
    destruct (hal_timer_read_bsptimer_total n s Hreg) as (v & s' & Hrun).
    exists v, s'. do 2 (split; [done|]).
    split; [by eapply hal_timer_read_bsptimer_frame|].
    by eapply keeps_hal_timer_read_bsptimer.
  - intros Hreg. unfold hal_timer_read_bsptimer. mstep. rewrite Hreg.
    destruct (nonzero (tmr_16bit (bsptimers s n))).
    + mstep. unfold mbind at 1, M_bind at 1, fmap at 1, M_fmap at 1.
      by rewrite nrf_read_timer_cntr_None.
    + apply nrf_read_timer_cntr_None.
Qed.

(** The same for timer 0: read at start-up, and read after it has been
    initialised. *)
Lemma read_needs_initialised_device_witness :
  0 <= 0 /\ nrf51_hal_timers Sample.cfg (Z.to_nat 0) = Some 0%nat /\
  tmr_reg (bsptimers (Sample.power_on []) 0) = None /\
  run (hal_timer_read Sample.cfg 0) (Sample.power_on []) = Undefined /\
  result (run (hal_timer_read Sample.cfg 0) (Sample.ready 0 [7]%N)) = Some 7.
Proof.
  assert (H0 : 0 <= 0) by lia.
  split; [exact H0|]. split; [reflexivity|]. split; [reflexivity|].
  split; [|vm_compute; reflexivity].
  exact (proj2 (read_needs_initialised_device Sample.cfg 0 0
                  (Sample.power_on []) H0 eq_refl) eq_refl).
Defined.

(** ** What the operations leave alone *)

Create HintDb setup.

Lemma same_setup_refl s : same_setup s s.
Proof. by repeat split. Qed.

Lemma same_setup_trans s1 s2 s3 :
  same_setup s1 s2 -> same_setup s2 s3 -> same_setup s1 s3.
Proof.
  intros ((? & ? & ?) & Hb & Hr) ((? & ? & ?) & Hb' & Hr').
  split; [repeat split; congruence|].
  split; intros m; [rewrite Hb'; apply Hb|rewrite Hr'; apply Hr].
Qed.

Lemma ks_ret {A} (a : A) : keeps_setup (mret a).
Proof. intros s a' s' [= _ <-]. apply same_setup_refl. Qed.

Lemma ks_bind {A B} (m : M A) (f : A -> M B) :
  keeps_setup m -> (forall a, keeps_setup (f a)) -> keeps_setup (m ≫= f).
Proof.
  intros Hm Hf s b s' (a & s1 & H1 & H2)%bind_Ret_inv.
  exact (same_setup_trans _ _ _ (Hm _ _ _ H1) (Hf _ _ _ _ H2)).
Qed.

Lemma ks_fmap {A B} (g : A -> B) (m : M A) :
  keeps_setup m -> keeps_setup (g <$> m).
Proof. intros Hm s b s' (a & H & _)%fmap_Ret_inv. exact (Hm _ _ _ H). Qed.

Lemma ks_modify (f : state -> state) :
  (forall s, same_setup s (f s)) -> keeps_setup (modify f).
Proof. intros Hf s a s' [= _ <-]. apply Hf. Qed.

Lemma ks_stuck {A} (m : M A) :
  (forall s a s', m s ≠ Ret a s') -> keeps_setup m.
Proof. intros H s a s' Hr. by apply H in Hr. Qed.

Lemma ks_same {A} (m : M A) :
  (forall s a s', m s = Ret a s' -> s' = s) -> keeps_setup m.
Proof. intros H s a s' Hr. apply H in Hr as ->. apply same_setup_refl. Qed.

Lemma ks_reg_write hw f :
  (forall r, reg_setup (f r) = reg_setup r) -> keeps_setup (reg_write hw f).
Proof.
  intros Hf. destruct hw as [n|]; [|by apply ks_stuck].
  apply ks_modify. intros s. split; [done|]. split; [done|].
  intros hw. cbn. destruct (decide (hw = n)) as [->|Hne];
    [by rewrite upd_same|by rewrite upd_other].
Qed.

Lemma overflow_bit_ldiff x :
  Z.testbit (Z.ldiff x (NRF_TIMER_INT_MASK NRF_TIMER_CC_INT))
    (16 + Z.of_nat NRF_TIMER_CC_OVERFLOW)
  = Z.testbit x (16 + Z.of_nat NRF_TIMER_CC_OVERFLOW).
Proof.
  rewrite Z.ldiff_spec.
  change (NRF_TIMER_INT_MASK NRF_TIMER_CC_INT) with (2 ^ 19).
  change (16 + Z.of_nat NRF_TIMER_CC_OVERFLOW) with 17.
  rewrite Z.pow2_bits_false by lia. apply andb_true_r.
Qed.

Lemma overflow_bit_lor x :
  Z.testbit (Z.lor x (NRF_TIMER_INT_MASK NRF_TIMER_CC_INT))
    (16 + Z.of_nat NRF_TIMER_CC_OVERFLOW)
  = Z.testbit x (16 + Z.of_nat NRF_TIMER_CC_OVERFLOW).
Proof.
  rewrite Z.lor_spec.
  change (NRF_TIMER_INT_MASK NRF_TIMER_CC_INT) with (2 ^ 19).
  change (16 + Z.of_nat NRF_TIMER_CC_OVERFLOW) with 17.
  rewrite Z.pow2_bits_false by lia. apply orb_false_r.
Qed.

Lemma ks_write_INTENCLR hw :
  keeps_setup (write_INTENCLR hw (NRF_TIMER_INT_MASK NRF_TIMER_CC_INT)).
Proof.
  apply ks_reg_write. intros r. unfold reg_setup. cbn.
  by rewrite overflow_bit_ldiff.
Qed.

Lemma ks_write_INTENSET hw :
  keeps_setup (write_INTENSET hw (NRF_TIMER_INT_MASK NRF_TIMER_CC_INT)).
Proof.
  apply ks_reg_write. intros r. unfold reg_setup. cbn.
  by rewrite overflow_bit_lor.
Qed.

Lemma ks_write_CC hw v : keeps_setup (write_CC hw NRF_TIMER_CC_INT v).
Proof.
  apply ks_reg_write. intros r. unfold reg_setup. cbn.
  by rewrite upd_other.
Qed.

Lemma ks_write_EVENTS_COMPARE hw i v :
  keeps_setup (write_EVENTS_COMPARE hw i v).
Proof. by apply ks_reg_write. Qed.

Lemma ks_next_elapse : keeps_setup next_elapse.
Proof.
  intros s a s'. unfold next_elapse.
  destruct (elapse s); intros [= _ <-]; by repeat split.
Qed.

Lemma ks_write_TASKS_CAPTURE hw :
  keeps_setup (write_TASKS_CAPTURE hw NRF_TIMER_CC_READ).
Proof.
  unfold write_TASKS_CAPTURE. apply ks_bind; [apply ks_next_elapse|].
  intros d. apply ks_reg_write. intros r.
  unfold reg_setup, Hw.capture, Hw.advance.
  destruct (RUNNING r) eqn:E; cbn; by rewrite ?E, upd_other.
Qed.

Lemma ks_reg_read hw : keeps_setup (reg_read hw).
Proof.
  destruct hw; [|by apply ks_stuck]. apply ks_same. by intros s a s' [= _ <-].
Qed.

Lemma ks_get : keeps_setup get.
Proof. apply ks_same. by intros s a s' [= _ <-]. Qed.

Lemma ks_get_bsptimer n : keeps_setup (get_bsptimer n).
Proof. apply ks_same. by intros s a s' [= _ <-]. Qed.

Lemma ks_deref timer : keeps_setup (deref timer).
Proof. apply ks_same. intros s a s' H. by apply deref_inv in H as (-> & _). Qed.

Lemma ks_deref_bsp p : keeps_setup (deref_bsp p).
Proof. destruct p; [apply ks_ret|by apply ks_stuck]. Qed.

Lemma ks_upd_timer timer f : keeps_setup (upd_timer timer f).
Proof.
  unfold upd_timer. apply ks_bind; [apply ks_deref|]. intros t.
  apply ks_modify. intros s. by repeat split.
Qed.

Lemma ks_upd_bsptimer n f :
  (forall b, dev_setup (f b) = dev_setup b) -> keeps_setup (upd_bsptimer n f).
Proof.
  intros Hf. apply ks_modify. intros s. split; [done|]. split; [|done].
  intros m. cbn. destruct (decide (m = n)) as [->|Hne];
    [by rewrite upd_same|by rewrite upd_other].
Qed.

Lemma ks_NVIC_SetPendingIRQ irq : keeps_setup (NVIC_SetPendingIRQ irq).
Proof. apply ks_modify. intros s. by repeat split. Qed.

Lemma ks_DISABLE : keeps_setup __HAL_DISABLE_INTERRUPTS.
Proof. intros s a s' [= _ <-]. by repeat split. Qed.

Lemma ks_ENABLE ctx : keeps_setup (__HAL_ENABLE_INTERRUPTS ctx).
Proof.
  destruct ctx; [apply ks_ret|]. apply ks_modify. intros s. by repeat split.
Qed.

#[export] Hint Resolve ks_ret ks_write_INTENCLR ks_write_INTENSET ks_write_CC
  ks_write_EVENTS_COMPARE ks_next_elapse ks_write_TASKS_CAPTURE ks_reg_read
  ks_get ks_get_bsptimer ks_deref ks_deref_bsp ks_upd_timer
  ks_NVIC_SetPendingIRQ ks_DISABLE ks_ENABLE : setup.

Ltac setup_step :=
  first
    [ assumption
    | solve [auto with setup]
    | progress cbv zeta
    | apply ks_fmap
    | apply ks_bind; [|intros ?]
    | apply ks_upd_bsptimer; reflexivity
    | apply ks_stuck; discriminate
    | match goal with
      | |- keeps_setup (if ?b then _ else _) => destruct b
      | |- keeps_setup (match ?x with _ => _ end) => destruct x
      | |- keeps_setup (let '(_, _) := ?x in _) => destruct x
      end ].

Ltac setup := intros; repeat setup_step.

Lemma ks_nrf_read_timer_cntr hw : keeps_setup (nrf_read_timer_cntr hw).
Proof. unfold nrf_read_timer_cntr. setup. Qed.
#[export] Hint Resolve ks_nrf_read_timer_cntr : setup.

Lemma ks_nrf_timer_set_ocmp n e : keeps_setup (nrf_timer_set_ocmp n e).
Proof. unfold nrf_timer_set_ocmp. setup. Qed.

Lemma ks_nrf_timer_disable_ocmp hw : keeps_setup (nrf_timer_disable_ocmp hw).
Proof. unfold nrf_timer_disable_ocmp. setup. Qed.
#[export] Hint Resolve ks_nrf_timer_set_ocmp ks_nrf_timer_disable_ocmp : setup.

Lemma ks_hal_timer_read_bsptimer n : keeps_setup (hal_timer_read_bsptimer n).
Proof. unfold hal_timer_read_bsptimer. setup. Qed.
#[export] Hint Resolve ks_hal_timer_read_bsptimer : setup.

Lemma ks_hal_timer_start_at timer tick :
  keeps_setup (hal_timer_start_at timer tick).
Proof. unfold hal_timer_start_at. setup. Qed.
#[export] Hint Resolve ks_hal_timer_start_at : setup.

Section Setup.

Variable cfg : syscfg.
Variable cb_exec : Z -> Z -> M unit.
Hypothesis cb_keeps : forall f a, keeps_setup (cb_exec f a).

Lemma ks_chk_queue_loop n : forall fuel,
  keeps_setup (hal_timer_chk_queue_loop cb_exec fuel n).
Proof.
  induction fuel as [|fuel IH]; cbn [hal_timer_chk_queue_loop]; setup.
Qed.

Lemma ks_hal_timer_chk_queue fuel n :
  keeps_setup (hal_timer_chk_queue cb_exec fuel n).
Proof.
  pose proof (ks_chk_queue_loop n fuel).
  unfold hal_timer_chk_queue. setup.
Qed.

Lemma ks_resolve n : keeps_setup (NRF51_HAL_TIMER_RESOLVE cfg n).
Proof. unfold NRF51_HAL_TIMER_RESOLVE. setup. Qed.

Lemma ks_hal_timer_read n : keeps_setup (hal_timer_read cfg n).
Proof. pose proof (ks_resolve n). unfold hal_timer_read. setup. Qed.

Lemma ks_hal_timer_delay_loop n until : forall fuel,
  keeps_setup (hal_timer_delay_loop cfg fuel n until).
Proof.
  pose proof (ks_hal_timer_read n).
  induction fuel as [|fuel IH]; cbn [hal_timer_delay_loop]; setup.
Qed.

(** Only [hal_timer_init] and [hal_timer_deinit] change the set-up:
    [hal_timer_get_resolution], [hal_timer_read], [hal_timer_delay],
    [hal_timer_set_cb], [hal_timer_start], [hal_timer_start_at],
    [hal_timer_stop] and the interrupt handler leave the interrupt
    controller's enables, priorities and vectors, the enabled flag,
    interrupt number, width flag, frequency and peripheral of every device,
    and the run state, prescaler, mode, width, overflow compare value and
    overflow interrupt enable of every peripheral as they found them, as
    long as the callbacks do. *)
Theorem setup_is_left_alone :
  (forall n, keeps_setup (hal_timer_get_resolution cfg n)) /\
  (forall n, keeps_setup (hal_timer_read cfg n)) /\
  (forall fuel n ticks, keeps_setup (hal_timer_delay cfg fuel n ticks)) /\
  (forall n timer f a, keeps_setup (hal_timer_set_cb cfg n timer f a)) /\
  (forall timer ticks, keeps_setup (hal_timer_start timer ticks)) /\
  (forall timer tick, keeps_setup (hal_timer_start_at timer tick)) /\
  (forall timer, keeps_setup (hal_timer_stop timer)) /\
  (forall fuel n, keeps_setup (hal_timer_irq_handler cb_exec fuel n)).
Proof.
  split; [|split; [|split; [|split; [|split; [|split; [|split]]]]]].
  - intros n. pose proof (ks_resolve n). unfold hal_timer_get_resolution. setup.
  - apply ks_hal_timer_read.
  - intros fuel n ticks. pose proof (ks_hal_timer_read n).
    pose proof (ks_hal_timer_delay_loop n).
    unfold hal_timer_delay. setup.
  - intros n timer f a. pose proof (ks_resolve n).
    unfold hal_timer_set_cb. setup.
  - intros timer ticks. unfold hal_timer_start. setup.
  - apply ks_hal_timer_start_at.
  - intros timer. unfold hal_timer_stop. setup.
  - intros fuel n. pose proof (ks_hal_timer_chk_queue fuel n).
    unfold hal_timer_irq_handler. setup.
Qed.

End Setup.

(** The same with callbacks that do nothing, at [hal_timer_start] on a
    16-bit device. *)
Lemma setup_is_left_alone_witness :
  (forall f a, keeps_setup (Sample.cb_none f a)) /\
  forall rc s',
    run (hal_timer_start 100 10) (Sample.ready 1 [5; 0]%N) = Ret rc s' ->
    same_setup (Sample.ready 1 [5; 0]%N) s'.
Proof.
  assert (Hcb : forall f a, keeps_setup (Sample.cb_none f a)).
  { intros f a s x s' H. injection H as _ <-. apply same_setup_refl. }
  split; [exact Hcb|].
  destruct (setup_is_left_alone Sample.cfg Sample.cb_none Hcb)
    as (_ & _ & _ & _ & Hstart & _).
  intros rc s'. apply Hstart.
Defined.

(** Only a change of the head touches the hardware: [hal_timer_start_at]
    for a tick that is not before the expiry of the head, and
    [hal_timer_stop] on a timer that is not the head, return 0 with the
    head of the queue, the registers of all peripherals, the pending
    interrupts and the run of the counter as they were. *)
Theorem hardware_is_left_alone_behind_head
    (s : state) (n : nat) (timer tick h : Z) (th : hal_timer) :
  queue_ok s n ->
  head (hal_timer_q (bsptimers s n)) = Some h ->
  timers s !! h = Some th ->
  (startable s n timer -> int32_t (tick - expiry th) >= 0 ->
   exists s',
     run (hal_timer_start_at timer tick) s = Ret 0 s' /\
     head (hal_timer_q (bsptimers s' n)) = Some h /\
     NRF_TIMER s' = NRF_TIMER s /\ nvic_pending s' = nvic_pending s /\
     elapse s' = elapse s) /\
  (timer ∈ hal_timer_q (bsptimers s n) -> timer ≠ h ->
   exists s',
     run (hal_timer_stop timer) s = Ret 0 s' /\
     head (hal_timer_q (bsptimers s' n)) = Some h /\
     NRF_TIMER s' = NRF_TIMER s /\ nvic_pending s' = nvic_pending s /\
     elapse s' = elapse s).
Proof.
  intros Hq Hh Hth. split.
  - intros Hst Hge.
    destruct (hal_timer_start_at_tail s n timer tick Hq Hst)
      as (q1 & q2 & t & s4 & Ht & Hsplit & Hnin & Hb4 & Ht4 & Hr4 & Hn4 & He4
          & Hq2 & ->).
    rewrite Hsplit in Hh.
    destruct q1 as [|y q1].
    + cbn in Hh. destruct q2 as [|y q2]; [done|]. injection Hh as ->.
      destruct Hq2 as (e & He & Hlt).
      destruct (queue_ok_entry s n h Hq) as (Hh0 & _).
      { rewrite Hsplit. left. }
      rewrite (expiry_of_Some _ _ _ Hth Hh0) in He. injection He as <-. lia.
    + cbn in Hh. injection Hh as ->. mstep.
      destruct (critical_section_end 0 (PRIMASK s) s4)
        as (s' & -> & Hb' & Ht' & Hr' & Hn' & He').
      exists s'. split; [done|]. rewrite Hb', Hb4, upd_same, Hr', Hn', He'.
      by repeat split.
  - intros Hin Hne.
    destruct (hal_timer_stop_tail s n timer Hq Hin)
      as (t & s3 & Ht & Hb3 & Ht3 & Hr3 & Hn3 & He3 & ->).
    destruct (hal_timer_q (bsptimers s n)) as [|first rest] eqn:Eq; [done|].
    injection Hh as ->. cbn [is_first].
    destruct (Z.eqb_spec h timer) as [->|_]; [done|]. mstep.
    destruct (critical_section_end 0 (PRIMASK s) s3)
      as (s' & -> & Hb' & Ht' & Hr' & Hn' & He').
    exists s'. split; [done|]. rewrite Hb', Hb3, upd_same, Hr', Hn', He'.
    split; [|done]. cbn [hal_timer_q with_hal_timer_q].
    by rewrite TAILQ_REMOVE_not_first by done.
Qed.

(** The same on [Sample.pending], whose head is timer 200 with expiry 20:
    timer 300 is started for tick 70, and timer 100 is stopped. *)
Lemma hardware_is_left_alone_behind_head_witness :
  let s := Sample.pending in
  let th := mkHalTimer (Some 0%nat) 7 200 20 true in
  queue_ok s 0 /\ head (hal_timer_q (bsptimers s 0)) = Some 200 /\
  timers s !! 200 = Some th /\
  startable s 0 300 /\ int32_t (70 - expiry th) >= 0 /\
  100 ∈ hal_timer_q (bsptimers s 0) /\ 100 ≠ 200 /\
  (exists s',
     run (hal_timer_start_at 300 70) s = Ret 0 s' /\
     head (hal_timer_q (bsptimers s' 0)) = Some 200 /\
     NRF_TIMER s' = NRF_TIMER s /\ nvic_pending s' = nvic_pending s /\
     elapse s' = elapse s) /\
  (exists s',
     run (hal_timer_stop 100) s = Ret 0 s' /\
     head (hal_timer_q (bsptimers s' 0)) = Some 200 /\
     NRF_TIMER s' = NRF_TIMER s /\ nvic_pending s' = nvic_pending s /\
     elapse s' = elapse s).
Proof.
  cbv zeta.
  assert (Hh : head (hal_timer_q (bsptimers Sample.pending 0)) = Some 200)
    by (vm_compute; reflexivity).
  assert (Hth : timers Sample.pending !! 200
                = Some (mkHalTimer (Some 0%nat) 7 200 20 true))
    by (vm_compute; reflexivity).
  assert (Hst : startable Sample.pending 0 300).
  { split; [lia|]. eexists. split; [vm_compute; reflexivity|].
    split; [reflexivity|]. split; [reflexivity|]. cbn. lia. }
  assert (Hge : int32_t (70 - expiry (mkHalTimer (Some 0%nat) 7 200 20 true))
                >= 0) by (vm_compute; discriminate).
  assert (Hin : 100 ∈ hal_timer_q (bsptimers Sample.pending 0)).
  { replace (hal_timer_q (bsptimers Sample.pending 0)) with [200; 100]
      by (vm_compute; reflexivity).
    right. left. }
  assert (Hne : 100 ≠ 200) by lia.
  split; [exact pending_queue_ok|]. split; [exact Hh|]. split; [exact Hth|].
  split; [exact Hst|]. split; [exact Hge|]. split; [exact Hin|].
  split; [exact Hne|].
  destruct (hardware_is_left_alone_behind_head Sample.pending 0 300 70 200 _
              pending_queue_ok Hh Hth) as [Hstart _].
  destruct (hardware_is_left_alone_behind_head Sample.pending 0 100 70 200 _
              pending_queue_ok Hh Hth) as [_ Hstop].
  split; [exact (Hstart Hst Hge)|exact (Hstop Hin Hne)].
Defined.

(** ** De-initialising a device *)

(** [hal_timer_deinit] stops the device and no more: on a configured device
    with its peripheral it returns (its result unassigned) with the enabled
    flag cleared, the counter stopped where it stood and the compare
    interrupt disabled, while the queue with the timers linked in it, the
    timer objects, the interrupt mask, the interrupt controller and the
    overflow interrupt enable stay as they were; on a configured device
    that [hal_timer_init] has not given its peripheral it goes through the
    NULL register pointer. *)
Theorem deinit_stops_device_and_keeps_queue
    (cfg : syscfg) (timer_num : Z) (n : nat) (s : state) :
  0 <= timer_num ->
  nrf51_hal_timers cfg (Z.to_nat timer_num) = Some n ->
  (forall hw, tmr_reg (bsptimers s n) = Some hw ->
   exists s',
     run (hal_timer_deinit cfg timer_num) s = Ret Indeterminate s' /\
     tmr_enabled (bsptimers s' n) = 0 /\
     RUNNING (NRF_TIMER s' hw) = false /\
     COUNTER (NRF_TIMER s' hw) = COUNTER (NRF_TIMER s hw) /\
     ~ compare_enabled (NRF_TIMER s' hw) /\
     (overflow_enabled (NRF_TIMER s' hw) <-> overflow_enabled (NRF_TIMER s hw)) /\
     hal_timer_q (bsptimers s' n) = hal_timer_q (bsptimers s n) /\
     timers s' = timers s /\ PRIMASK s' = PRIMASK s /\
     nvic_enabled s' = nvic_enabled s /\ nvic_pending s' = nvic_pending s /\
     (forall m, m ≠ n -> bsptimers s' m = bsptimers s m)) /\
  (tmr_reg (bsptimers s n) = None ->
   run (hal_timer_deinit cfg timer_num) s = Undefined).
Proof.
  intros H0 Hcfg.
  destruct (resolve_Some cfg timer_num n s H0 Hcfg) as [Hres _].
  unfold hal_timer_deinit. rewrite (bind_Ret _ _ _ _ _ Hres). split.
  - intros hw Hreg. mstep. mstep. cbn [bsptimers set_PRIMASK]. rewrite Hreg.
    unfold compare_enabled, overflow_enabled.
    destruct (PRIMASK s) eqn:EP; mrun;
      (eexists; split; [reflexivity|]); cbn; rewrite ?upd_same; cbn;
      rewrite ?upd_same; cbn; rewrite intenclr_disabled, overflow_bit_ldiff;
      (do 10 (split; [done|]));
      intros m Hm; by rewrite upd_other.
  - intros Hreg. mstep. mstep. cbn [bsptimers set_PRIMASK]. by rewrite Hreg.
Qed.

(** The same for timer 0 with timers 200 and 100 queued ([Sample.pending]),
    and for timer 0 at start-up. *)
Lemma deinit_stops_device_and_keeps_queue_witness :
  0 <= 0 /\ nrf51_hal_timers Sample.cfg (Z.to_nat 0) = Some 0%nat /\
  tmr_reg (bsptimers Sample.pending 0) = Some 0%nat /\
  tmr_reg (bsptimers (Sample.power_on []) 0) = None /\
  (exists s',
     run (hal_timer_deinit Sample.cfg 0) Sample.pending = Ret Indeterminate s' /\
     RUNNING (NRF_TIMER s' 0) = false /\
     hal_timer_q (bsptimers s' 0) = [200; 100]) /\
  run (hal_timer_deinit Sample.cfg 0) (Sample.power_on []) = Undefined.
Proof.
  assert (H0 : 0 <= 0) by lia.
  assert (Hreg : tmr_reg (bsptimers Sample.pending 0) = Some 0%nat)
    by (vm_compute; reflexivity).
  split; [exact H0|]. split; [reflexivity|]. split; [exact Hreg|].
  split; [reflexivity|]. split.
  - destruct (proj1 (deinit_stops_device_and_keeps_queue Sample.cfg 0 0
                       Sample.pending H0 eq_refl) 0%nat Hreg)
      as (s' & Hrun & _ & Hstop & _ & _ & _ & Hq & _).
    exists s'. split; [exact Hrun|]. split; [exact Hstop|].
    rewrite Hq. vm_compute. reflexivity.
  - exact (proj2 (deinit_stops_device_and_keeps_queue Sample.cfg 0 0
                    (Sample.power_on []) H0 eq_refl) eq_refl).
Defined.
